(** * The Data Manager service of Amass: DNS-result ingestion and fan-out

    A shallow embedding of [services/datamgmtsrv.go].  Go strings are byte
    strings and are modelled by [string] (a list of 8-bit [ascii]); a rune
    is an [N], and the UTF-8 reading and writing that [strings.ToLower] does
    on a string that is not ASCII is written out.  The Go [int] of a record
    type is a [Z] and its [uint16] conversion is written out.  What a call
    does to the outside world (bus publications, sink inserts, sleeps, the
    semaphore) is collected in a trace of [Effect]s, and a Go panic ends a
    run with the trace produced so far. *)

From Stdlib Require Import ZArith NArith List Bool Ascii String Lia Arith.
Import ListNotations.

Open Scope string_scope.

(** ** Go's [strings] package on byte strings *)

Module GoStrings.

(** One byte of [strings.ToLower]'s loop over a string of ASCII bytes:
    ['A'..'Z'] gains ['a' - 'A'], every other byte is kept. *)
Definition lowerByte (c : ascii) : ascii :=
  let n := N_of_ascii c in
  if (65 <=? n)%N && (n <=? 90)%N then ascii_of_N (n + 32) else c.

Fixpoint lowerASCII (s : string) : string :=
  match s with
  | EmptyString => EmptyString
  | String c r => String (lowerByte c) (lowerASCII r)
  end.

(** [trimLeftByte] and [trimRightByte] of the Go library: [strings.Trim]
    with a one-byte ASCII cutset is their composition. *)
Fixpoint trimLeftByte (s : string) (c : ascii) : string :=
  match s with
  | EmptyString => EmptyString
  | String a r => if Ascii.eqb a c then trimLeftByte r c else s
  end.

Fixpoint trimRightByte (s : string) (c : ascii) : string :=
  match s with
  | EmptyString => EmptyString
  | String a r =>
      match trimRightByte r c with
      | EmptyString => if Ascii.eqb a c then EmptyString else String a EmptyString
      | r' => String a r'
      end
  end.

(** [strings.Trim(s, cutset)] for a cutset of exactly one ASCII byte. *)
Definition Trim (s : string) (c : ascii) : string :=
  trimLeftByte (trimRightByte s c) c.

(** The ASCII white space: ['\t', '\n', '\v', '\f', '\r', ' ']. *)
Definition isSpace (c : ascii) : bool :=
  let n := N_of_ascii c in
  ((9 <=? n)%N && (n <=? 13)%N) || (n =? 32)%N.

(** [strings.Split(s, sep)] for a one-byte separator: the fields between
    the separators, always at least one. *)
Fixpoint Split (s : string) (sep : ascii) : list string :=
  match s with
  | EmptyString => [EmptyString]
  | String a r =>
      if Ascii.eqb a sep then EmptyString :: Split r sep
      else match Split r sep with
           | [] => [String a EmptyString]
           | f :: fs => String a f :: fs
           end
  end.

(** First and last byte of a string, when there is one. *)
Definition firstByte (s : string) : option ascii :=
  match s with EmptyString => None | String a _ => Some a end.

Fixpoint lastByte (s : string) : option ascii :=
  match s with
  | EmptyString => None
  | String a EmptyString => Some a
  | String _ r => lastByte r
  end.

Fixpoint allBytes (p : ascii -> bool) (s : string) : bool :=
  match s with
  | EmptyString => true
  | String a r => p a && allBytes p r
  end.

(** *** UTF-8, as package [unicode/utf8] reads and writes it *)

Definition RuneError : N := 65533.
Definition MaxRune : N := 1114111.

(** [utf8.ValidRune]: a code point outside the surrogate range. *)
Definition ValidRune (r : N) : bool :=
  (r <? 55296)%N || ((57343 <? r)%N && (r <=? MaxRune)%N).

(** [utf8.EncodeRune]; a rune that is not valid is written as
    [RuneError].  [r >> 6] is [r / 64] and [r & 0x3F] is [r mod 64]. *)
Definition EncodeRune (r : N) : string :=
  if (r <=? 127)%N then String (ascii_of_N r) ""
  else if (r <=? 2047)%N then
    String (ascii_of_N (192 + r / 64))
      (String (ascii_of_N (128 + r mod 64)) "")
  else if negb (ValidRune r) then
    String (ascii_of_N 239) (String (ascii_of_N 191) (String (ascii_of_N 189) ""))
  else if (r <=? 65535)%N then
    String (ascii_of_N (224 + r / 4096))
      (String (ascii_of_N (128 + (r / 64) mod 64))
         (String (ascii_of_N (128 + r mod 64)) ""))
  else
    String (ascii_of_N (240 + r / 262144))
      (String (ascii_of_N (128 + (r / 4096) mod 64))
         (String (ascii_of_N (128 + (r / 64) mod 64))
            (String (ascii_of_N (128 + r mod 64)) ""))).

(** A continuation byte [10xxxxxx]. *)
Definition isCont (b : N) : bool := (128 <=? b)%N && (b <=? 191)%N.

(** The second byte a leading byte accepts ([acceptRanges] of the
    package): no lead below [0xC2] or above [0xF4], no over-long form, no
    surrogate, nothing above [MaxRune]. *)
Definition acceptRange (b0 b1 : N) : bool :=
  if (b0 <? 194)%N then false
  else if (b0 =? 224)%N then (160 <=? b1)%N && (b1 <=? 191)%N
  else if (b0 =? 237)%N then (128 <=? b1)%N && (b1 <=? 159)%N
  else if (b0 <? 240)%N then isCont b1
  else if (b0 =? 240)%N then (144 <=? b1)%N && (b1 <=? 191)%N
  else if (b0 <? 244)%N then isCont b1
  else if (b0 =? 244)%N then (128 <=? b1)%N && (b1 <=? 143)%N
  else false.

(** The runes of a string, as [for _, c := range s] yields them
    ([utf8.DecodeRuneInString] at each position): a byte that starts no
    well-formed sequence is [RuneError] of width one. *)
Fixpoint decodeRunes (s : string) : list N :=
  match s with
  | EmptyString => []
  | String a0 s0 =>
      let b0 := N_of_ascii a0 in
      if (b0 <? 128)%N then b0 :: decodeRunes s0
      else
        match s0 with
        | EmptyString => RuneError :: decodeRunes s0
        | String a1 s1 =>
            let b1 := N_of_ascii a1 in
            if negb (acceptRange b0 b1) then RuneError :: decodeRunes s0
            else if (b0 <? 224)%N then
              ((b0 - 192) * 64 + (b1 - 128))%N :: decodeRunes s1
            else
              match s1 with
              | EmptyString => RuneError :: decodeRunes s0
              | String a2 s2 =>
                  let b2 := N_of_ascii a2 in
                  if negb (isCont b2) then RuneError :: decodeRunes s0
                  else if (b0 <? 240)%N then
                    ((b0 - 224) * 4096 + (b1 - 128) * 64 + (b2 - 128))%N
                      :: decodeRunes s2
                  else
                    match s2 with
                    | EmptyString => RuneError :: decodeRunes s0
                    | String a3 s3 =>
                        let b3 := N_of_ascii a3 in
                        if negb (isCont b3) then RuneError :: decodeRunes s0
                        else
                          ((b0 - 240) * 262144 + (b1 - 128) * 4096
                           + (b2 - 128) * 64 + (b3 - 128))%N
                            :: decodeRunes s3
                    end
              end
        end
  end.

(** [strings.Builder.WriteRune] over a list of runes. *)
Fixpoint encodeRunes (rs : list N) : string :=
  match rs with
  | [] => EmptyString
  | r :: rs' => EncodeRune r ++ encodeRunes rs'
  end.

(** [strings.Map(mapping, s)] for a mapping that returns no negative
    rune: every rune of [s] is mapped and written. *)
Definition Map (mapping : N -> N) (s : string) : string :=
  encodeRunes (map mapping (decodeRunes s)).

Definition isASCII (s : string) : bool :=
  allBytes (fun a => (N_of_ascii a <? 128)%N) s.

(** [unicode.ToLower]: the ASCII letters are lowered by the code, every
    other rune by the case tables of package [unicode], [caseTable]. *)
Definition unicodeToLower (caseTable : N -> N) (r : N) : N :=
  if (r <=? 127)%N then
    if (65 <=? r)%N && (r <=? 90)%N then (r + 32)%N else r
  else caseTable r.

End GoStrings.

Import GoStrings.

(** ** Data model: the request types of package [requests] *)

(** [requests.DNSAnswer]: one resource record.  [ansType] is a Go [int]. *)
Record DNSAnswer : Type := mkDNSAnswer {
  ansName : string;
  ansType : Z;
  ansTTL  : Z;
  ansData : string
}.

(** [requests.DNSRequest]: a resolved query, and also the payload of the
    new-name topic. *)
Record DNSRequest : Type := mkDNSRequest {
  reqName    : string;
  reqDomain  : string;
  reqRecords : list DNSAnswer;
  reqTag     : string;
  reqSource  : string
}.

(** [requests.AddrRequest]: the payload of the new-address topic. *)
Record AddrRequest : Type := mkAddrRequest {
  addrAddress : string;
  addrDomain  : string;
  addrTag     : string;
  addrSource  : string
}.

(** [requests.ASNRequest], the fields [OnASNRequest] reads. *)
Record ASNRequest : Type := mkASNRequest {
  asnAddress     : string;
  asnASN         : Z;
  asnPrefix      : string;
  asnDescription : string;
  asnTag         : string;
  asnSource      : string
}.

(** Modelled from the spec: the tag constant [requests.DNS] (the spec's
    [tag: enum{DNS,...}]); its declaration is not part of the source file.
    No statement below depends on its spelling. *)
Definition DNS : string := "dns".

(** The RR type codes of [github.com/miekg/dns] used by the dispatcher. *)
Definition TypeA     : Z := 1.
Definition TypeNS    : Z := 2.
Definition TypeCNAME : Z := 5.
Definition TypePTR   : Z := 12.
Definition TypeMX    : Z := 15.
Definition TypeTXT   : Z := 16.
Definition TypeAAAA  : Z := 28.
Definition TypeSRV   : Z := 33.
Definition TypeSPF   : Z := 99.

(** Go's conversion [uint16(x)] of an [int]: the low 16 bits. *)
Definition uint16 (x : Z) : Z := Z.land x 65535.

(** ** Collaborators: configuration, sinks, bus *)

(** [config.Config] as this file uses it: the run identifier and the two
    scope queries, which are methods of the object found in the context. *)
Record Config : Type := mkConfig {
  UUID            : string;
  WhichDomain     : string -> string;
  IsDomainInScope : string -> bool
}.

(** The calls a graph database accepts. *)
Inductive GraphCall : Type :=
| InsertCNAME (fqdn target source tag eventID : string)
| InsertA     (fqdn addr source tag eventID : string)
| InsertAAAA  (fqdn addr source tag eventID : string)
| InsertPTR   (fqdn target source tag eventID : string)
| InsertSRV   (fqdn service target source tag eventID : string)
| InsertNS    (fqdn target source tag eventID : string)
| InsertMX    (fqdn target source tag eventID : string)
| InsertInfrastructure (asn : Z) (desc addr prefix source tag eventID : string).

(** A graph database: how it prints under [%s] / [%v], and the error (its
    message) or success with which it answers a call. *)
Record Graph : Type := mkGraph {
  graphString : string;
  graphInsert : GraphCall -> option string
}.

(** The service object: [String()] of the embedded base service and the
    sinks returned by [System().GraphDatabases()]. *)
Record DataManagerService : Type := mkDataManagerService {
  srvString      : string;
  GraphDatabases : list Graph
}.

Definition NewDataManagerService (sinks : list Graph) : DataManagerService :=
  mkDataManagerService "Data Manager" sinks.

Inductive EventBus : Type := TheEventBus.

Inductive Topic : Type := SetActiveTopic | NewNameTopic | NewAddrTopic | LogTopic.
Inductive Priority : Type := PriorityCritical | PriorityHigh.

Inductive Payload : Type :=
| PString (s : string)
| PDNSRequest (r : DNSRequest)
| PAddrRequest (a : AddrRequest).

(** What [ctx.Value(key)] holds for a key: nothing (the nil interface), a
    nil pointer of the expected type, or a pointer to an object. *)
Inductive CtxValue (T : Type) : Type :=
| NoValue
| NilPointer
| Pointer (x : T).
Arguments NoValue {T}.
Arguments NilPointer {T}.
Arguments Pointer {T} x.

Record Context : Type := mkContext {
  ContextConfig   : CtxValue Config;
  ContextEventBus : CtxValue EventBus
}.

(** ** Effects and runs *)

(** The record handlers of the service. *)
Inductive Handler : Type :=
| hCNAME | hA | hAAAA | hPTR | hSRV | hNS | hMX | hTXT | hSPF.

(** One observable step.  [Enter h i req] marks the call of handler [h] on
    record [i] with the request as it is at that moment; the other
    constructors are calls on collaborators. *)
Inductive Effect : Type :=
| Publish (topic : Topic) (prio : Priority) (payload : Payload)
| GraphInsert (g : string) (call : GraphCall)
| Enter (h : Handler) (recidx : nat) (req : DNSRequest)
| TryAcquire (n : Z) (ok : bool)
| Release (n : Z)
| Sleep (d : Z)
| Go.

Inductive Outcome (A : Type) : Type :=
| Returned (a : A)
| Panicked.
Arguments Returned {A} a.
Arguments Panicked {A}.

(** A run: the effects in order, and how it ended. *)
Definition Run (A : Type) : Type := (list Effect * Outcome A)%type.

Definition ret {A} (a : A) : Run A := ([], Returned a).
Definition panic {A} : Run A := ([], Panicked).
Definition emit (e : Effect) : Run unit := ([e], Returned tt).

Definition bind {A B} (m : Run A) (k : A -> Run B) : Run B :=
  match m with
  | (t, Panicked) => (t, Panicked)
  | (t, Returned a) => let (t', o) := k a in ((t ++ t')%list, o)
  end.

Notation "x <- m ;; k" := (bind m (fun x => k))
  (at level 61, m at next level, right associativity).
Notation "m ;; k" := (bind m (fun _ => k))
  (at level 61, right associativity).

(** [defer f()]: [f]'s effect follows the body, also when the body panics. *)
Definition defer {A} (e : Effect) (body : Run A) : Run A :=
  let (t, o) := body in ((t ++ [e])%list, o).

Definition trace {A} (m : Run A) : list Effect := fst m.
Definition outcome {A} (m : Run A) : Outcome A := snd m.

(** [bus.Publish(topic, priority, payload)]. *)
Definition publish (bus : EventBus) (topic : Topic) (prio : Priority)
    (payload : Payload) : Run unit :=
  emit (Publish topic prio payload).

(** [ctx.Value(key)] followed by the single-value type assertion to the
    pointer type: it panics on the nil interface and yields the stored
    pointer otherwise. *)
Definition asPointer {T} (v : CtxValue T) : Run (option T) :=
  match v with
  | NoValue => panic
  | NilPointer => ret None
  | Pointer x => ret (Some x)
  end.

(** [req.Records[recidx]]: indexing panics out of range. *)
Definition recordAt (req : DNSRequest) (recidx : nat) : Run DNSAnswer :=
  match nth_error (reqRecords req) recidx with
  | Some r => ret r
  | None => panic
  end.

(** The assignments [req.Records[i].Name = v] and [req.Records[i].Data = v].
    Their only user is the [range] loop over the same slice, so [i] is in
    range there; out of range the list is left as it is. *)
Fixpoint updateAt {A} (l : list A) (i : nat) (f : A -> A) : list A :=
  match l, i with
  | [], _ => []
  | x :: l', O => f x :: l'
  | x :: l', S i' => x :: updateAt l' i' f
  end.

Definition setRecordName (req : DNSRequest) (i : nat) (v : string) : DNSRequest :=
  mkDNSRequest (reqName req) (reqDomain req)
    (updateAt (reqRecords req) i
       (fun r => mkDNSAnswer v (ansType r) (ansTTL r) (ansData r)))
    (reqTag req) (reqSource req).

Definition setRecordData (req : DNSRequest) (i : nat) (v : string) : DNSRequest :=
  mkDNSRequest (reqName req) (reqDomain req)
    (updateAt (reqRecords req) i
       (fun r => mkDNSAnswer (ansName r) (ansType r) (ansTTL r) v))
    (reqTag req) (reqSource req).

(** One call [g.InsertX(...)], recorded, with the sink's answer. *)
Definition graphCall (g : Graph) (call : GraphCall) : Run (option string) :=
  emit (GraphInsert (graphString g) call) ;; ret (graphInsert g call).

(** [for _, g := range dms.System().GraphDatabases() { body }]. *)
Fixpoint forGraphs (gs : list Graph) (body : Graph -> Run unit) : Run unit :=
  match gs with
  | [] => ret tt
  | g :: gs' => body g ;; forGraphs gs' body
  end.

(** [for _, s := range matches { body }]. *)
Fixpoint forStrings (ss : list string) (body : string -> Run unit) : Run unit :=
  match ss with
  | [] => ret tt
  | s :: ss' => body s ;; forStrings ss' body
  end.

(** ** Observations on traces *)

(** The requests published on the new-name topic. *)
Fixpoint nameEvents (t : list Effect) : list DNSRequest :=
  match t with
  | [] => []
  | Publish NewNameTopic _ (PDNSRequest r) :: t' => r :: nameEvents t'
  | _ :: t' => nameEvents t'
  end.

Definition isPublishOn (topic : Topic) (e : Effect) : bool :=
  match e, topic with
  | Publish SetActiveTopic _ _, SetActiveTopic => true
  | Publish NewNameTopic _ _, NewNameTopic => true
  | Publish NewAddrTopic _ _, NewAddrTopic => true
  | Publish LogTopic _ _, LogTopic => true
  | _, _ => false
  end.

Definition isGraphInsert (e : Effect) : bool :=
  match e with GraphInsert _ _ => true | _ => false end.

(** A trace without its log publications. *)
Definition withoutLogs (t : list Effect) : list Effect :=
  filter (fun e => negb (isPublishOn LogTopic e)) t.

(** The sink calls of a trace: which sink, which call. *)
Fixpoint graphInserts (t : list Effect) : list (string * GraphCall) :=
  match t with
  | [] => []
  | GraphInsert g c :: t' => (g, c) :: graphInserts t'
  | _ :: t' => graphInserts t'
  end.

(** The handler calls of a trace: which handler, on which record. *)
Fixpoint handlerCalls (t : list Effect) : list (Handler * nat) :=
  match t with
  | [] => []
  | Enter h i _ :: t' => (h, i) :: handlerCalls t'
  | _ :: t' => handlerCalls t'
  end.

(** The request each handler call of a trace was given. *)
Fixpoint handlerInputs (t : list Effect) : list DNSRequest :=
  match t with
  | [] => []
  | Enter _ _ req :: t' => req :: handlerInputs t'
  | _ :: t' => handlerInputs t'
  end.

(** The durations slept, in order. *)
Fixpoint sleeps (t : list Effect) : list Z :=
  match t with
  | [] => []
  | Sleep d :: t' => d :: sleeps t'
  | _ :: t' => sleeps t'
  end.

(** Nothing but heartbeats, handler entries and semaphore or scheduling
    steps: no name, address or log publication and no sink call. *)
Definition isQuiet (e : Effect) : bool :=
  match e with
  | Publish SetActiveTopic _ _ => true
  | Publish _ _ _ => false
  | GraphInsert _ _ => false
  | _ => true
  end.

(** Properties of a normalised string, as the specification words them. *)
Definition noOuterSpace (s : string) : Prop :=
  (forall a, firstByte s = Some a -> isSpace a = false) /\
  (forall a, lastByte s = Some a -> isSpace a = false).

Definition noTrailingDot (s : string) : Prop := lastByte s <> Some "."%char.
Definition noLeadingDot (s : string) : Prop := firstByte s <> Some "."%char.

(** The choices of one pass through the [select] of [OnDNSRequest]: the quit
    channel is ready, the ticker fired, or neither and [TryAcquire] answers
    [acquired]. *)
Inductive SelectCase : Type :=
| SelQuit
| SelTick
| SelDefault (acquired : bool).

(** How [OnDNSRequest] ends, with the local [curIdx] at that point; the
    request of [ExitAdmitted] is the caller's request after the admitted
    task ran.  [ExitWaiting] stands for a loop still running when the
    observed choices end. *)
Inductive Exit : Type :=
| ExitNoBus
| ExitQuit (curIdx : nat)
| ExitAdmitted (curIdx : nat) (req : DNSRequest)
| ExitWaiting (curIdx : nat).

Definition Millisecond : Z := 1000000.

(** A request with its records replaced. *)
Definition withRecords (req : DNSRequest) (rs : list DNSAnswer) : DNSRequest :=
  mkDNSRequest (reqName req) (reqDomain req) rs (reqTag req) (reqSource req).

(** Two runs that end alike and differ at most in log publications, which
    only the first may have. *)
Definition sameButLogs {A} (m m0 : Run A) : Prop :=
  withoutLogs (trace m) = trace m0 /\ outcome m = outcome m0.

Definition notLog (e : Effect) : Prop := isPublishOn LogTopic e = false.

(** A run that does not panic and whose effects are all quiet. *)
Definition calm {A} (m : Run A) : Prop :=
  Forall (fun e => isQuiet e = true) (trace m) /\ outcome m <> Panicked.

(** A property of a run's trace. *)
Definition holds (P : list Effect -> Prop) {A} (m : Run A) : Prop := P (trace m).

(** The trace of one sink loop: each sink is called with [c], and a sink that
    answers with an error is followed by its log line. *)
Definition fanout (gs : list Graph) (c : GraphCall)
    (msg : Graph -> string -> string) : list Effect :=
  flat_map (fun g =>
    GraphInsert (graphString g) c ::
    match graphInsert g c with
    | Some e => [Publish LogTopic PriorityHigh (PString (msg g e))]
    | None => []
    end) gs.

(** The lines published on the log topic, in order. *)
Fixpoint logLines (t : list Effect) : list string :=
  match t with
  | [] => []
  | Publish LogTopic _ (PString s) :: t' => s :: logLines t'
  | _ :: t' => logLines t'
  end.

(** The run of a handler that reaches its sink loop: the trace of the loop,
    then what the handler publishes after it, and a normal return. *)
Definition sinkRun (dms : DataManagerService) (c : GraphCall)
    (msg : Graph -> string -> string) (after : list Effect) : Run unit :=
  ((fanout (GraphDatabases dms) c msg ++ after)%list, Returned tt).

(** A sink of the same name that never fails, and a service whose sinks are
    all of that kind. *)
Definition reliableGraph (g : Graph) : Graph :=
  mkGraph (graphString g) (fun _ => None).

Definition reliable (dms : DataManagerService) : DataManagerService :=
  mkDataManagerService (srvString dms) (map reliableGraph (GraphDatabases dms)).

(** Whenever some sink was given a call, every sink of [gs] was given it. *)
Definition allSinksCalled (gs : list Graph) (t : list Effect) : Prop :=
  forall g0 c, In (g0, c) (graphInserts t) ->
  forall g, In g gs -> In (graphString g, c) (graphInserts t).

(** A new-name publication carries a non-empty domain. *)
Definition domainOK (e : Effect) : Prop :=
  match e with
  | Publish NewNameTopic _ (PDNSRequest r) => reqDomain r <> ""
  | _ => True
  end.

Definition notEnter (e : Effect) : Prop :=
  match e with Enter _ _ _ => False | _ => True end.

Definition notSleep (e : Effect) : Prop :=
  match e with Sleep _ => False | _ => True end.

Definition isCNAME (r : DNSAnswer) : Prop := uint16 (ansType r) = TypeCNAME.

(** The [n]-th delay of the specification's table, as a duration. *)
Definition delayAt (n : nat) : Z :=
  (nth (Nat.min n 6) [25; 50; 75; 100; 150; 250; 500] 0 * Millisecond)%Z.

(** ** Further observations *)

(** The requests published on the new-address topic. *)
Fixpoint addrEvents (t : list Effect) : list AddrRequest :=
  match t with
  | [] => []
  | Publish NewAddrTopic _ (PAddrRequest a) :: t' => a :: addrEvents t'
  | _ :: t' => addrEvents t'
  end.

(** How many effects of a trace satisfy a test. *)
Definition countEffects (p : Effect -> bool) (t : list Effect) : nat :=
  List.length (filter p t).

Definition isRelease (e : Effect) : bool :=
  match e with Release _ => true | _ => false end.

Definition isAcquired (e : Effect) : bool :=
  match e with TryAcquire _ true => true | _ => false end.

Definition isLogPublish (e : Effect) : bool := isPublishOn LogTopic e.

(** What a call does while it waits for the slot: heartbeats, failed
    attempts and sleeps. *)
Definition isWaitingEffect (e : Effect) : bool :=
  match e with
  | Publish SetActiveTopic _ _ => true
  | TryAcquire _ false => true
  | Sleep _ => true
  | _ => false
  end.

(** A pass of the [select] that neither ends the call nor gets the slot. *)
Definition isWaitingChoice (c : SelectCase) : bool :=
  match c with
  | SelTick => true
  | SelDefault false => true
  | _ => false
  end.

Definition isBusy (c : SelectCase) : bool :=
  match c with SelDefault false => true | _ => false end.

(** What the admitted task does until it gives the slot back: publications,
    sink calls and handler entries. *)
Definition isTaskEffect (e : Effect) : bool :=
  match e with
  | Publish _ _ _ => true
  | GraphInsert _ _ => true
  | Enter _ _ _ => true
  | _ => false
  end.

(** The retry counter after the passes [pre] of the [select], from [k]. *)
Definition retryIndex (k : nat) (pre : list SelectCase) : nat :=
  Nat.min (k + List.length (filter isBusy pre)) 6.

(** A run that does not panic. *)
Definition safe {A} (m : Run A) : Prop := outcome m <> Panicked.

(** The handler the second loop of the dispatcher has for a type code. *)
Definition handlerOf (t : Z) : option Handler :=
  if (t =? TypeA)%Z then Some hA
  else if (t =? TypeAAAA)%Z then Some hAAAA
  else if (t =? TypePTR)%Z then Some hPTR
  else if (t =? TypeSRV)%Z then Some hSRV
  else if (t =? TypeNS)%Z then Some hNS
  else if (t =? TypeMX)%Z then Some hMX
  else if (t =? TypeTXT)%Z then Some hTXT
  else if (t =? TypeSPF)%Z then Some hSPF
  else None.

(** The records that have a handler, in input order, each with its index,
    counting from [i]. *)
Fixpoint supportedFrom (i : nat) (rs : list DNSAnswer) : list (Handler * nat) :=
  match rs with
  | [] => []
  | r :: rs' =>
      match handlerOf (uint16 (ansType r)) with
      | Some h => (h, i) :: supportedFrom (S i) rs'
      | None => supportedFrom (S i) rs'
      end
  end.

Fixpoint hasByte (c : ascii) (s : string) : bool :=
  match s with
  | EmptyString => false
  | String a r => Ascii.eqb a c || hasByte c r
  end.

(** ** Sample collaborators and inputs

    Concrete instances on which the definitions below are run. *)

Module Sample.

(** Drops one final ['.'], as the name of [resolvers.RemoveLastDot] says. *)
Fixpoint RemoveLastDot (name : string) : string :=
  match name with
  | EmptyString => EmptyString
  | String a EmptyString => if Ascii.eqb a "." then EmptyString else name
  | String a r => String a (RemoveLastDot r)
  end.

(** A registrable-domain function for the samples: the last two labels of
    a name with at least two non-empty final labels, an error otherwise. *)
Definition EffectiveTLDPlusOne (name : string) : option string :=
  match rev (Split name ".") with
  | tld :: sld :: _ =>
      if (tld =? "") || (sld =? "") then None else Some (sld ++ "." ++ tld)
  | _ => None
  end.

(** White-space trimming for the samples, after [strings.TrimSpace]: the
    white space of [unicode.IsSpace] goes from both ends, which is the ASCII
    white space, [U+0085] and [U+00A0] (two bytes in UTF-8), and [U+1680],
    [U+2000..U+200A], [U+2028], [U+2029], [U+202F], [U+205F] and [U+3000]
    (three bytes). *)
Definition space2 (b0 b1 : N) : bool :=
  (b0 =? 194)%N && ((b1 =? 133)%N || (b1 =? 160)%N).

Definition space3 (b0 b1 b2 : N) : bool :=
  ((b0 =? 225)%N && (b1 =? 154)%N && (b2 =? 128)%N)
  || ((b0 =? 226)%N && (b1 =? 128)%N
      && (((128 <=? b2)%N && (b2 <=? 138)%N)
          || (b2 =? 168)%N || (b2 =? 169)%N || (b2 =? 175)%N))
  || ((b0 =? 226)%N && (b1 =? 129)%N && (b2 =? 159)%N)
  || ((b0 =? 227)%N && (b1 =? 128)%N && (b2 =? 128)%N).

(** The bytes of a string without its leading white space; with [back] the
    bytes are those of the reversed string, so that a rune of several bytes
    comes last byte first. *)
Fixpoint dropSpace (back : bool) (bs : list ascii) : list ascii :=
  match bs with
  | [] => []
  | a0 :: t0 =>
      if isSpace a0 then dropSpace back t0
      else
        match t0 with
        | a1 :: t1 =>
            let x := N_of_ascii a0 in
            let y := N_of_ascii a1 in
            if (if back then space2 y x else space2 x y) then dropSpace back t1
            else
              match t1 with
              | a2 :: t2 =>
                  let z := N_of_ascii a2 in
                  if (if back then space3 z y x else space3 x y z)
                  then dropSpace back t2
                  else bs
              | [] => bs
              end
        | [] => bs
        end
  end.

Definition TrimSpace (s : string) : string :=
  string_of_list_ascii
    (rev (dropSpace true (rev (dropSpace false (list_ascii_of_string s))))).

(** A fragment of the case tables for the samples: the capital letters of
    Latin-1 ([U+00C0..U+00DE] without the multiplication sign) gain 32, the
    Kelvin sign [U+212A] becomes ['k'], every other rune is kept. *)
Definition caseTable (r : N) : N :=
  if (192 <=? r)%N && (r <=? 222)%N && negb (r =? 215)%N then (r + 32)%N
  else if (r =? 8490)%N then 107%N
  else r.

(** Names that are not ASCII: a capital E with acute accent ([c3 89]) before
    [COLE.Example.COM.], the same name lowered, and a name that starts with
    the Kelvin sign ([e2 84 aa]). *)
Definition ecole : string :=
  String (ascii_of_N 195) (String (ascii_of_N 137) "COLE.Example.COM.").

Definition ecoleLow : string :=
  String (ascii_of_N 195) (String (ascii_of_N 169) "cole.example.com.").

Definition kelvin : string :=
  String (ascii_of_N 226) (String (ascii_of_N 132) (String (ascii_of_N 170)
    ".Example.COM")).

Definition spfText : string :=
  "v=spf1 include:_spf.example.com ip4:203.0.113.5 -all".

Definition IPv4FindAll (data : string) : list string :=
  if data =? spfText then ["203.0.113.5"] else [].

Definition AnySubdomainFindAll (data : string) : list string :=
  if data =? spfText then ["_spf.example.com"] else [].

(** A scope holding [example.com] only. *)
Definition inScope (name : string) : bool :=
  match EffectiveTLDPlusOne name with
  | Some d => d =? "example.com"
  | None => false
  end.

Definition cfg : Config :=
  mkConfig "run-1" (fun name => if inScope name then "example.com" else "") inScope.

(** Three sinks, the second of which fails every call. *)
Definition good1 : Graph := mkGraph "graph-1" (fun _ => None).
Definition bad : Graph := mkGraph "graph-2" (fun _ => Some "disk full").
Definition good2 : Graph := mkGraph "graph-3" (fun _ => None).

Definition dms : DataManagerService := NewDataManagerService [good1; bad; good2].
Definition dms1 : DataManagerService := NewDataManagerService [good1].

Definition ctx : Context := mkContext (Pointer cfg) (Pointer TheEventBus).
Definition ctxNilConfig : Context := mkContext NilPointer (Pointer TheEventBus).
Definition ctxNilBus : Context := mkContext (Pointer cfg) NilPointer.
Definition ctxNoConfig : Context := mkContext NoValue (Pointer TheEventBus).
Definition ctxEmpty : Context := mkContext NoValue NoValue.

Definition reqOf (records : list DNSAnswer) : DNSRequest :=
  mkDNSRequest "www.example.com" "example.com" records DNS "DNS".

Definition cnameThenA : DNSRequest :=
  reqOf [ mkDNSAnswer " WWW.Example.COM." TypeCNAME 300 "Edge.CDN.Example.NET.";
          mkDNSAnswer "Other.Example.COM." TypeA 300 "192.0.2.1" ].

Definition oneA : DNSRequest :=
  reqOf [ mkDNSAnswer "www.example.com" TypeA 300 "192.0.2.1" ].

Definition onePTR : DNSRequest :=
  mkDNSRequest "1.2.0.192.in-addr.arpa" "" 
    [ mkDNSAnswer "1.2.0.192.in-addr.arpa" TypePTR 300 "host.other.org." ]
    DNS "Reverse DNS".

Definition oneNS : DNSRequest :=
  reqOf [ mkDNSAnswer "example.com" TypeNS 300 "example.com,ns1.example.com" ].

Definition apexNS : DNSRequest :=
  reqOf [ mkDNSAnswer "example.com" TypeNS 300 "example.com" ].

Definition oneMX : DNSRequest :=
  reqOf [ mkDNSAnswer "example.com" TypeMX 300 "mail.example.com." ].

Definition oneTXT : DNSRequest :=
  reqOf [ mkDNSAnswer "example.com" TypeTXT 300 spfText ].

Definition oneSPF : DNSRequest :=
  reqOf [ mkDNSAnswer "example.com" TypeSPF 300 spfText ].

(** A CNAME whose target has no registrable domain. *)
Definition badCNAME : DNSRequest :=
  reqOf [ mkDNSAnswer "www.example.com" TypeCNAME 300 "localhost" ].

Definition asn : ASNRequest :=
  mkASNRequest "192.0.2.1" 64496 "192.0.2.0/24" "EXAMPLE-AS" "api" "Sample".

(** Records of the types A, SOA (which has no handler), MX, and of the type
    A plus 65536. *)
Definition mixed : DNSRequest :=
  reqOf [ mkDNSAnswer "www.example.com" TypeA 300 "192.0.2.1";
          mkDNSAnswer "example.com" 6 300 "ns1.example.com";
          mkDNSAnswer "example.com" TypeMX 300 "mail.example.com";
          mkDNSAnswer "www.example.com" 65537 300 "192.0.2.2" ].

(** An SRV record whose target is out of scope. *)
Definition oneSRV : DNSRequest :=
  reqOf [ mkDNSAnswer "_sip._tcp.example.com" TypeSRV 300 "sip.other.org" ].

(** A CNAME whose target is its own registrable domain. *)
Definition apexCNAME : DNSRequest :=
  reqOf [ mkDNSAnswer "www.example.com" TypeCNAME 300 "example.net" ].

(** A TXT answer for a name out of scope. *)
Definition foreignTXT : DNSRequest :=
  mkDNSRequest "www.other.org" "other.org"
    [ mkDNSAnswer "www.other.org" TypeTXT 300 spfText ] DNS "DNS".

Definition asnNoPrefix : ASNRequest :=
  mkASNRequest "192.0.2.1" 64496 "" "EXAMPLE-AS" "api" "Sample".

(** The slot is busy nine times, then free. *)
Definition blocked : list SelectCase :=
  (repeat (SelDefault false) 9 ++ [SelDefault true])%list.

End Sample.

(** ** The service *)

Section Service.

(** Functions of other packages, taken as they are:
    [resolvers.RemoveLastDot]; [publicsuffix.EffectiveTLDPlusOne], whose
    error is [None]; and [FindAllString(data, -1)] of the compiled
    [net.IPv4RE] and of [amassdns.AnySubdomainRegex()]. *)
Variable RemoveLastDot : string -> string.
Variable EffectiveTLDPlusOne : string -> option string.
Variable IPv4FindAll : string -> list string.
Variable AnySubdomainFindAll : string -> list string.

(** [strings.TrimSpace] of the Go library, taken as it is: the handlers
    only test its result for emptiness and pass it on. *)
Variable TrimSpace : string -> string.

(** The case tables of package [unicode]: [caseTable r] is
    [unicode.To(unicode.LowerCase, r)], the lower case the tables give a rune
    above ASCII. *)
Variable caseTable : N -> N.

(** [strings.ToLower]: a string of ASCII bytes is lowered byte by byte,
    any other string by [strings.Map(unicode.ToLower, s)], which also
    rewrites every byte that is not UTF-8 as [RuneError]. *)
Definition ToLower (s : string) : string :=
  if isASCII s then lowerASCII s else Map (unicodeToLower caseTable) s.

(** The normalisation the dispatcher applies to a record's name and to its
    data: [strings.Trim(strings.ToLower(x), ".")]. *)
Definition normalize (x : string) : string := Trim (ToLower x) ".".

(** A record after both assignments of the first loop. *)
Definition normalizeRecord (r : DNSAnswer) : DNSAnswer :=
  mkDNSAnswer (normalize (ansName r)) (ansType r) (ansTTL r) (normalize (ansData r)).

(** What the case tables are taken to give where a theorem says so: the
    lower case of a code point above ASCII is a code point, and is its own
    lower case. *)
Definition caseTableLowers : Prop :=
  (forall r, (127 < r)%N -> ValidRune r = true ->
     ValidRune (caseTable r) = true) /\
  (forall r, (127 < r)%N -> ValidRune r = true ->
     unicodeToLower caseTable (caseTable r) = caseTable r).

(** A rune that is valid and that [unicode.ToLower] keeps. *)
Definition lowRune (r : N) : Prop :=
  ValidRune r = true /\ unicodeToLower caseTable r = r.

(** Strings that are the encoding of runes all satisfying [Q]. *)
Definition encoded (Q : N -> Prop) (s : string) : Prop :=
  exists rs, Forall Q rs /\ s = encodeRunes rs.

(** The bytes of an encoded rune: one byte below [0x80] for an ASCII rune,
    bytes from [0x80] on for every other. *)
Inductive encoding (r : N) : string -> Prop :=
| enc_ascii : (r <= 127)%N -> encoding r (String (ascii_of_N r) "")
| enc_high (b : N) (t : string) :
    (128 <= b < 256)%N ->
    allBytes (fun a => (128 <=? N_of_ascii a)%N) t = true ->
    encoding r (String (ascii_of_N b) t).

(** A lower-case string: one that lower-casing leaves as it is. *)
Definition isLowerCase (s : string) : Prop := ToLower s = s.

(** What the specification asks of a normalised string, and what the code's
    normalisation gives. *)
Definition specNormalized (s : string) : Prop :=
  noOuterSpace s /\ noTrailingDot s /\ isLowerCase s.

Definition codeNormalized (s : string) : Prop :=
  noLeadingDot s /\ noTrailingDot s /\ isLowerCase s.

(** The body shared by the sink loops: log the error of a failed call. *)
Definition logFailure (bus : EventBus) (err : option string)
    (msg : string -> string) : Run unit :=
  match err with
  | Some e => publish bus LogTopic PriorityHigh (PString (msg e))
  | None => ret tt
  end.

Definition heartbeat (bus : EventBus) (dms : DataManagerService) : Run unit :=
  publish bus SetActiveTopic PriorityCritical (PString (srvString dms)).

Definition OnASNRequest (ctx : Context) (dms : DataManagerService)
    (req : ASNRequest) : Run unit :=
  if (asnAddress req =? "") || (asnPrefix req =? "") || (asnDescription req =? "")
  then ret tt
  else
    cfg <- asPointer (ContextConfig ctx) ;;
    bus <- asPointer (ContextEventBus ctx) ;;
    match cfg, bus with
    | Some cfg, Some bus =>
        forGraphs (GraphDatabases dms) (fun g =>
          err <- graphCall g
                   (InsertInfrastructure (asnASN req) (asnDescription req)
                      (asnAddress req) (asnPrefix req) (asnSource req)
                      (asnTag req) (UUID cfg)) ;;
          logFailure bus err (fun e =>
            srvString dms ++ ": " ++ graphString g
              ++ " failed to insert infrastructure data: " ++ e)) ;;
        heartbeat bus dms
    | _, _ => ret tt
    end.

Definition insertCNAME (ctx : Context) (dms : DataManagerService)
    (req : DNSRequest) (recidx : nat) : Run unit :=
  cfg <- asPointer (ContextConfig ctx) ;;
  bus <- asPointer (ContextEventBus ctx) ;;
  match cfg, bus with
  | Some cfg, Some bus =>
      r <- recordAt req recidx ;;
      let target := RemoveLastDot (ansData r) in
      if target =? "" then ret tt
      else
        match EffectiveTLDPlusOne target with
        | None => ret tt
        | Some domain =>
            let domain := ToLower domain in
            if domain =? "" then ret tt
            else
              forGraphs (GraphDatabases dms) (fun g =>
                err <- graphCall g
                         (InsertCNAME (reqName req) target (reqSource req)
                            (reqTag req) (UUID cfg)) ;;
                logFailure bus err (fun e =>
                  graphString g ++ " failed to insert CNAME: " ++ e)) ;;
              publish bus NewNameTopic PriorityHigh
                (PDNSRequest (mkDNSRequest target domain [] DNS "DNS")) ;;
              heartbeat bus dms
        end
  | _, _ => ret tt
  end.

Definition insertA (ctx : Context) (dms : DataManagerService)
    (req : DNSRequest) (recidx : nat) : Run unit :=
  cfg <- asPointer (ContextConfig ctx) ;;
  bus <- asPointer (ContextEventBus ctx) ;;
  match cfg, bus with
  | Some cfg, Some bus =>
      r <- recordAt req recidx ;;
      let addr := TrimSpace (ansData r) in
      if addr =? "" then ret tt
      else
        forGraphs (GraphDatabases dms) (fun g =>
          err <- graphCall g
                   (InsertA (reqName req) addr (reqSource req)
                      (reqTag req) (UUID cfg)) ;;
          logFailure bus err (fun e =>
            graphString g ++ " failed to insert A record: " ++ e)) ;;
        publish bus NewAddrTopic PriorityHigh
          (PAddrRequest
             (mkAddrRequest addr (reqDomain req) (reqTag req) (reqSource req))) ;;
        heartbeat bus dms
  | _, _ => ret tt
  end.

Definition insertAAAA (ctx : Context) (dms : DataManagerService)
    (req : DNSRequest) (recidx : nat) : Run unit :=
  cfg <- asPointer (ContextConfig ctx) ;;
  bus <- asPointer (ContextEventBus ctx) ;;
  match cfg, bus with
  | Some cfg, Some bus =>
      r <- recordAt req recidx ;;
      let addr := TrimSpace (ansData r) in
      if addr =? "" then ret tt
      else
        forGraphs (GraphDatabases dms) (fun g =>
          err <- graphCall g
                   (InsertAAAA (reqName req) addr (reqSource req)
                      (reqTag req) (UUID cfg)) ;;
          logFailure bus err (fun e =>
            graphString g ++ " failed to insert AAAA record: " ++ e)) ;;
        publish bus NewAddrTopic PriorityHigh
          (PAddrRequest
             (mkAddrRequest addr (reqDomain req) (reqTag req) (reqSource req))) ;;
        heartbeat bus dms
  | _, _ => ret tt
  end.

Definition insertPTR (ctx : Context) (dms : DataManagerService)
    (req : DNSRequest) (recidx : nat) : Run unit :=
  cfg <- asPointer (ContextConfig ctx) ;;
  bus <- asPointer (ContextEventBus ctx) ;;
  match cfg, bus with
  | Some cfg, Some bus =>
      r <- recordAt req recidx ;;
      let target := RemoveLastDot (ansData r) in
      if target =? "" then ret tt
      else
        (* Do not go further if the target is not in scope *)
        let domain := ToLower (WhichDomain cfg target) in
        if domain =? "" then ret tt
        else
          forGraphs (GraphDatabases dms) (fun g =>
            err <- graphCall g
                     (InsertPTR (reqName req) target (reqSource req)
                        (reqTag req) (UUID cfg)) ;;
            logFailure bus err (fun e =>
              graphString g ++ " failed to insert PTR record: " ++ e)) ;;
          publish bus NewNameTopic PriorityHigh
            (PDNSRequest (mkDNSRequest target domain [] DNS (reqSource req))) ;;
          heartbeat bus dms
  | _, _ => ret tt
  end.

Definition insertSRV (ctx : Context) (dms : DataManagerService)
    (req : DNSRequest) (recidx : nat) : Run unit :=
  cfg <- asPointer (ContextConfig ctx) ;;
  bus <- asPointer (ContextEventBus ctx) ;;
  match cfg, bus with
  | Some cfg, Some bus =>
      r <- recordAt req recidx ;;
      let service := RemoveLastDot (ansName r) in
      let target := RemoveLastDot (ansData r) in
      if (target =? "") || (service =? "") then ret tt
      else
        forGraphs (GraphDatabases dms) (fun g =>
          err <- graphCall g
                   (InsertSRV (reqName req) service target (reqSource req)
                      (reqTag req) (UUID cfg)) ;;
          logFailure bus err (fun e =>
            graphString g ++ " failed to insert SRV record: " ++ e)) ;;
        (let domain := WhichDomain cfg target in
         if negb (domain =? "")
         then publish bus NewNameTopic PriorityHigh
                (PDNSRequest
                   (mkDNSRequest target domain [] (reqTag req) (reqSource req)))
         else ret tt) ;;
        heartbeat bus dms
  | _, _ => ret tt
  end.

Definition insertNS (ctx : Context) (dms : DataManagerService)
    (req : DNSRequest) (recidx : nat) : Run unit :=
  cfg <- asPointer (ContextConfig ctx) ;;
  bus <- asPointer (ContextEventBus ctx) ;;
  match cfg, bus with
  | Some cfg, Some bus =>
      r <- recordAt req recidx ;;
      let pieces := Split (ansData r) "," in
      let target := last pieces "" in
      if target =? "" then ret tt
      else
        match EffectiveTLDPlusOne target with
        | None => ret tt
        | Some domain =>
            let domain := ToLower domain in
            if domain =? "" then ret tt
            else
              forGraphs (GraphDatabases dms) (fun g =>
                err <- graphCall g
                         (InsertNS (reqName req) target (reqSource req)
                            (reqTag req) (UUID cfg)) ;;
                logFailure bus err (fun e =>
                  graphString g ++ " failed to insert NS record: " ++ e)) ;;
              (if negb (target =? domain)
               then publish bus NewNameTopic PriorityHigh
                      (PDNSRequest (mkDNSRequest target domain [] DNS "DNS"))
               else ret tt) ;;
              heartbeat bus dms
        end
  | _, _ => ret tt
  end.

Definition insertMX (ctx : Context) (dms : DataManagerService)
    (req : DNSRequest) (recidx : nat) : Run unit :=
  cfg <- asPointer (ContextConfig ctx) ;;
  bus <- asPointer (ContextEventBus ctx) ;;
  match cfg, bus with
  | Some cfg, Some bus =>
      r <- recordAt req recidx ;;
      let target := RemoveLastDot (ansData r) in
      if target =? "" then ret tt
      else
        match EffectiveTLDPlusOne target with
        | None => ret tt
        | Some domain =>
            let domain := ToLower domain in
            if domain =? "" then ret tt
            else
              forGraphs (GraphDatabases dms) (fun g =>
                err <- graphCall g
                         (InsertMX (reqName req) target (reqSource req)
                            (reqTag req) (UUID cfg)) ;;
                logFailure bus err (fun e =>
                  graphString g ++ " failed to insert MX record: " ++ e)) ;;
              (if negb (target =? domain)
               then publish bus NewNameTopic PriorityHigh
                      (PDNSRequest (mkDNSRequest target domain [] DNS "DNS"))
               else ret tt) ;;
              heartbeat bus dms
        end
  | _, _ => ret tt
  end.

(** The Text Miner. *)
Definition findNamesAndAddresses (ctx : Context) (dms : DataManagerService)
    (data domain : string) : Run unit :=
  cfg <- asPointer (ContextConfig ctx) ;;
  bus <- asPointer (ContextEventBus ctx) ;;
  match cfg, bus with
  | Some cfg, Some bus =>
      forStrings (IPv4FindAll data) (fun ip =>
        publish bus NewAddrTopic PriorityHigh
          (PAddrRequest (mkAddrRequest ip domain DNS "DNS"))) ;;
      forStrings (AnySubdomainFindAll data) (fun name =>
        if negb (IsDomainInScope cfg name) then ret tt
        else
          let domain := ToLower (WhichDomain cfg name) in
          if domain =? "" then ret tt
          else publish bus NewNameTopic PriorityHigh
                 (PDNSRequest (mkDNSRequest name domain [] DNS "DNS"))) ;;
      heartbeat bus dms
  | _, _ => ret tt
  end.

Definition insertTXT (ctx : Context) (dms : DataManagerService)
    (req : DNSRequest) (recidx : nat) : Run unit :=
  cfg <- asPointer (ContextConfig ctx) ;;
  match cfg with
  | None => ret tt
  | Some cfg =>
      if negb (IsDomainInScope cfg (reqName req)) then ret tt
      else
        r <- recordAt req recidx ;;
        findNamesAndAddresses ctx dms (ansData r) (reqDomain req)
  end.

Definition insertSPF (ctx : Context) (dms : DataManagerService)
    (req : DNSRequest) (recidx : nat) : Run unit :=
  cfg <- asPointer (ContextConfig ctx) ;;
  match cfg with
  | None => ret tt
  | Some cfg =>
      if negb (IsDomainInScope cfg (reqName req)) then ret tt
      else
        r <- recordAt req recidx ;;
        findNamesAndAddresses ctx dms (ansData r) (reqDomain req)
  end.

(** The function behind each handler name. *)
Definition handlerBody (h : Handler)
    : Context -> DataManagerService -> DNSRequest -> nat -> Run unit :=
  match h with
  | hCNAME => insertCNAME
  | hA => insertA
  | hAAAA => insertAAAA
  | hPTR => insertPTR
  | hSRV => insertSRV
  | hNS => insertNS
  | hMX => insertMX
  | hTXT => insertTXT
  | hSPF => insertSPF
  end.

(** A call [dms.insertX(ctx, req, i)] from the dispatcher, marked in the
    trace. *)
Definition call (h : Handler) (ctx : Context) (dms : DataManagerService)
    (req : DNSRequest) (i : nat) : Run unit :=
  emit (Enter h i req) ;; handlerBody h ctx dms req i.

(** The first loop of [processDNSRequest], from index [i] on, [rs] being
    the records not yet visited: normalise record [i] in place and stop at
    the first CNAME record after handing it to its handler.  The result is
    the request as the loop leaves it and whether the function returns
    here. *)
Fixpoint scanForCNAME (ctx : Context) (dms : DataManagerService)
    (req : DNSRequest) (i : nat) (rs : list DNSAnswer)
    : Run (DNSRequest * bool) :=
  match rs with
  | [] => ret (req, false)
  | r :: rs' =>
      let req := setRecordName req i (normalize (ansName r)) in
      let req := setRecordData req i (normalize (ansData r)) in
      if (uint16 (ansType r) =? TypeCNAME)%Z
      then
        call hCNAME ctx dms req i ;;
        (* Do not enter more than the CNAME record *)
        ret (req, true)
      else scanForCNAME ctx dms req (S i) rs'
  end.

(** The [switch] of the second loop. *)
Definition dispatch (ctx : Context) (dms : DataManagerService)
    (req : DNSRequest) (i : nat) (r : DNSAnswer) : Run unit :=
  let t := uint16 (ansType r) in
  if (t =? TypeA)%Z then call hA ctx dms req i
  else if (t =? TypeAAAA)%Z then call hAAAA ctx dms req i
  else if (t =? TypePTR)%Z then call hPTR ctx dms req i
  else if (t =? TypeSRV)%Z then call hSRV ctx dms req i
  else if (t =? TypeNS)%Z then call hNS ctx dms req i
  else if (t =? TypeMX)%Z then call hMX ctx dms req i
  else if (t =? TypeTXT)%Z then call hTXT ctx dms req i
  else if (t =? TypeSPF)%Z then call hSPF ctx dms req i
  else ret tt.

(** The second loop of [processDNSRequest], from index [i] on. *)
Fixpoint dispatchRecords (ctx : Context) (bus : EventBus)
    (dms : DataManagerService) (req : DNSRequest) (i : nat)
    (rs : list DNSAnswer) : Run unit :=
  match rs with
  | [] => ret tt
  | r :: rs' =>
      heartbeat bus dms ;;
      dispatch ctx dms req i r ;;
      dispatchRecords ctx bus dms req (S i) rs'
  end.

(** [processDNSRequest]; the result is the caller's request as the call
    leaves it. *)
Definition processDNSRequest (ctx : Context) (dms : DataManagerService)
    (req : DNSRequest) : Run DNSRequest :=
  defer (Release 1)
    (bus <- asPointer (ContextEventBus ctx) ;;
     match bus with
     | None => ret req
     | Some bus =>
         heartbeat bus dms ;;
         (* Check for CNAME records first *)
         scanned <- scanForCNAME ctx dms req 0 (reqRecords req) ;;
         let (req, found) := scanned in
         if found then ret req
         else
           dispatchRecords ctx bus dms req 0 (reqRecords req) ;;
           ret req
     end).

Definition maxIdx : nat := 6.
Definition delays : list Z := [25; 50; 75; 100; 150; 250; 500]%Z.

(** The loop of [OnDNSRequest] under the choices [script], one per pass. *)
Fixpoint admissionLoop (ctx : Context) (bus : EventBus)
    (dms : DataManagerService) (req : DNSRequest)
    (script : list SelectCase) (curIdx : nat) : Run Exit :=
  match script with
  | [] => ret (ExitWaiting curIdx)
  | SelQuit :: _ => ret (ExitQuit curIdx)
  | SelTick :: script' =>
      heartbeat bus dms ;;
      admissionLoop ctx bus dms req script' curIdx
  | SelDefault acquired :: script' =>
      emit (TryAcquire 1 acquired) ;;
      if negb acquired
      then
        match nth_error delays curIdx with
        | None => panic
        | Some d =>
            emit (Sleep (d * Millisecond)) ;;
            let curIdx := if (curIdx <? maxIdx)%nat then S curIdx else curIdx in
            admissionLoop ctx bus dms req script' curIdx
        end
      else
        let curIdx := 0 in
        emit Go ;;
        req' <- processDNSRequest ctx dms req ;;
        ret (ExitAdmitted curIdx req')
  end.

Definition OnDNSRequest (ctx : Context) (dms : DataManagerService)
    (req : DNSRequest) (script : list SelectCase) : Run Exit :=
  bus <- asPointer (ContextEventBus ctx) ;;
  match bus with
  | None => ret ExitNoBus
  | Some bus =>
      let curIdx := 0 in
      admissionLoop ctx bus dms req script curIdx
  end.



(** ** Facts about the string functions *)

(** *** UTF-8 and lower-casing *)

Local Open Scope N_scope.

Lemma byte_val (n : N) : n < 256 -> N_of_ascii (ascii_of_N n) = n.
Proof. apply N_ascii_embedding. Qed.

Lemma val_bound (a : ascii) : N_of_ascii a < 256.
Proof. apply N_ascii_bounded. Qed.

Lemma ltb_t (a b : N) : a < b -> (a <? b) = true.
Proof. apply N.ltb_lt. Qed.

Lemma ltb_f (a b : N) : b <= a -> (a <? b) = false.
Proof. apply N.ltb_ge. Qed.

Lemma leb_t (a b : N) : a <= b -> (a <=? b) = true.
Proof. apply N.leb_le. Qed.

Lemma leb_f (a b : N) : b < a -> (a <=? b) = false.
Proof. apply N.leb_gt. Qed.

Lemma isCont_spec (b : N) : isCont b = true <-> 128 <= b <= 191.
Proof.
  unfold isCont. rewrite andb_true_iff, !N.leb_le. apply iff_refl.
Qed.

Lemma acceptRange_spec (b0 b1 : N) :
  acceptRange b0 b1 = true <->
  (194 <= b0 <= 223 /\ 128 <= b1 <= 191) \/
  (b0 = 224 /\ 160 <= b1 <= 191) \/
  (225 <= b0 <= 239 /\ b0 <> 237 /\ 128 <= b1 <= 191) \/
  (b0 = 237 /\ 128 <= b1 <= 159) \/
  (b0 = 240 /\ 144 <= b1 <= 191) \/
  (241 <= b0 <= 243 /\ 128 <= b1 <= 191) \/
  (b0 = 244 /\ 128 <= b1 <= 143).
Proof.
  unfold acceptRange.
  destruct (N.ltb_spec b0 194); [split; [discriminate|lia]|].
  destruct (N.eqb_spec b0 224).
  { rewrite andb_true_iff, !N.leb_le. lia. }
  destruct (N.eqb_spec b0 237).
  { rewrite andb_true_iff, !N.leb_le. lia. }
  destruct (N.ltb_spec b0 240).
  { rewrite isCont_spec. lia. }
  destruct (N.eqb_spec b0 240).
  { rewrite andb_true_iff, !N.leb_le. lia. }
  destruct (N.ltb_spec b0 244).
  { rewrite isCont_spec. lia. }
  destruct (N.eqb_spec b0 244).
  { rewrite andb_true_iff, !N.leb_le. lia. }
  split; [discriminate|lia].
Qed.

Lemma ValidRune_spec (r : N) :
  ValidRune r = true <-> r < 55296 \/ 57343 < r <= 1114111.
Proof.
  unfold ValidRune, MaxRune.
  rewrite orb_true_iff, andb_true_iff, !N.ltb_lt, N.leb_le. apply iff_refl.
Qed.

(** Reading back a written rune: a valid rune is read as itself, whatever
    follows it. *)
Lemma decode_encode (r : N) (rest : string) :
  ValidRune r = true ->
  decodeRunes (EncodeRune r ++ rest) = r :: decodeRunes rest.
Proof.
  intros Hv. unfold EncodeRune.
  destruct (N.leb_spec r 127) as [H1|H1].
  { cbn [append decodeRunes]. rewrite byte_val by lia.
    now rewrite ltb_t by lia. }
  pose proof (N.div_mod' r 64) as Hq2.
  pose proof (N.mod_lt r 64 ltac:(discriminate)) as Hm2.
  destruct (N.leb_spec r 2047) as [H2|H2].
  { set (q2 := r / 64) in *. set (m2 := r mod 64) in *. clearbody q2 m2.
    cbn [append decodeRunes]. rewrite !byte_val by lia.
    rewrite ltb_f by lia.
    rewrite (proj2 (acceptRange_spec _ _)) by lia. cbn [negb].
    rewrite ltb_t by lia. f_equal. lia. }
  rewrite Hv. cbn [negb]. apply ValidRune_spec in Hv.
  pose proof (N.div_mod' (r / 64) 64) as Hq1.
  pose proof (N.mod_lt (r / 64) 64 ltac:(discriminate)) as Hm1.
  replace (r / 4096) with (r / 64 / 64) by (now rewrite N.Div0.div_div).
  destruct (N.leb_spec r 65535) as [H3|H3].
  { set (q2 := r / 64) in *. set (m2 := r mod 64) in *.
    set (q1 := q2 / 64) in *. set (m1 := q2 mod 64) in *.
    clearbody q2 m2 q1 m1.
    cbn [append decodeRunes]. rewrite !byte_val by lia.
    rewrite ltb_f by lia.
    rewrite (proj2 (acceptRange_spec _ _)) by lia. cbn [negb].
    rewrite ltb_f by lia.
    rewrite (proj2 (isCont_spec _)) by lia. cbn [negb].
    rewrite ltb_t by lia. f_equal. lia. }
  { pose proof (N.div_mod' (r / 64 / 64) 64) as Hq0.
    pose proof (N.mod_lt (r / 64 / 64) 64 ltac:(discriminate)) as Hm0.
    replace (r / 262144) with (r / 64 / 64 / 64) by (now rewrite !N.Div0.div_div).
    set (q2 := r / 64) in *. set (m2 := r mod 64) in *.
    set (q1 := q2 / 64) in *. set (m1 := q2 mod 64) in *.
    set (q0 := q1 / 64) in *. set (m0 := q1 mod 64) in *.
    clearbody q2 m2 q1 m1 q0 m0.
    cbn [append decodeRunes]. rewrite !byte_val by lia.
    rewrite ltb_f by lia.
    rewrite (proj2 (acceptRange_spec _ _)) by lia. cbn [negb].
    rewrite ltb_f by lia.
    rewrite (proj2 (isCont_spec _)) by lia. cbn [negb].
    rewrite ltb_f by lia.
    rewrite (proj2 (isCont_spec _)) by lia. cbn [negb].
    f_equal. lia. }
Qed.

(** Every rune read from a string is valid, [RuneError] included. *)
Lemma decodeRunes_valid_upto (n : nat) (s : string) :
  (String.length s <= n)%nat ->
  Forall (fun r => ValidRune r = true) (decodeRunes s).
Proof.
  revert s. induction n as [|n IH]; intros s Hn.
  { destruct s; [constructor|simpl in Hn; lia]. }
  destruct s as [|a0 s0]; [constructor|]. cbn [String.length] in Hn.
  assert (IH0 : Forall (fun r => ValidRune r = true) (decodeRunes s0))
    by (apply IH; lia).
  assert (Herr : Forall (fun r => ValidRune r = true)
                   (RuneError :: decodeRunes s0)).
  { constructor; [reflexivity|exact IH0]. }
  cbn [decodeRunes]. cbv zeta.
  pose proof (val_bound a0) as B0.
  destruct (N.ltb_spec (N_of_ascii a0) 128) as [H0|H0].
  { constructor; [apply ValidRune_spec; lia|exact IH0]. }
  destruct s0 as [|a1 s1]; [exact Herr|]. cbn [String.length] in Hn.
  pose proof (val_bound a1) as B1.
  destruct (acceptRange (N_of_ascii a0) (N_of_ascii a1)) eqn:E1; cbn [negb];
    [|exact Herr].
  apply acceptRange_spec in E1.
  destruct (N.ltb_spec (N_of_ascii a0) 224) as [H1|H1].
  { constructor; [apply ValidRune_spec; lia|apply IH; lia]. }
  destruct s1 as [|a2 s2]; [exact Herr|]. cbn [String.length] in Hn.
  pose proof (val_bound a2) as B2.
  destruct (isCont (N_of_ascii a2)) eqn:E2; cbn [negb]; [|exact Herr].
  apply isCont_spec in E2.
  destruct (N.ltb_spec (N_of_ascii a0) 240) as [H2|H2].
  { constructor; [apply ValidRune_spec; lia|apply IH; lia]. }
  destruct s2 as [|a3 s3]; [exact Herr|]. cbn [String.length] in Hn.
  pose proof (val_bound a3) as B3.
  destruct (isCont (N_of_ascii a3)) eqn:E3; cbn [negb]; [|exact Herr].
  apply isCont_spec in E3.
  constructor; [apply ValidRune_spec; lia|apply IH; lia].
Qed.

Lemma decodeRunes_valid (s : string) :
  Forall (fun r => ValidRune r = true) (decodeRunes s).
Proof. now apply (decodeRunes_valid_upto (String.length s)). Qed.

Lemma decode_encodeRunes (rs : list N) :
  Forall (fun r => ValidRune r = true) rs -> decodeRunes (encodeRunes rs) = rs.
Proof.
  induction 1 as [|r rs Hr _ IH]; [reflexivity|].
  cbn [encodeRunes]. now rewrite decode_encode, IH.
Qed.

Lemma byte_eqb (x y : N) :
  x < 256 -> y < 256 -> x <> y -> Ascii.eqb (ascii_of_N x) (ascii_of_N y) = false.
Proof.
  intros Hx Hy Hxy. apply Ascii.eqb_neq. intros E.
  apply (f_equal N_of_ascii) in E. rewrite !byte_val in E by assumption.
  contradiction.
Qed.

Lemma dot_byte : "."%char = ascii_of_N 46.
Proof. reflexivity. Qed.

Ltac absdiv :=
  repeat match goal with
  | |- context [(?a / ?b)%N] =>
      let q := fresh "q" in set (q := (a / b)%N) in *; clearbody q
  | |- context [(?a mod ?b)%N] =>
      let m := fresh "m" in set (m := (a mod b)%N) in *; clearbody m
  end.

Lemma EncodeRune_encoding (r : N) : encoding r (EncodeRune r).
Proof.
  unfold EncodeRune.
  destruct (N.leb_spec r 127) as [H1|H1]; [now constructor|].
  pose proof (N.mod_lt r 64 ltac:(discriminate)) as Hm2.
  pose proof (N.mod_lt (r / 64) 64 ltac:(discriminate)) as Hm1.
  pose proof (N.mod_lt (r / 4096) 64 ltac:(discriminate)) as Hm0.
  destruct (N.leb_spec r 2047) as [H2|H2].
  { assert (r / 64 < 32) by (apply N.Div0.div_lt_upper_bound; lia).
    absdiv. apply enc_high; [lia|].
    cbn [allBytes]. rewrite byte_val by lia. now rewrite leb_t by lia. }
  destruct (ValidRune r) eqn:Hv; cbn [negb];
    [|apply enc_high; [lia|reflexivity]].
  apply ValidRune_spec in Hv.
  destruct (N.leb_spec r 65535) as [H3|H3].
  { assert (r / 4096 < 16) by (apply N.Div0.div_lt_upper_bound; lia).
    absdiv. apply enc_high; [lia|].
    cbn [allBytes]. rewrite !byte_val by lia. now rewrite !leb_t by lia. }
  { assert (r / 262144 < 5) by (apply N.Div0.div_lt_upper_bound; lia).
    absdiv. apply enc_high; [lia|].
    cbn [allBytes]. rewrite !byte_val by lia. now rewrite !leb_t by lia. }
Qed.

Lemma encoding_nonempty (r : N) (s : string) : encoding r s -> s <> "".
Proof. now destruct 1. Qed.

Lemma EncodeRune_nonempty (r : N) : EncodeRune r <> "".
Proof. apply (encoding_nonempty r), EncodeRune_encoding. Qed.

Lemma encodeRunes_empty (rs : list N) : encodeRunes rs = "" -> rs = [].
Proof.
  destruct rs as [|r rs]; [reflexivity|]. cbn [encodeRunes].
  pose proof (EncodeRune_nonempty r) as H.
  destruct (EncodeRune r); [contradiction|discriminate].
Qed.

Lemma allBytes_high_trimRight (t : string) :
  allBytes (fun a => 128 <=? N_of_ascii a) t = true ->
  trimRightByte t "." = t.
Proof.
  induction t as [|a t IH]; [reflexivity|]. cbn [allBytes trimRightByte].
  intros H. apply andb_true_iff in H as [Ha Ht]. rewrite (IH Ht).
  destruct t; [|reflexivity].
  destruct (Ascii.eqb_spec a "."); [subst a; discriminate|reflexivity].
Qed.

Lemma EncodeRune_dot : EncodeRune 46 = ".".
Proof. reflexivity. Qed.

(** Trimming ['.'] from an encoded rune: only the rune ['.'] goes. *)
Lemma EncodeRune_trimRight (r : N) :
  r <> 46 -> trimRightByte (EncodeRune r) "." = EncodeRune r.
Proof.
  intros Hr. destruct (EncodeRune_encoding r) as [H|b t Hb Ht].
  - cbn [trimRightByte]. rewrite dot_byte, byte_eqb by lia. reflexivity.
  - apply (allBytes_high_trimRight (String (ascii_of_N b) t)).
    cbn [allBytes]. rewrite byte_val, Ht by lia. now rewrite leb_t by lia.
Qed.

Lemma EncodeRune_trimLeft (r : N) (rest : string) :
  r <> 46 -> trimLeftByte (EncodeRune r ++ rest) "." = EncodeRune r ++ rest.
Proof.
  intros Hr. destruct (EncodeRune_encoding r) as [H|b t Hb Ht];
    cbn [append trimLeftByte]; now rewrite dot_byte, byte_eqb by lia.
Qed.

Lemma append_empty (s : string) : s ++ "" = s.
Proof. induction s as [|a s IH]; [reflexivity|]. cbn [append]. now rewrite IH. Qed.

Lemma trimRightByte_app (s1 s2 : string) (c : ascii) :
  trimRightByte (s1 ++ s2) c
  = match trimRightByte s2 c with
    | EmptyString => trimRightByte s1 c
    | t => s1 ++ t
    end.
Proof.
  induction s1 as [|a s1 IH]; cbn [append trimRightByte].
  - now destruct (trimRightByte s2 c).
  - rewrite IH. destruct (trimRightByte s2 c) eqn:E; [reflexivity|].
    cbn [append]. now destruct s1.
Qed.

Lemma encoded_trimLeft (Q : N -> Prop) (s : string) :
  encoded Q s -> encoded Q (trimLeftByte s ".").
Proof.
  intros (rs & HQ & ->). induction HQ as [|r rs Hr HQ IH].
  - exists []. now split.
  - cbn [encodeRunes]. destruct (N.eq_dec r 46) as [->|Hne].
    + rewrite EncodeRune_dot. exact IH.
    + rewrite EncodeRune_trimLeft by assumption.
      exists (r :: rs). split; [now constructor|reflexivity].
Qed.

Lemma encoded_trimRight (Q : N -> Prop) (s : string) :
  encoded Q s -> encoded Q (trimRightByte s ".").
Proof.
  intros (rs & HQ & ->). induction HQ as [|r rs Hr HQ IH].
  - exists []. now split.
  - cbn [encodeRunes]. rewrite trimRightByte_app.
    destruct IH as (rs' & HQ' & E). rewrite E.
    destruct (encodeRunes rs') eqn:E'.
    + destruct (N.eq_dec r 46) as [->|Hne].
      * exists []. now split.
      * rewrite EncodeRune_trimRight by assumption.
        exists [r]. split; [now repeat constructor|].
        cbn [encodeRunes]. now rewrite append_empty.
    + exists (r :: rs'). split; [now constructor|].
      cbn [encodeRunes]. now rewrite E'.
Qed.

Lemma allBytes_app (p : ascii -> bool) (s t : string) :
  allBytes p (s ++ t) = allBytes p s && allBytes p t.
Proof.
  induction s as [|a s IH]; [reflexivity|].
  cbn [append allBytes]. now rewrite IH, andb_assoc.
Qed.

Lemma isASCII_EncodeRune (r : N) :
  isASCII (EncodeRune r) = true -> r <= 127 /\ EncodeRune r = String (ascii_of_N r) "".
Proof.
  unfold isASCII. destruct (EncodeRune_encoding r) as [H|b t Hb Ht].
  - now split.
  - cbn [allBytes]. rewrite byte_val, ltb_f by lia. discriminate.
Qed.

Lemma lowerByte_rune (r : N) :
  r <= 127 -> unicodeToLower caseTable r = r -> lowerByte (ascii_of_N r) = ascii_of_N r.
Proof.
  intros Hr. unfold unicodeToLower, lowerByte. cbv zeta.
  rewrite byte_val by lia. rewrite leb_t by lia.
  destruct ((65 <=? r) && (r <=? 90)); [|reflexivity].
  intros E. exfalso. lia.
Qed.

Lemma lowerASCII_encoded (rs : list N) :
  Forall lowRune rs -> isASCII (encodeRunes rs) = true ->
  lowerASCII (encodeRunes rs) = encodeRunes rs.
Proof.
  induction 1 as [|r rs [_ Hr] _ IH]; [reflexivity|].
  cbn [encodeRunes]. unfold isASCII in *. rewrite allBytes_app.
  intros H. apply andb_true_iff in H as [H1 H2].
  apply isASCII_EncodeRune in H1 as [Hle ->].
  cbn [append lowerASCII]. now rewrite lowerByte_rune, IH.
Qed.

(** Lower-casing keeps the encoding of lower-case runes as it is, and gives
    nothing else. *)
Lemma ToLower_encoded (s : string) : encoded lowRune s -> ToLower s = s.
Proof.
  intros (rs & Hrs & ->). unfold ToLower.
  destruct (isASCII (encodeRunes rs)) eqn:E.
  - now apply lowerASCII_encoded.
  - unfold Map. rewrite decode_encodeRunes.
    + f_equal. clear E. induction Hrs as [|r rs [_ Hr] _ IH]; [reflexivity|].
      cbn [map]. now rewrite Hr, IH.
    + eapply Forall_impl; [|exact Hrs]. now intros r [Hv _].
Qed.

Lemma lowerByte_low (a : ascii) :
  N_of_ascii a < 128 ->
  N_of_ascii (lowerByte a) < 128 /\ lowRune (N_of_ascii (lowerByte a)).
Proof.
  intros Ha. unfold lowerByte. cbv zeta.
  destruct (N.leb_spec 65 (N_of_ascii a)) as [H1|H1];
    destruct (N.leb_spec (N_of_ascii a) 90) as [H2|H2]; cbn [andb];
    rewrite ?byte_val by lia.
  all: split; [lia|]; split; [apply ValidRune_spec; lia|].
  all: unfold unicodeToLower; rewrite leb_t by lia.
  all: destruct (N.leb_spec 65 (N_of_ascii a + 32));
    destruct (N.leb_spec (N_of_ascii a + 32) 90);
    destruct (N.leb_spec 65 (N_of_ascii a));
    destruct (N.leb_spec (N_of_ascii a) 90); cbn [andb]; lia.
Qed.

Lemma lowerASCII_is_encoded (s : string) :
  isASCII s = true -> encoded lowRune (lowerASCII s).
Proof.
  unfold isASCII. induction s as [|a s IH]; intros H.
  - exists []. now split.
  - cbn [allBytes] in H. apply andb_true_iff in H as [Ha Hs].
    apply N.ltb_lt in Ha. destruct (lowerByte_low a Ha) as [Hlt Hlow].
    destruct (IH Hs) as (rs & Hrs & E).
    exists (N_of_ascii (lowerByte a) :: rs). split; [now constructor|].
    cbn [lowerASCII encodeRunes]. rewrite E. unfold EncodeRune.
    rewrite leb_t by lia. now rewrite ascii_N_embedding.
Qed.

Lemma unicodeToLower_ascii (r : N) :
  r <= 127 -> ~ (65 <= r <= 90) -> unicodeToLower caseTable r = r.
Proof.
  intros H1 H2. unfold unicodeToLower. rewrite leb_t by lia.
  destruct (N.leb_spec 65 r); destruct (N.leb_spec r 90); cbn [andb];
    [lia|reflexivity..].
Qed.

Lemma unicodeToLower_low (r : N) :
  caseTableLowers -> ValidRune r = true -> lowRune (unicodeToLower caseTable r).
Proof.
  intros [Hvalid Hlow] Hv. destruct (N.leb_spec r 127) as [H|H].
  - assert (E : unicodeToLower caseTable r
                = if (65 <=? r) && (r <=? 90) then r + 32 else r).
    { unfold unicodeToLower. now rewrite leb_t by lia. }
    rewrite E. clear E.
    destruct (N.leb_spec 65 r); destruct (N.leb_spec r 90); cbn [andb].
    all: split; [apply ValidRune_spec; lia|apply unicodeToLower_ascii; lia].
  - assert (E : unicodeToLower caseTable r = caseTable r).
    { unfold unicodeToLower. now rewrite leb_f by lia. }
    rewrite E. split; [now apply Hvalid|now apply Hlow].
Qed.

Lemma ToLower_is_encoded (s : string) :
  caseTableLowers -> encoded lowRune (ToLower s).
Proof.
  intros H. unfold ToLower. destruct (isASCII s) eqn:E.
  - now apply lowerASCII_is_encoded.
  - exists (map (unicodeToLower caseTable) (decodeRunes s)). split; [|reflexivity].
    apply Forall_map. eapply Forall_impl; [|apply decodeRunes_valid].
    intros r. now apply unicodeToLower_low.
Qed.

Lemma ToLower_Trim_ToLower (x : string) :
  caseTableLowers ->
  ToLower (Trim (ToLower x) ".") = Trim (ToLower x) ".".
Proof.
  intros H. apply ToLower_encoded. unfold Trim.
  now apply encoded_trimLeft, encoded_trimRight, ToLower_is_encoded.
Qed.

Lemma ToLower_nil : ToLower "" = "".
Proof. reflexivity. Qed.

Lemma lowerASCII_empty (s : string) : lowerASCII s = "" -> s = "".
Proof. now destruct s. Qed.

(** Lower-casing never empties a string. *)
Lemma ToLower_empty (s : string) : ToLower s = "" -> s = "".
Proof.
  unfold ToLower. destruct (isASCII s) eqn:E.
  - apply lowerASCII_empty.
  - unfold Map. intros H. apply encodeRunes_empty in H.
    apply map_eq_nil in H. destruct s as [|a0 s0]; [reflexivity|].
    exfalso. revert H. cbn [decodeRunes]. cbv zeta.
    repeat match goal with
    | |- context [if ?c then _ else _] => destruct c
    | |- context [match ?t with EmptyString => _ | String _ _ => _ end] =>
        destruct t
    end; discriminate.
Qed.


Local Close Scope N_scope.

(** *** Trimming *)

Lemma trimLeftByte_idem (s : string) (c : ascii) :
  trimLeftByte (trimLeftByte s c) c = trimLeftByte s c.
Proof.
  induction s as [|a s IH]; simpl; [reflexivity|].
  destruct (Ascii.eqb a c) eqn:E; [exact IH|].
  simpl. now rewrite E.
Qed.

Lemma trimRightByte_idem (s : string) (c : ascii) :
  trimRightByte (trimRightByte s c) c = trimRightByte s c.
Proof.
  induction s as [|a s IH]; simpl; [reflexivity|].
  destruct (trimRightByte s c) as [|b u] eqn:E.
  - destruct (Ascii.eqb a c) eqn:Ea; simpl; [reflexivity|].
    now rewrite Ea.
  - change (trimRightByte (String a (String b u)) c)
      with (match trimRightByte (String b u) c with
            | EmptyString =>
                if Ascii.eqb a c then EmptyString else String a EmptyString
            | String x y => String a (String x y)
            end).
    now rewrite IH.
Qed.

Lemma trim_commute (s : string) (c : ascii) :
  trimRightByte (trimLeftByte s c) c = trimLeftByte (trimRightByte s c) c.
Proof.
  induction s as [|a s IH]; simpl; [reflexivity|].
  destruct (Ascii.eqb a c) eqn:Ea.
  - rewrite IH.
    destruct (trimRightByte s c) as [|b u]; simpl; rewrite ?Ea; reflexivity.
  - cbn [trimRightByte].
    destruct (trimRightByte s c) as [|b u]; simpl; rewrite ?Ea; reflexivity.
Qed.

Lemma Trim_idem (s : string) (c : ascii) : Trim (Trim s c) c = Trim s c.
Proof.
  unfold Trim.
  now rewrite trim_commute, trimRightByte_idem, trimLeftByte_idem.
Qed.

Lemma trimLeftByte_first (s : string) (c : ascii) :
  firstByte (trimLeftByte s c) <> Some c.
Proof.
  induction s as [|a s IH]; simpl; [discriminate|].
  destruct (Ascii.eqb a c) eqn:E; [exact IH|].
  simpl. intros H. injection H as ->. now rewrite Ascii.eqb_refl in E.
Qed.

Lemma trimRightByte_last (s : string) (c : ascii) :
  lastByte (trimRightByte s c) <> Some c.
Proof.
  induction s as [|a s IH]; simpl; [discriminate|].
  destruct (trimRightByte s c) as [|b u] eqn:E.
  - destruct (Ascii.eqb a c) eqn:Ea; simpl; [discriminate|].
    intros H. injection H as ->. now rewrite Ascii.eqb_refl in Ea.
  - exact IH.
Qed.

Lemma trimLeftByte_last (s : string) (c x : ascii) :
  lastByte s <> Some x -> lastByte (trimLeftByte s c) <> Some x.
Proof.
  induction s as [|a s IH]; simpl; [discriminate|].
  intros H. destruct (Ascii.eqb a c).
  - apply IH. destruct s; [discriminate | exact H].
  - exact H.
Qed.

(** *** Normalisation *)

Lemma ToLower_normalize (x : string) :
  caseTableLowers -> ToLower (normalize x) = normalize x.
Proof. intros H. now apply ToLower_Trim_ToLower. Qed.

Lemma normalize_idem (x : string) :
  caseTableLowers -> normalize (normalize x) = normalize x.
Proof.
  intros H. unfold normalize at 1.
  rewrite (ToLower_normalize x H). unfold normalize. apply Trim_idem.
Qed.

Lemma normalize_codeNormalized (x : string) :
  caseTableLowers -> codeNormalized (normalize x).
Proof.
  intros H. unfold codeNormalized. repeat split.
  - apply trimLeftByte_first.
  - apply trimLeftByte_last, trimRightByte_last.
  - now apply ToLower_normalize.
Qed.

(** ** Runs and their traces *)

Lemma trace_bind {A B} (m : Run A) (k : A -> Run B) :
  trace (bind m k) =
  (trace m ++ match outcome m with
              | Returned a => trace (k a)
              | Panicked => []
              end)%list.
Proof.
  destruct m as [t [a|]]; simpl.
  - now destruct (k a).
  - now rewrite app_nil_r.
Qed.

Lemma bind_ret_l {A B} (a : A) (k : A -> Run B) : bind (ret a) k = k a.
Proof. unfold bind, ret. now destruct (k a). Qed.

Lemma outcome_bind {A B} (m : Run A) (k : A -> Run B) :
  outcome (bind m k) =
  match outcome m with
  | Returned a => outcome (k a)
  | Panicked => Panicked
  end.
Proof.
  destruct m as [t [a|]]; simpl; [|reflexivity]. now destruct (k a).
Qed.

Lemma trace_defer {A} (e : Effect) (m : Run A) :
  trace (defer e m) = (trace m ++ [e])%list.
Proof. now destruct m. Qed.

Lemma outcome_defer {A} (e : Effect) (m : Run A) :
  outcome (defer e m) = outcome m.
Proof. now destruct m. Qed.

Lemma forGraphs_fanout (gs : list Graph) (c : GraphCall) (bus : EventBus)
    (msg : Graph -> string -> string) :
  forGraphs gs (fun g => err <- graphCall g c ;; logFailure bus err (msg g))
  = (fanout gs c msg, Returned tt).
Proof.
  induction gs as [|g gs IH]; [reflexivity|].
  cbn [forGraphs]. rewrite IH.
  unfold graphCall, logFailure, publish, emit, ret, bind; simpl.
  now destruct (graphInsert g c).
Qed.

Lemma nameEvents_app (t1 t2 : list Effect) :
  nameEvents (t1 ++ t2) = (nameEvents t1 ++ nameEvents t2)%list.
Proof.
  induction t1 as [|e t1 IH]; simpl; [reflexivity|].
  destruct e as [[] ? [] | | | | | |]; simpl; now rewrite ?IH.
Qed.

Lemma graphInserts_app (t1 t2 : list Effect) :
  graphInserts (t1 ++ t2) = (graphInserts t1 ++ graphInserts t2)%list.
Proof.
  induction t1 as [|e t1 IH]; simpl; [reflexivity|].
  destruct e; simpl; now rewrite ?IH.
Qed.

Lemma handlerCalls_app (t1 t2 : list Effect) :
  handlerCalls (t1 ++ t2) = (handlerCalls t1 ++ handlerCalls t2)%list.
Proof.
  induction t1 as [|e t1 IH]; simpl; [reflexivity|].
  destruct e; simpl; now rewrite ?IH.
Qed.

Lemma handlerInputs_app (t1 t2 : list Effect) :
  handlerInputs (t1 ++ t2) = (handlerInputs t1 ++ handlerInputs t2)%list.
Proof.
  induction t1 as [|e t1 IH]; simpl; [reflexivity|].
  destruct e; simpl; now rewrite ?IH.
Qed.

Lemma sleeps_app (t1 t2 : list Effect) :
  sleeps (t1 ++ t2) = (sleeps t1 ++ sleeps t2)%list.
Proof.
  induction t1 as [|e t1 IH]; simpl; [reflexivity|].
  destruct e; simpl; now rewrite ?IH.
Qed.

Lemma withoutLogs_app (t1 t2 : list Effect) :
  withoutLogs (t1 ++ t2) = (withoutLogs t1 ++ withoutLogs t2)%list.
Proof. apply filter_app. Qed.

(** ** Properties of traces that survive sequencing

    A property that holds of the empty trace and of the concatenation of
    two traces that have it holds of a run as soon as every piece of the
    run has it. *)

Section TraceProperty.

Variable P : list Effect -> Prop.
Hypothesis P_nil : P [].
Hypothesis P_app : forall t1 t2, P t1 -> P t2 -> P (t1 ++ t2)%list.

Lemma holds_ret {A} (a : A) : holds P (ret a).
Proof. exact P_nil. Qed.

Lemma holds_panic {A} : holds P (@panic A).
Proof. exact P_nil. Qed.

Lemma holds_bind {A B} (m : Run A) (k : A -> Run B) :
  holds P m -> (forall a, holds P (k a)) -> holds P (bind m k).
Proof.
  unfold holds. intros Hm Hk. rewrite trace_bind.
  apply P_app; [exact Hm|]. destruct (outcome m); [apply Hk | exact P_nil].
Qed.

Lemma holds_defer {A} (e : Effect) (m : Run A) :
  P [e] -> holds P m -> holds P (defer e m).
Proof.
  unfold holds. intros He Hm. rewrite trace_defer. now apply P_app.
Qed.

Lemma holds_asPointer {T} (v : CtxValue T) : holds P (asPointer v).
Proof. destruct v; exact P_nil. Qed.

Lemma holds_recordAt (req : DNSRequest) (i : nat) : holds P (recordAt req i).
Proof. unfold recordAt. destruct (nth_error _ _); exact P_nil. Qed.

Lemma holds_forStrings_in (ss : list string) (body : string -> Run unit) :
  (forall s, In s ss -> holds P (body s)) -> holds P (forStrings ss body).
Proof.
  induction ss as [|s ss IH]; intros Hb; simpl; [exact P_nil|].
  apply holds_bind; [apply Hb; now left | intros _].
  apply IH. intros s' Hs'. apply Hb. now right.
Qed.

Lemma holds_forStrings (ss : list string) (body : string -> Run unit) :
  (forall s, holds P (body s)) -> holds P (forStrings ss body).
Proof. intros Hb. apply holds_forStrings_in. intros s _. apply Hb. Qed.

Variable dms : DataManagerService.

Hypothesis P_fanout : forall c msg, P (fanout (GraphDatabases dms) c msg).
Hypothesis P_name : forall prio r,
  reqDomain r <> "" -> P [Publish NewNameTopic prio (PDNSRequest r)].
Hypothesis P_addr : forall prio a, P [Publish NewAddrTopic prio (PAddrRequest a)].
Hypothesis P_active : forall prio s, P [Publish SetActiveTopic prio (PString s)].

Ltac nonempty :=
  cbn [reqDomain];
  match goal with
  | H : (?d =? "") = false |- ?d <> "" => now apply String.eqb_neq
  | H : negb (?d =? "") = true |- ?d <> "" =>
      apply negb_true_iff in H; now apply String.eqb_neq
  end.

Ltac step :=
  cbv zeta;
  lazymatch goal with
  | |- holds _ (bind _ _) => apply holds_bind; [|intros ?]
  | |- holds _ (ret _) => apply holds_ret
  | |- holds _ (asPointer _) => apply holds_asPointer
  | |- holds _ (recordAt _ _) => apply holds_recordAt
  | |- holds _ (forGraphs _ _) =>
      unfold holds; rewrite forGraphs_fanout; apply P_fanout
  | |- holds _ (forStrings _ _) => apply holds_forStrings; intros ?
  | |- holds _ (heartbeat _ _) => apply P_active
  | |- holds _ (publish _ NewAddrTopic _ _) => apply P_addr
  | |- holds _ (publish _ NewNameTopic _ _) => apply P_name; nonempty
  | |- holds _ (match ?x with _ => _ end) => destruct x eqn:?
  end.

Lemma findNamesAndAddresses_holds (ctx : Context) (data domain : string) :
  holds P (findNamesAndAddresses ctx dms data domain).
Proof. unfold findNamesAndAddresses. repeat step. Qed.

Lemma handlerBody_holds (h : Handler) (ctx : Context) (req : DNSRequest)
    (i : nat) :
  holds P (handlerBody h ctx dms req i).
Proof.
  destruct h; cbn [handlerBody];
    [ unfold insertCNAME | unfold insertA | unfold insertAAAA
    | unfold insertPTR | unfold insertSRV | unfold insertNS
    | unfold insertMX | unfold insertTXT | unfold insertSPF ];
    repeat first [ apply findNamesAndAddresses_holds | step ].
Qed.

Lemma OnASNRequest_holds (ctx : Context) (req : ASNRequest) :
  holds P (OnASNRequest ctx dms req).
Proof. unfold OnASNRequest. repeat step. Qed.

Hypothesis P_enter : forall h i req, P [Enter h i req].

Lemma call_holds (h : Handler) (ctx : Context) (req : DNSRequest) (i : nat) :
  holds P (call h ctx dms req i).
Proof.
  unfold call. apply holds_bind; [apply P_enter|].
  intros _. apply handlerBody_holds.
Qed.

Lemma scanForCNAME_holds (ctx : Context) (rs : list DNSAnswer) :
  forall (req : DNSRequest) (i : nat),
    holds P (scanForCNAME ctx dms req i rs).
Proof.
  induction rs as [|r rs IH]; intros req i; cbn [scanForCNAME];
    [apply holds_ret|].
  cbv zeta. destruct (_ =? _)%Z; [|apply IH].
  apply holds_bind; [apply call_holds | intros _; apply holds_ret].
Qed.

Lemma dispatch_holds (ctx : Context) (req : DNSRequest) (i : nat)
    (r : DNSAnswer) :
  holds P (dispatch ctx dms req i r).
Proof.
  unfold dispatch. cbv zeta.
  repeat (destruct (_ =? _)%Z; [apply call_holds|]).
  apply holds_ret.
Qed.

Lemma dispatchRecords_holds (ctx : Context) (bus : EventBus)
    (req : DNSRequest) (rs : list DNSAnswer) :
  forall i, holds P (dispatchRecords ctx bus dms req i rs).
Proof.
  induction rs as [|r rs IH]; intros i; cbn [dispatchRecords];
    [apply holds_ret|].
  apply holds_bind; [apply P_active | intros _].
  apply holds_bind; [apply dispatch_holds | intros _; apply IH].
Qed.

Hypothesis P_release : forall n, P [Release n].

Lemma processDNSRequest_holds (ctx : Context) (req : DNSRequest) :
  holds P (processDNSRequest ctx dms req).
Proof.
  unfold processDNSRequest. apply holds_defer; [apply P_release|].
  apply holds_bind; [apply holds_asPointer | intros [bus|]];
    [|apply holds_ret].
  apply holds_bind; [apply P_active | intros _].
  apply holds_bind; [apply scanForCNAME_holds | intros [req' found]].
  destruct found; [apply holds_ret|].
  apply holds_bind; [apply dispatchRecords_holds | intros _; apply holds_ret].
Qed.

Hypothesis P_acquire : forall n ok, P [TryAcquire n ok].
Hypothesis P_sleep : forall d, P [Sleep d].
Hypothesis P_go : P [Go].

Lemma admissionLoop_holds (ctx : Context) (bus : EventBus)
    (req : DNSRequest) (script : list SelectCase) :
  forall curIdx, holds P (admissionLoop ctx bus dms req script curIdx).
Proof.
  induction script as [|s script IH]; intros curIdx; cbn [admissionLoop];
    [apply holds_ret|].
  destruct s as [| |acquired]; [apply holds_ret| |].
  - apply holds_bind; [apply P_active | intros _; apply IH].
  - apply holds_bind; [apply P_acquire | intros _].
    destruct acquired; cbn [negb].
    + cbv zeta. apply holds_bind; [apply P_go | intros _].
      apply holds_bind; [apply processDNSRequest_holds | intros ?].
      apply holds_ret.
    + destruct (nth_error delays curIdx); [|apply holds_panic].
      apply holds_bind; [apply P_sleep | intros _]. cbv zeta. apply IH.
Qed.

Lemma OnDNSRequest_holds (ctx : Context) (req : DNSRequest)
    (script : list SelectCase) :
  holds P (OnDNSRequest ctx dms req script).
Proof.
  unfold OnDNSRequest.
  apply holds_bind; [apply holds_asPointer | intros [bus|]];
    [|apply holds_ret].
  cbv zeta. apply admissionLoop_holds.
Qed.

End TraceProperty.

(** ** The new-name publications *)

Lemma domainOK_nameEvents (t : list Effect) :
  Forall domainOK t -> Forall (fun r => reqDomain r <> "") (nameEvents t).
Proof.
  induction 1 as [|e t He _ IH]; simpl; [constructor|].
  destruct e as [[] ? [] | | | | | |]; simpl in *; auto.
Qed.

Lemma fanout_Forall (Q : Effect -> Prop) (gs : list Graph) (c : GraphCall)
    (msg : Graph -> string -> string) :
  (forall g, Q (GraphInsert g c)) ->
  (forall s, Q (Publish LogTopic PriorityHigh (PString s))) ->
  Forall Q (fanout gs c msg).
Proof.
  intros Hi Hl. unfold fanout. apply Forall_flat_map, Forall_forall.
  intros g _. constructor; [apply Hi|].
  destruct (graphInsert g c); constructor; [apply Hl | constructor].
Qed.

Ltac leaf := repeat constructor; simpl; auto.

Lemma domainOK_everywhere (ctx : Context) (dms : DataManagerService)
    (req : DNSRequest) (script : list SelectCase) :
  holds (Forall domainOK) (OnDNSRequest ctx dms req script).
Proof.
  apply OnDNSRequest_holds; intros;
    try (apply fanout_Forall; intros); try (now apply Forall_app); leaf.
Qed.

Lemma domainOK_process (ctx : Context) (dms : DataManagerService)
    (req : DNSRequest) :
  holds (Forall domainOK) (processDNSRequest ctx dms req).
Proof.
  apply processDNSRequest_holds; intros;
    try (apply fanout_Forall; intros); try (now apply Forall_app); leaf.
Qed.

Lemma domainOK_handler (h : Handler) (ctx : Context)
    (dms : DataManagerService) (req : DNSRequest) (i : nat) :
  holds (Forall domainOK) (handlerBody h ctx dms req i).
Proof.
  apply handlerBody_holds; intros;
    try (apply fanout_Forall; intros); try (now apply Forall_app); leaf.
Qed.

Lemma domainOK_miner (ctx : Context) (dms : DataManagerService)
    (data domain : string) :
  holds (Forall domainOK) (findNamesAndAddresses ctx dms data domain).
Proof.
  apply findNamesAndAddresses_holds; intros;
    try (apply fanout_Forall; intros); try (now apply Forall_app); leaf.
Qed.

(** A handler that validates through [EffectiveTLDPlusOne] does nothing
    at all when that function fails on its target. *)
Lemma insertCNAME_underivable (ctx : Context) (dms : DataManagerService)
    (req : DNSRequest) (i : nat) (r : DNSAnswer) :
  nth_error (reqRecords req) i = Some r ->
  EffectiveTLDPlusOne (RemoveLastDot (ansData r)) = None ->
  trace (insertCNAME ctx dms req i) = [].
Proof.
  intros Hr He. unfold insertCNAME, recordAt. rewrite Hr.
  destruct (ContextConfig ctx), (ContextEventBus ctx); try reflexivity.
  cbn. rewrite He. now destruct (_ =? _).
Qed.

Lemma insertMX_underivable (ctx : Context) (dms : DataManagerService)
    (req : DNSRequest) (i : nat) (r : DNSAnswer) :
  nth_error (reqRecords req) i = Some r ->
  EffectiveTLDPlusOne (RemoveLastDot (ansData r)) = None ->
  trace (insertMX ctx dms req i) = [].
Proof.
  intros Hr He. unfold insertMX, recordAt. rewrite Hr.
  destruct (ContextConfig ctx), (ContextEventBus ctx); try reflexivity.
  cbn. rewrite He. now destruct (_ =? _).
Qed.

Lemma insertNS_underivable (ctx : Context) (dms : DataManagerService)
    (req : DNSRequest) (i : nat) (r : DNSAnswer) :
  nth_error (reqRecords req) i = Some r ->
  EffectiveTLDPlusOne (last (Split (ansData r) ",") "") = None ->
  trace (insertNS ctx dms req i) = [].
Proof.
  intros Hr He. unfold insertNS, recordAt. rewrite Hr.
  destruct (ContextConfig ctx), (ContextEventBus ctx); try reflexivity.
  cbn -[Split last]. rewrite He. now destruct (_ =? _).
Qed.

Lemma insertPTR_eq (ctx : Context) (cfg : Config) (bus : EventBus)
    (dms : DataManagerService) (req : DNSRequest) (i : nat) (r : DNSAnswer) :
  ContextConfig ctx = Pointer cfg ->
  ContextEventBus ctx = Pointer bus ->
  nth_error (reqRecords req) i = Some r ->
  insertPTR ctx dms req i =
  let target := RemoveLastDot (ansData r) in
  let domain := ToLower (WhichDomain cfg target) in
  let msg g e := graphString g ++ " failed to insert PTR record: " ++ e in
  if (target =? "") || (domain =? "") then ([], Returned tt)
  else
    ((fanout (GraphDatabases dms)
        (InsertPTR (reqName req) target (reqSource req) (reqTag req) (UUID cfg))
        msg
      ++ [ Publish NewNameTopic PriorityHigh
             (PDNSRequest (mkDNSRequest target domain [] DNS (reqSource req)));
           Publish SetActiveTopic PriorityCritical (PString (srvString dms)) ])%list,
     Returned tt).
Proof.
  intros Hc Hb Hr. unfold insertPTR, recordAt. rewrite Hc, Hb, Hr. cbn -[graphCall logFailure].
  destruct (_ =? _); [reflexivity|]. cbn -[graphCall logFailure].
  destruct (_ =? _); [reflexivity|].
  rewrite forGraphs_fanout. reflexivity.
Qed.

Lemma insertSRV_eq (ctx : Context) (cfg : Config) (bus : EventBus)
    (dms : DataManagerService) (req : DNSRequest) (i : nat) (r : DNSAnswer) :
  ContextConfig ctx = Pointer cfg ->
  ContextEventBus ctx = Pointer bus ->
  nth_error (reqRecords req) i = Some r ->
  insertSRV ctx dms req i =
  let service := RemoveLastDot (ansName r) in
  let target := RemoveLastDot (ansData r) in
  let domain := WhichDomain cfg target in
  let msg g e := graphString g ++ " failed to insert SRV record: " ++ e in
  if (target =? "") || (service =? "") then ([], Returned tt)
  else
    ((fanout (GraphDatabases dms)
        (InsertSRV (reqName req) service target (reqSource req) (reqTag req)
           (UUID cfg))
        msg
      ++ (if domain =? "" then []
          else [ Publish NewNameTopic PriorityHigh
                   (PDNSRequest
                      (mkDNSRequest target domain [] (reqTag req) (reqSource req))) ])
      ++ [ Publish SetActiveTopic PriorityCritical (PString (srvString dms)) ])%list,
     Returned tt).
Proof.
  intros Hc Hb Hr. unfold insertSRV, recordAt. rewrite Hc, Hb, Hr. cbn -[graphCall logFailure].
  destruct (_ || _); [reflexivity|].
  rewrite forGraphs_fanout. cbn -[graphCall logFailure].
  destruct (_ =? _); reflexivity.
Qed.

Lemma insertNS_eq (ctx : Context) (cfg : Config) (bus : EventBus)
    (dms : DataManagerService) (req : DNSRequest) (i : nat) (r : DNSAnswer) :
  ContextConfig ctx = Pointer cfg ->
  ContextEventBus ctx = Pointer bus ->
  nth_error (reqRecords req) i = Some r ->
  insertNS ctx dms req i =
  let target := last (Split (ansData r) ",") "" in
  let msg g e := graphString g ++ " failed to insert NS record: " ++ e in
  if target =? "" then ([], Returned tt)
  else
    match EffectiveTLDPlusOne target with
    | None => ([], Returned tt)
    | Some d =>
        let domain := ToLower d in
        if domain =? "" then ([], Returned tt)
        else
          ((fanout (GraphDatabases dms)
              (InsertNS (reqName req) target (reqSource req) (reqTag req)
                 (UUID cfg))
              msg
            ++ (if target =? domain then []
                else [ Publish NewNameTopic PriorityHigh
                         (PDNSRequest (mkDNSRequest target domain [] DNS "DNS")) ])
            ++ [ Publish SetActiveTopic PriorityCritical
                   (PString (srvString dms)) ])%list,
           Returned tt)
    end.
Proof.
  intros Hc Hb Hr. unfold insertNS, recordAt. rewrite Hc, Hb, Hr.
  cbn -[graphCall logFailure Split last].
  destruct (_ =? _); [reflexivity|].
  destruct (EffectiveTLDPlusOne _); [|reflexivity]. cbn -[graphCall logFailure Split last].
  destruct (_ =? _); [reflexivity|].
  rewrite forGraphs_fanout. cbn -[graphCall logFailure Split last].
  destruct (_ =? _); reflexivity.
Qed.

Lemma insertMX_eq (ctx : Context) (cfg : Config) (bus : EventBus)
    (dms : DataManagerService) (req : DNSRequest) (i : nat) (r : DNSAnswer) :
  ContextConfig ctx = Pointer cfg ->
  ContextEventBus ctx = Pointer bus ->
  nth_error (reqRecords req) i = Some r ->
  insertMX ctx dms req i =
  let target := RemoveLastDot (ansData r) in
  let msg g e := graphString g ++ " failed to insert MX record: " ++ e in
  if target =? "" then ([], Returned tt)
  else
    match EffectiveTLDPlusOne target with
    | None => ([], Returned tt)
    | Some d =>
        let domain := ToLower d in
        if domain =? "" then ([], Returned tt)
        else
          ((fanout (GraphDatabases dms)
              (InsertMX (reqName req) target (reqSource req) (reqTag req)
                 (UUID cfg))
              msg
            ++ (if target =? domain then []
                else [ Publish NewNameTopic PriorityHigh
                         (PDNSRequest (mkDNSRequest target domain [] DNS "DNS")) ])
            ++ [ Publish SetActiveTopic PriorityCritical
                   (PString (srvString dms)) ])%list,
           Returned tt)
    end.
Proof.
  intros Hc Hb Hr. unfold insertMX, recordAt. rewrite Hc, Hb, Hr. cbn -[graphCall logFailure].
  destruct (_ =? _); [reflexivity|].
  destruct (EffectiveTLDPlusOne _); [|reflexivity]. cbn -[graphCall logFailure].
  destruct (_ =? _); [reflexivity|].
  rewrite forGraphs_fanout. cbn -[graphCall logFailure].
  destruct (_ =? _); reflexivity.
Qed.

Lemma nameEvents_fanout (gs : list Graph) (c : GraphCall)
    (msg : Graph -> string -> string) :
  nameEvents (fanout gs c msg) = [].
Proof.
  induction gs as [|g gs IH]; [reflexivity|].
  cbn [fanout flat_map]. fold (fanout gs c msg).
  rewrite nameEvents_app, IH. simpl. now destruct (graphInsert g c).
Qed.

Lemma graphInserts_fanout (gs : list Graph) (c : GraphCall)
    (msg : Graph -> string -> string) :
  graphInserts (fanout gs c msg) = map (fun g => (graphString g, c)) gs.
Proof.
  induction gs as [|g gs IH]; [reflexivity|].
  cbn [fanout flat_map]. fold (fanout gs c msg).
  rewrite graphInserts_app, IH. simpl. now destruct (graphInsert g c).
Qed.

Lemma insertPTR_out_of_scope (ctx : Context) (cfg : Config)
    (dms : DataManagerService) (req : DNSRequest) (i : nat) (r : DNSAnswer) :
  ContextConfig ctx = Pointer cfg ->
  nth_error (reqRecords req) i = Some r ->
  WhichDomain cfg (RemoveLastDot (ansData r)) = "" ->
  trace (insertPTR ctx dms req i) = [].
Proof.
  intros Hc Hr Hd. destruct (ContextEventBus ctx) as [| |bus] eqn:Hb.
  - unfold insertPTR. now rewrite Hc, Hb.
  - unfold insertPTR. now rewrite Hc, Hb.
  - rewrite (insertPTR_eq ctx cfg bus dms req i r Hc Hb Hr). cbv zeta.
    rewrite Hd. cbn. now rewrite orb_true_r.
Qed.

Lemma insertSRV_out_of_scope (ctx : Context) (cfg : Config)
    (dms : DataManagerService) (req : DNSRequest) (i : nat) (r : DNSAnswer) :
  ContextConfig ctx = Pointer cfg ->
  nth_error (reqRecords req) i = Some r ->
  WhichDomain cfg (RemoveLastDot (ansData r)) = "" ->
  nameEvents (trace (insertSRV ctx dms req i)) = [].
Proof.
  intros Hc Hr Hd. destruct (ContextEventBus ctx) as [| |bus] eqn:Hb.
  - unfold insertSRV. now rewrite Hc, Hb.
  - unfold insertSRV. now rewrite Hc, Hb.
  - rewrite (insertSRV_eq ctx cfg bus dms req i r Hc Hb Hr). cbv zeta.
    rewrite Hd. destruct (_ || _); [reflexivity|].
    cbn [trace fst]. rewrite nameEvents_app, nameEvents_fanout. reflexivity.
Qed.

Lemma miner_out_of_scope (ctx : Context) (cfg : Config)
    (dms : DataManagerService) (data domain : string) :
  ContextConfig ctx = Pointer cfg ->
  (forall name, In name (AnySubdomainFindAll data) -> WhichDomain cfg name = "") ->
  nameEvents (trace (findNamesAndAddresses ctx dms data domain)) = [].
Proof.
  intros Hc Hnames.
  assert (Happ : forall t1 t2 : list Effect,
             nameEvents t1 = [] -> nameEvents t2 = [] ->
             nameEvents (t1 ++ t2) = []).
  { intros t1 t2 H1 H2. now rewrite nameEvents_app, H1, H2. }
  unfold findNamesAndAddresses. rewrite Hc.
  destruct (ContextEventBus ctx) as [| |bus]; try reflexivity.
  cbn [asPointer]. rewrite !bind_ret_l.
  pose (P := fun t : list Effect => nameEvents t = []).
  apply (holds_bind P eq_refl Happ); [|intros _].
  - apply (holds_forStrings P eq_refl Happ). reflexivity.
  - apply (holds_bind P eq_refl Happ); [|reflexivity].
    apply (holds_forStrings_in P eq_refl Happ).
    intros name Hin. rewrite (Hnames name Hin).
    now destruct (negb _).
Qed.

(** C1: no request published on the new-name topic has an empty domain,
    whatever the context, the sinks, the request and the scheduling: this
    holds of the whole pipeline from [OnDNSRequest] on, of
    [processDNSRequest], of every record handler on every index, and of the
    Text Miner.  When the derivation of the domain fails the publishing
    paths emit nothing: the CNAME, MX and NS handlers do nothing at all
    when [EffectiveTLDPlusOne] fails on their target, and the PTR and SRV
    handlers and the Text Miner publish no name when [WhichDomain] answers
    with the empty string. *)
Theorem no_empty_domain_event :
  (forall ctx dms req script,
      Forall (fun e => reqDomain e <> "")
        (nameEvents (trace (OnDNSRequest ctx dms req script)))) /\
  (forall ctx dms req,
      Forall (fun e => reqDomain e <> "")
        (nameEvents (trace (processDNSRequest ctx dms req)))) /\
  (forall h ctx dms req i,
      Forall (fun e => reqDomain e <> "")
        (nameEvents (trace (handlerBody h ctx dms req i)))) /\
  (forall ctx dms data domain,
      Forall (fun e => reqDomain e <> "")
        (nameEvents (trace (findNamesAndAddresses ctx dms data domain)))) /\
  (forall ctx dms req i r,
      nth_error (reqRecords req) i = Some r ->
      (EffectiveTLDPlusOne (RemoveLastDot (ansData r)) = None ->
       trace (insertCNAME ctx dms req i) = [] /\
       trace (insertMX ctx dms req i) = []) /\
      (EffectiveTLDPlusOne (last (Split (ansData r) ",") "") = None ->
       trace (insertNS ctx dms req i) = []) /\
      (forall cfg,
          ContextConfig ctx = Pointer cfg ->
          WhichDomain cfg (RemoveLastDot (ansData r)) = "" ->
          nameEvents (trace (insertPTR ctx dms req i)) = [] /\
          nameEvents (trace (insertSRV ctx dms req i)) = [])) /\
  (forall ctx cfg dms data domain,
      ContextConfig ctx = Pointer cfg ->
      (forall name, In name (AnySubdomainFindAll data) ->
                    WhichDomain cfg name = "") ->
      nameEvents (trace (findNamesAndAddresses ctx dms data domain)) = []).
Proof.
  repeat split.
  - intros. apply domainOK_nameEvents, domainOK_everywhere.
  - intros. apply domainOK_nameEvents, domainOK_process.
  - intros. apply domainOK_nameEvents, domainOK_handler.
  - intros. apply domainOK_nameEvents, domainOK_miner.
  - now apply insertCNAME_underivable with (r := r).
  - now apply insertMX_underivable with (r := r).
  - now apply insertNS_underivable with (r := r).
  - erewrite insertPTR_out_of_scope; eauto.
  - eapply insertSRV_out_of_scope; eauto.
  - intros. eapply miner_out_of_scope; eauto.
Qed.

(** ** The dispatcher *)

Lemma bind_assoc {A B C} (m : Run A) (f : A -> Run B) (g : B -> Run C) :
  bind (bind m f) g = bind m (fun x => bind (f x) g).
Proof.
  destruct m as [t [a|]]; simpl; [|reflexivity].
  destruct (f a) as [t1 [b|]]; simpl; [|reflexivity].
  destruct (g b) as [t2 o]. now rewrite app_assoc.
Qed.

Lemma bind_ext {A B} (m : Run A) (k1 k2 : A -> Run B) :
  (forall a, k1 a = k2 a) -> bind m k1 = bind m k2.
Proof. intros H. destruct m as [t [a|]]; simpl; now rewrite ?H. Qed.

Lemma updateAt_middle {A} (done : list A) (x : A) (rest : list A) (f : A -> A) :
  updateAt (done ++ x :: rest) (List.length done) f = (done ++ f x :: rest)%list.
Proof. induction done as [|y done IH]; simpl; [reflexivity | now rewrite IH]. Qed.

(** The two assignments of the first loop turn record [i] into its
    normalised form and leave every other record alone. *)
Lemma normalize_in_place (req : DNSRequest) (done : list DNSAnswer)
    (r : DNSAnswer) (rest : list DNSAnswer) :
  reqRecords req = (done ++ r :: rest)%list ->
  setRecordData
    (setRecordName req (List.length done) (normalize (ansName r)))
    (List.length done) (normalize (ansData r))
  = withRecords req (done ++ normalizeRecord r :: rest).
Proof.
  intros H. unfold setRecordData, setRecordName, withRecords. cbn.
  rewrite H, !updateAt_middle. reflexivity.
Qed.

Lemma withRecords_withRecords (req : DNSRequest) (l1 l2 : list DNSAnswer) :
  withRecords (withRecords req l1) l2 = withRecords req l2.
Proof. reflexivity. Qed.

Lemma scanForCNAME_none (ctx : Context) (dms : DataManagerService)
    (rs : list DNSAnswer) :
  Forall (fun r => ~ isCNAME r) rs ->
  forall (req : DNSRequest) (done : list DNSAnswer),
    reqRecords req = (done ++ rs)%list ->
    scanForCNAME ctx dms req (List.length done) rs
    = ret (withRecords req (done ++ map normalizeRecord rs), false).
Proof.
  induction 1 as [|r rs Hr _ IH]; intros req done Hreq; cbn [scanForCNAME map].
  - rewrite app_nil_r in *. destruct req; cbn in *. now subst.
  - cbv zeta. rewrite (normalize_in_place req done r rs Hreq).
    destruct (Z.eqb_spec (uint16 (ansType r)) TypeCNAME) as [E|_];
      [now elim Hr|].
    specialize (IH (withRecords req (done ++ normalizeRecord r :: rs))
                   (done ++ [normalizeRecord r])%list).
    rewrite length_app, Nat.add_1_r in IH. cbn [List.length] in IH.
    rewrite IH by (cbn; now rewrite <- app_assoc).
    rewrite withRecords_withRecords, <- app_assoc. reflexivity.
Qed.

Lemma scanForCNAME_found (ctx : Context) (dms : DataManagerService)
    (pre : list DNSAnswer) (r : DNSAnswer) (post : list DNSAnswer) :
  Forall (fun r' => ~ isCNAME r') pre ->
  isCNAME r ->
  forall (req : DNSRequest) (done : list DNSAnswer),
    reqRecords req = (done ++ pre ++ r :: post)%list ->
    scanForCNAME ctx dms req (List.length done) (pre ++ r :: post)
    = (let req' :=
         withRecords req
           (done ++ map normalizeRecord pre ++ normalizeRecord r :: post) in
       call hCNAME ctx dms req' (List.length done + List.length pre) ;;
       ret (req', true)).
Proof.
  intros Hpre Hr. induction Hpre as [|p pre Hp _ IH]; intros req done Hreq.
  - cbn [app scanForCNAME map List.length]. cbv zeta.
    rewrite (normalize_in_place req done r post Hreq).
    unfold isCNAME in Hr. rewrite Hr, Z.eqb_refl, Nat.add_0_r. reflexivity.
  - cbn [app scanForCNAME map List.length]. cbv zeta.
    rewrite (normalize_in_place req done p (pre ++ r :: post) Hreq).
    destruct (Z.eqb_spec (uint16 (ansType p)) TypeCNAME) as [E|_];
      [now elim Hp|].
    specialize (IH (withRecords req (done ++ normalizeRecord p :: pre ++ r :: post))
                   (done ++ [normalizeRecord p])%list).
    rewrite length_app, Nat.add_1_r in IH. cbn [List.length] in IH.
    rewrite IH by (cbn; now rewrite <- app_assoc).
    cbv zeta. rewrite withRecords_withRecords, <- app_assoc.
    cbn [app]. now rewrite Nat.add_succ_r.
Qed.

Lemma first_CNAME_split (rs : list DNSAnswer) :
  Exists isCNAME rs ->
  exists pre r post,
    rs = (pre ++ r :: post)%list /\
    Forall (fun r' => ~ isCNAME r') pre /\ isCNAME r.
Proof.
  induction rs as [|x rs IH]; intros H; [inversion H|].
  destruct (Z.eq_dec (uint16 (ansType x)) TypeCNAME) as [E|E].
  - exists [], x, rs. repeat split; [constructor | exact E].
  - inversion H as [? ? Hx | ? ? Hrs]; subst; [now elim E|].
    destruct (IH Hrs) as (pre & r & post & -> & Hpre & Hr).
    exists (x :: pre), r, post. repeat split; [now constructor | exact Hr].
Qed.

(** [processDNSRequest] when a CNAME record is present and when none is. *)
Lemma processDNSRequest_cname (ctx : Context) (bus : EventBus)
    (dms : DataManagerService) (req : DNSRequest)
    (pre : list DNSAnswer) (r : DNSAnswer) (post : list DNSAnswer) :
  ContextEventBus ctx = Pointer bus ->
  reqRecords req = (pre ++ r :: post)%list ->
  Forall (fun r' => ~ isCNAME r') pre ->
  isCNAME r ->
  processDNSRequest ctx dms req
  = (let req' :=
       withRecords req (map normalizeRecord pre ++ normalizeRecord r :: post) in
     defer (Release 1)
       (heartbeat bus dms ;;
        call hCNAME ctx dms req' (List.length pre) ;;
        ret req')).
Proof.
  intros Hb Hreq Hpre Hr. unfold processDNSRequest.
  rewrite Hb. cbn [asPointer]. rewrite bind_ret_l. rewrite Hreq.
  pose proof (scanForCNAME_found ctx dms pre r post Hpre Hr req [] Hreq) as Hs.
  cbn [app List.length Nat.add] in Hs. rewrite Hs.
  cbv zeta. f_equal. apply bind_ext. intros _.
  rewrite bind_assoc. apply bind_ext. intros _.
  now rewrite bind_ret_l.
Qed.

Lemma processDNSRequest_plain (ctx : Context) (bus : EventBus)
    (dms : DataManagerService) (req : DNSRequest) :
  ContextEventBus ctx = Pointer bus ->
  Forall (fun r => ~ isCNAME r) (reqRecords req) ->
  processDNSRequest ctx dms req
  = (let req' := withRecords req (map normalizeRecord (reqRecords req)) in
     defer (Release 1)
       (heartbeat bus dms ;;
        dispatchRecords ctx bus dms req' 0 (reqRecords req') ;;
        ret req')).
Proof.
  intros Hb Hno. unfold processDNSRequest.
  rewrite Hb. cbn [asPointer]. rewrite bind_ret_l.
  pose proof (scanForCNAME_none ctx dms _ Hno req [] eq_refl) as Hs.
  cbn [app List.length] in Hs. rewrite Hs.
  rewrite bind_ret_l. reflexivity.
Qed.

Lemma notEnter_no_calls (t : list Effect) :
  Forall notEnter t -> handlerCalls t = [] /\ handlerInputs t = [].
Proof.
  induction 1 as [|e t He _ [IH1 IH2]]; [now split|].
  destruct e; simpl in *; try contradiction; now split.
Qed.

Lemma handlerBody_notEnter (h : Handler) (ctx : Context)
    (dms : DataManagerService) (req : DNSRequest) (i : nat) :
  Forall notEnter (trace (handlerBody h ctx dms req i)).
Proof.
  apply (handlerBody_holds (Forall notEnter)); intros;
    try (apply fanout_Forall; intros); try (now apply Forall_app); leaf.
Qed.

Lemma call_calls (h : Handler) (ctx : Context) (dms : DataManagerService)
    (req : DNSRequest) (i : nat) :
  handlerCalls (trace (call h ctx dms req i)) = [(h, i)] /\
  handlerInputs (trace (call h ctx dms req i)) = [req].
Proof.
  unfold call. rewrite trace_bind. cbn [emit trace outcome fst snd app].
  destruct (notEnter_no_calls _ (handlerBody_notEnter h ctx dms req i))
    as [H1 H2].
  cbn [handlerCalls handlerInputs]. now rewrite H1, H2.
Qed.

Lemma dispatch_inputs (ctx : Context) (dms : DataManagerService)
    (req : DNSRequest) (i : nat) (r : DNSAnswer) :
  Forall (eq req) (handlerInputs (trace (dispatch ctx dms req i r))).
Proof.
  unfold dispatch. cbv zeta.
  repeat (destruct (_ =? _)%Z;
          [rewrite (proj2 (call_calls _ ctx dms req i)); now constructor|]).
  constructor.
Qed.

Lemma dispatchRecords_inputs (ctx : Context) (bus : EventBus)
    (dms : DataManagerService) (req : DNSRequest) (rs : list DNSAnswer) :
  forall i,
    Forall (eq req) (handlerInputs (trace (dispatchRecords ctx bus dms req i rs))).
Proof.
  induction rs as [|r rs IH]; intros i; cbn [dispatchRecords]; [constructor|].
  rewrite !trace_bind, !handlerInputs_app.
  apply Forall_app; split; [constructor|].
  destruct (outcome (heartbeat bus dms)); [|constructor].
  rewrite ?trace_bind, ?handlerInputs_app.
  apply Forall_app; split; [apply dispatch_inputs|].
  destruct (outcome (dispatch _ _ _ _ _)); [apply IH | constructor].
Qed.

(** C2: when the event bus is there and some record of the request has the
    type CNAME (after conversion to [uint16]), the records split at the
    first such record, and the handler calls of [processDNSRequest] are
    exactly one: the CNAME handler on the index of that record. *)
Theorem cname_exclusive (ctx : Context) (bus : EventBus)
    (dms : DataManagerService) (req : DNSRequest) :
  ContextEventBus ctx = Pointer bus ->
  Exists isCNAME (reqRecords req) ->
  exists pre r post,
    reqRecords req = (pre ++ r :: post)%list /\
    Forall (fun r' => ~ isCNAME r') pre /\
    isCNAME r /\
    handlerCalls (trace (processDNSRequest ctx dms req))
    = [(hCNAME, List.length pre)].
Proof.
  intros Hb Hex.
  destruct (first_CNAME_split _ Hex) as (pre & r & post & Hreq & Hpre & Hr).
  exists pre, r, post. repeat split; try assumption.
  rewrite (processDNSRequest_cname ctx bus dms req pre r post Hb Hreq Hpre Hr).
  cbv zeta. rewrite trace_defer, handlerCalls_app, !trace_bind.
  cbn [heartbeat publish emit trace outcome fst snd app handlerCalls].
  rewrite handlerCalls_app.
  rewrite (proj1 (call_calls hCNAME ctx dms _ _)).
  destruct (outcome (call _ _ _ _ _)); reflexivity.
Qed.

Lemma normalizeRecord_noDots (r : DNSAnswer) :
  (noLeadingDot (ansName (normalizeRecord r)) /\
   noTrailingDot (ansName (normalizeRecord r))) /\
  (noLeadingDot (ansData (normalizeRecord r)) /\
   noTrailingDot (ansData (normalizeRecord r))).
Proof.
  unfold normalizeRecord, normalize, Trim. cbn [ansName ansData].
  repeat split;
    first [apply trimLeftByte_first|apply trimLeftByte_last, trimRightByte_last].
Qed.

Lemma normalizeRecord_codeNormalized (r : DNSAnswer) :
  caseTableLowers ->
  codeNormalized (ansName (normalizeRecord r)) /\
  codeNormalized (ansData (normalizeRecord r)).
Proof. intros H. split; now apply normalize_codeNormalized. Qed.

(** C3 (amended): with the event bus there, the first loop normalises
    records by [strings.Trim(strings.ToLower(x), ".")].  A normalised name
    or data has no leading and no trailing ['.'] (white space is not
    touched), and it is lower-case, that is, lower-casing it again changes
    nothing, the case tables giving each code point a lower-case code
    point.  When no record has the type CNAME, every record is normalised
    before any handler is called: each handler call is given the request
    with all records normalised, which is also the request the call leaves
    behind.  When a record has the type CNAME, the records up to and
    including the first such record are normalised and the later ones are
    left as they were, and this is the request given to the one handler
    call. *)
Theorem normalization_before_dispatch (ctx : Context) (bus : EventBus)
    (dms : DataManagerService) (req : DNSRequest) :
  ContextEventBus ctx = Pointer bus ->
  (forall r,
      (noLeadingDot (ansName (normalizeRecord r)) /\
       noTrailingDot (ansName (normalizeRecord r))) /\
      (noLeadingDot (ansData (normalizeRecord r)) /\
       noTrailingDot (ansData (normalizeRecord r)))) /\
  (caseTableLowers ->
   forall r, isLowerCase (ansName (normalizeRecord r)) /\
             isLowerCase (ansData (normalizeRecord r))) /\
  (Forall (fun r => ~ isCNAME r) (reqRecords req) ->
   let req' := withRecords req (map normalizeRecord (reqRecords req)) in
   Forall (eq req') (handlerInputs (trace (processDNSRequest ctx dms req))) /\
   forall out, outcome (processDNSRequest ctx dms req) = Returned out ->
               out = req') /\
  (forall pre r post,
      reqRecords req = (pre ++ r :: post)%list ->
      Forall (fun r' => ~ isCNAME r') pre ->
      isCNAME r ->
      let req' :=
        withRecords req (map normalizeRecord pre ++ normalizeRecord r :: post) in
      handlerInputs (trace (processDNSRequest ctx dms req)) = [req'] /\
      forall out, outcome (processDNSRequest ctx dms req) = Returned out ->
                  out = req').
Proof.
  intros Hb. split; [exact normalizeRecord_noDots|]. split.
  { intros H r. destruct (normalizeRecord_codeNormalized r H) as [Hn Hd].
    split; [apply Hn|apply Hd]. }
  split.
  - intros Hno req'.
    rewrite (processDNSRequest_plain ctx bus dms req Hb Hno).
    fold req'. cbv zeta. split.
    + rewrite trace_defer, handlerInputs_app, app_nil_r, !trace_bind.
      cbn [heartbeat publish emit trace outcome fst snd app handlerInputs].
      rewrite handlerInputs_app.
      apply Forall_app; split; [apply dispatchRecords_inputs|].
      destruct (outcome (dispatchRecords _ _ _ _ _ _)); constructor.
    + intros out. rewrite outcome_defer, !outcome_bind.
      cbn [heartbeat publish emit outcome snd].
      destruct (outcome (dispatchRecords _ _ _ _ _ _)); [|discriminate].
      cbn. now intros [= <-].
  - intros pre r post Hreq Hpre Hr req'.
    rewrite (processDNSRequest_cname ctx bus dms req pre r post Hb Hreq Hpre Hr).
    fold req'. cbv zeta. split.
    + rewrite trace_defer, handlerInputs_app, app_nil_r, !trace_bind.
      cbn [heartbeat publish emit trace outcome fst snd app handlerInputs].
      rewrite handlerInputs_app, (proj2 (call_calls hCNAME ctx dms _ _)).
      destruct (outcome (call _ _ _ _ _)); reflexivity.
    + intros out. rewrite outcome_defer, !outcome_bind.
      cbn [heartbeat publish emit outcome snd].
      destruct (outcome (call _ _ _ _ _)); [|discriminate].
      cbn. now intros [= <-].
Qed.

(** ** The record handlers *)

(** C4 (amended): for a PTR record with a non-empty target, the scope
    check comes before the sink loop.  When [WhichDomain] gives the empty
    domain for the target the handler returns with no effect at all: no
    name is published and the PTR fact is written to no sink.  When the
    domain is not empty the fact goes to every sink and the name is
    published with that domain in lower case. *)
Theorem ptr_scope_guards_fact (ctx : Context) (cfg : Config) (bus : EventBus)
    (dms : DataManagerService) (req : DNSRequest) (i : nat) (r : DNSAnswer) :
  ContextConfig ctx = Pointer cfg ->
  ContextEventBus ctx = Pointer bus ->
  nth_error (reqRecords req) i = Some r ->
  RemoveLastDot (ansData r) <> "" ->
  (WhichDomain cfg (RemoveLastDot (ansData r)) = "" ->
   insertPTR ctx dms req i = ([], Returned tt)) /\
  (WhichDomain cfg (RemoveLastDot (ansData r)) <> "" ->
   graphInserts (trace (insertPTR ctx dms req i))
   = map (fun g =>
            (graphString g,
             InsertPTR (reqName req) (RemoveLastDot (ansData r))
               (reqSource req) (reqTag req) (UUID cfg)))
         (GraphDatabases dms) /\
   nameEvents (trace (insertPTR ctx dms req i))
   = [ mkDNSRequest (RemoveLastDot (ansData r))
         (ToLower (WhichDomain cfg (RemoveLastDot (ansData r))))
         [] DNS (reqSource req) ]).
Proof.
  intros Hc Hb Hr Ht.
  rewrite (insertPTR_eq ctx cfg bus dms req i r Hc Hb Hr). cbv zeta.
  apply String.eqb_neq in Ht. rewrite Ht. cbn [orb]. split.
  - intros Hd. now rewrite Hd.
  - intros Hd.
    destruct (String.eqb_spec (ToLower (WhichDomain cfg (RemoveLastDot (ansData r)))) "")
      as [E|_]; [now apply ToLower_empty in E|].
    cbn [trace fst].
    rewrite graphInserts_app, nameEvents_app, graphInserts_fanout,
      nameEvents_fanout.
    cbn. now rewrite app_nil_r.
Qed.

(** C8: with configuration and bus there, the NS handler takes as target
    the last field of the record data split on [','] and the MX handler the
    data without its final dot.  When the target is empty, when
    [EffectiveTLDPlusOne] fails on it, or when the domain it gives is
    empty, the handler returns with no effect.  Otherwise the fact is
    written to every sink, then a name is published for the target exactly
    when the target differs from the domain in lower case, then the
    heartbeat. *)
Theorem ns_mx_follow_up (ctx : Context) (cfg : Config) (bus : EventBus)
    (dms : DataManagerService) (req : DNSRequest) (i : nat) (r : DNSAnswer) :
  ContextConfig ctx = Pointer cfg ->
  ContextEventBus ctx = Pointer bus ->
  nth_error (reqRecords req) i = Some r ->
  (let target := last (Split (ansData r) ",") "" in
   (target = "" \/ EffectiveTLDPlusOne target = None \/
    (exists d, EffectiveTLDPlusOne target = Some d /\ ToLower d = "") ->
    insertNS ctx dms req i = ([], Returned tt)) /\
   (forall d,
       target <> "" -> EffectiveTLDPlusOne target = Some d -> ToLower d <> "" ->
       let fact := InsertNS (reqName req) target (reqSource req) (reqTag req)
                     (UUID cfg) in
       let event := Publish NewNameTopic PriorityHigh
                      (PDNSRequest (mkDNSRequest target (ToLower d) [] DNS "DNS")) in
       (exists msg,
           insertNS ctx dms req i
           = ((fanout (GraphDatabases dms) fact msg
               ++ (if target =? ToLower d then [] else [event])
               ++ [Publish SetActiveTopic PriorityCritical
                     (PString (srvString dms))])%list,
              Returned tt)) /\
       graphInserts (trace (insertNS ctx dms req i))
       = map (fun g => (graphString g, fact)) (GraphDatabases dms) /\
       (nameEvents (trace (insertNS ctx dms req i))
        = [mkDNSRequest target (ToLower d) [] DNS "DNS"]
        <-> target <> ToLower d) /\
       (nameEvents (trace (insertNS ctx dms req i)) = []
        <-> target = ToLower d))) /\
  (let target := RemoveLastDot (ansData r) in
   (target = "" \/ EffectiveTLDPlusOne target = None \/
    (exists d, EffectiveTLDPlusOne target = Some d /\ ToLower d = "") ->
    insertMX ctx dms req i = ([], Returned tt)) /\
   (forall d,
       target <> "" -> EffectiveTLDPlusOne target = Some d -> ToLower d <> "" ->
       let fact := InsertMX (reqName req) target (reqSource req) (reqTag req)
                     (UUID cfg) in
       let event := Publish NewNameTopic PriorityHigh
                      (PDNSRequest (mkDNSRequest target (ToLower d) [] DNS "DNS")) in
       (exists msg,
           insertMX ctx dms req i
           = ((fanout (GraphDatabases dms) fact msg
               ++ (if target =? ToLower d then [] else [event])
               ++ [Publish SetActiveTopic PriorityCritical
                     (PString (srvString dms))])%list,
              Returned tt)) /\
       graphInserts (trace (insertMX ctx dms req i))
       = map (fun g => (graphString g, fact)) (GraphDatabases dms) /\
       (nameEvents (trace (insertMX ctx dms req i))
        = [mkDNSRequest target (ToLower d) [] DNS "DNS"]
        <-> target <> ToLower d) /\
       (nameEvents (trace (insertMX ctx dms req i)) = []
        <-> target = ToLower d))).
Proof.
  intros Hc Hb Hr. split.
  - rewrite (insertNS_eq ctx cfg bus dms req i r Hc Hb Hr). cbv zeta.
    set (target := last (Split (ansData r) ",") ""). split.
    + intros [H | [H | (d & H & Hd)]].
      * now rewrite H.
      * rewrite H. now destruct (target =? "").
      * rewrite H, Hd. now destruct (target =? "").
    + intros d Ht He Hd.
      apply String.eqb_neq in Ht, Hd. rewrite Ht, He, Hd.
      split; [eexists; reflexivity|].
      cbn [trace fst].
      rewrite !graphInserts_app, !nameEvents_app, graphInserts_fanout,
        nameEvents_fanout.
      destruct (String.eqb_spec target (ToLower d)) as [E|E]; cbn;
        rewrite ?app_nil_r; repeat split; try congruence.
  - rewrite (insertMX_eq ctx cfg bus dms req i r Hc Hb Hr). cbv zeta.
    set (target := RemoveLastDot (ansData r)). split.
    + intros [H | [H | (d & H & Hd)]].
      * now rewrite H.
      * rewrite H. now destruct (target =? "").
      * rewrite H, Hd. now destruct (target =? "").
    + intros d Ht He Hd.
      apply String.eqb_neq in Ht, Hd. rewrite Ht, He, Hd.
      split; [eexists; reflexivity|].
      cbn [trace fst].
      rewrite !graphInserts_app, !nameEvents_app, graphInserts_fanout,
        nameEvents_fanout.
      destruct (String.eqb_spec target (ToLower d)) as [E|E]; cbn;
        rewrite ?app_nil_r; repeat split; try congruence.
Qed.

(** C9: the normalisation of the dispatcher is idempotent on every byte
    string, ASCII or not, well-formed UTF-8 or not: on a name or data
    string, on a record, and on a list of records.  The case tables are
    taken to give each code point above ASCII a code point that is its own
    lower case. *)
Theorem normalize_idempotent :
  caseTableLowers ->
  (forall x, normalize (normalize x) = normalize x) /\
  (forall r, normalizeRecord (normalizeRecord r) = normalizeRecord r) /\
  (forall rs, map normalizeRecord (map normalizeRecord rs)
              = map normalizeRecord rs).
Proof.
  intros H.
  assert (Hr : forall r, normalizeRecord (normalizeRecord r) = normalizeRecord r).
  { intros r. unfold normalizeRecord. cbn [ansName ansData ansType ansTTL].
    now rewrite !normalize_idem. }
  repeat split.
  - intros x. now apply normalize_idem.
  - exact Hr.
  - intros rs. rewrite map_map. apply map_ext. exact Hr.
Qed.

(** C10: the TXT handler and the SPF handler are the same function of
    context, service, request and index; and they read only the name and
    the domain of the request and the data of the record, so a TXT record
    and an SPF record with the same data under requests of the same name
    and domain run alike. *)
Theorem insertTXT_insertSPF_equal :
  (forall ctx dms req i, insertTXT ctx dms req i = insertSPF ctx dms req i) /\
  (forall ctx dms req1 req2 i j r1 r2,
      reqName req1 = reqName req2 ->
      reqDomain req1 = reqDomain req2 ->
      nth_error (reqRecords req1) i = Some r1 ->
      nth_error (reqRecords req2) j = Some r2 ->
      ansData r1 = ansData r2 ->
      insertTXT ctx dms req1 i = insertSPF ctx dms req2 j).
Proof.
  split; [reflexivity|].
  intros ctx dms req1 req2 i j r1 r2 Hn Hd H1 H2 Hdata.
  unfold insertTXT, insertSPF, recordAt.
  rewrite Hn, Hd, H1, H2. cbn -[findNamesAndAddresses asPointer].
  now rewrite Hdata.
Qed.

(** ** The admission loop *)

Lemma notSleep_sleeps (t : list Effect) : Forall notSleep t -> sleeps t = [].
Proof.
  induction 1 as [|e t He _ IH]; [reflexivity|].
  destruct e; simpl in *; try contradiction; exact IH.
Qed.

Lemma processDNSRequest_sleeps (ctx : Context) (dms : DataManagerService)
    (req : DNSRequest) :
  sleeps (trace (processDNSRequest ctx dms req)) = [].
Proof.
  apply notSleep_sleeps.
  apply (processDNSRequest_holds (Forall notSleep)); intros;
    try (apply fanout_Forall; intros); try (now apply Forall_app); leaf.
Qed.

Lemma delayAt_small (k : nat) :
  k <= maxIdx ->
  exists d, nth_error delays k = Some d /\ (d * Millisecond)%Z = delayAt k.
Proof.
  unfold maxIdx. intros Hk.
  do 7 (destruct k as [|k]; [eexists; split; reflexivity|]). lia.
Qed.

Lemma delayAt_cap (k : nat) : maxIdx <= k -> delayAt k = delayAt maxIdx.
Proof.
  unfold maxIdx, delayAt. intros Hk.
  now rewrite (Nat.min_r k 6) by lia.
Qed.

Lemma admissionLoop_sleeps (ctx : Context) (bus : EventBus)
    (dms : DataManagerService) (req : DNSRequest) (script : list SelectCase) :
  forall k,
    k <= maxIdx ->
    exists n,
      sleeps (trace (admissionLoop ctx bus dms req script k))
      = map (fun j => delayAt (k + j)) (seq 0 n).
Proof.
  induction script as [|s script IH]; intros k Hk; cbn [admissionLoop].
  - now exists 0.
  - destruct s as [| |acquired].
    + now exists 0.
    + destruct (IH k Hk) as [n Hn]. exists n.
      rewrite trace_bind, sleeps_app. exact Hn.
    + destruct acquired; cbn [negb].
      * exists 0. cbv zeta.
        repeat progress
          (rewrite ?trace_bind, ?sleeps_app;
           cbn [emit trace outcome fst snd sleeps app]).
        rewrite processDNSRequest_sleeps.
        now destruct (outcome (processDNSRequest ctx dms req)).
      * destruct (delayAt_small k Hk) as (d & Hd & Hdk). rewrite Hd. cbv zeta.
        set (k' := if (k <? maxIdx)%nat then S k else k).
        assert (Hk' : k' <= maxIdx).
        { subst k'. destruct (Nat.ltb_spec k maxIdx); lia. }
        destruct (IH k' Hk') as [n Hn]. exists (S n).
        repeat progress
          (rewrite ?trace_bind, ?sleeps_app;
           cbn [emit trace outcome fst snd sleeps app]).
        rewrite Hn, Hdk. cbn [seq map]. rewrite Nat.add_0_r. f_equal.
        rewrite <- seq_shift, map_map. apply map_ext. intros j.
        subst k'. destruct (Nat.ltb_spec k maxIdx) as [Hlt|Hge].
        -- f_equal. lia.
        -- rewrite (delayAt_cap (k + j)), (delayAt_cap (k + S j)) by lia.
           reflexivity.
Qed.

Lemma admissionLoop_reset (ctx : Context) (bus : EventBus)
    (dms : DataManagerService) (req : DNSRequest) (script : list SelectCase) :
  forall k curIdx req',
    outcome (admissionLoop ctx bus dms req script k)
    = Returned (ExitAdmitted curIdx req') ->
    curIdx = 0.
Proof.
  induction script as [|s script IH]; intros k curIdx req';
    cbn [admissionLoop]; [discriminate|].
  destruct s as [| |acquired]; [discriminate| |].
  - rewrite outcome_bind. cbn. apply IH.
  - rewrite outcome_bind. cbn [emit outcome snd].
    destruct acquired; cbn [negb].
    + cbv zeta. rewrite !outcome_bind. cbn [emit outcome snd].
      destruct (outcome (processDNSRequest ctx dms req)); [|discriminate].
      cbn. now intros [= <- _].
    + destruct (nth_error delays k); [|discriminate].
      rewrite outcome_bind. cbn [emit outcome snd]. apply IH.
Qed.

(** C6: in one call of [OnDNSRequest], whatever the context and the
    choices of the [select], the [n]-th sleep (from [n = 0]) lasts
    [delay[min(n, 6)]] milliseconds with
    [delay = [25, 50, 75, 100, 150, 250, 500]]; hence no sleep exceeds 500
    milliseconds and a sleep is never shorter than the one before it; and a
    call that acquired the slot ends with its retry counter at [0]. *)
Theorem backoff_delays (ctx : Context) (dms : DataManagerService)
    (req : DNSRequest) (script : list SelectCase) :
  let run := OnDNSRequest ctx dms req script in
  sleeps (trace run) = map delayAt (seq 0 (List.length (sleeps (trace run)))) /\
  (forall n d,
      nth_error (sleeps (trace run)) n = Some d ->
      d = (nth (Nat.min n 6) [25; 50; 75; 100; 150; 250; 500] 0 * Millisecond)%Z /\
      (d <= 500 * Millisecond)%Z) /\
  (forall n d d',
      nth_error (sleeps (trace run)) n = Some d ->
      nth_error (sleeps (trace run)) (S n) = Some d' ->
      (d <= d')%Z) /\
  (forall curIdx req',
      outcome run = Returned (ExitAdmitted curIdx req') -> curIdx = 0).
Proof.
  intros run.
  assert (Hs : exists n, sleeps (trace run) = map delayAt (seq 0 n)).
  { subst run. unfold OnDNSRequest.
    destruct (ContextEventBus ctx) as [| |bus]; try (now exists 0).
    cbn [asPointer]. rewrite bind_ret_l. cbv zeta.
    destruct (admissionLoop_sleeps ctx bus dms req script 0) as [n Hn];
      [unfold maxIdx; lia|].
    exists n. exact Hn. }
  destruct Hs as [n Hn].
  assert (Hnth : forall j d, nth_error (sleeps (trace run)) j = Some d ->
                             d = delayAt j).
  { intros j d. rewrite Hn, nth_error_map.
    destruct (nth_error (seq 0 n) j) as [x|] eqn:E; [|discriminate].
    assert (Hlt : j < n).
    { rewrite <- (length_seq n 0). apply nth_error_Some. now rewrite E. }
    pose proof (nth_error_nth _ _ 0 E) as Hx.
    rewrite seq_nth in Hx by assumption. cbn in Hx. subst x.
    now intros [= <-]. }
  assert (Hbound : forall j, (delayAt j <= 500 * Millisecond)%Z).
  { intros j. unfold delayAt.
    destruct (Nat.min j 6) as [|[|[|[|[|[|[|m]]]]]]] eqn:E;
      cbn; try discriminate; try lia. }
  assert (Hmono : forall j, (delayAt j <= delayAt (S j))%Z).
  { intros j. unfold delayAt.
    do 7 (destruct j as [|j]; [cbn; discriminate|]).
    rewrite !Nat.min_r by lia. lia. }
  repeat split.
  - rewrite Hn at 1. now rewrite Hn, length_map, length_seq.
  - now apply Hnth.
  - apply Hnth in H. subst d. apply Hbound.
  - intros j d d' H1 H2. apply Hnth in H1, H2. subst. apply Hmono.
  - intros curIdx req'. subst run. unfold OnDNSRequest.
    destruct (ContextEventBus ctx) as [| |bus]; try discriminate.
    cbn [asPointer]. rewrite bind_ret_l. cbv zeta.
    apply admissionLoop_reset.
Qed.

(** ** Sink failures *)

Lemma sameButLogs_bind {A B} (m m0 : Run A) (k k0 : A -> Run B) :
  sameButLogs m m0 ->
  (forall a, sameButLogs (k a) (k0 a)) ->
  sameButLogs (bind m k) (bind m0 k0).
Proof.
  unfold sameButLogs. intros [Ht Ho] Hk.
  rewrite !trace_bind, !outcome_bind, withoutLogs_app, Ht, <- Ho.
  destruct (outcome m) as [a|]; [|now split].
  destruct (Hk a) as [Hta Hoa]. now rewrite Hta, Hoa.
Qed.

Lemma notLog_withoutLogs (t : list Effect) :
  Forall notLog t -> withoutLogs t = t.
Proof.
  induction 1 as [|e t He _ IH]; [reflexivity|].
  unfold withoutLogs in *. cbn [filter]. unfold notLog in He.
  now rewrite He, IH.
Qed.

Lemma sameButLogs_refl {A} (m : Run A) :
  Forall notLog (trace m) -> sameButLogs m m.
Proof. intros H. split; [now apply notLog_withoutLogs | reflexivity]. Qed.

Lemma withoutLogs_fanout (gs : list Graph) (c : GraphCall)
    (msg msg' : Graph -> string -> string) :
  withoutLogs (fanout gs c msg) = fanout (map reliableGraph gs) c msg'.
Proof.
  induction gs as [|g gs IH]; [reflexivity|].
  cbn [fanout flat_map map]. fold (fanout gs c msg).
  fold (fanout (map reliableGraph gs) c msg').
  rewrite withoutLogs_app, IH. cbn. now destruct (graphInsert g c).
Qed.

Lemma sameButLogs_forGraphs (gs : list Graph) (c : GraphCall)
    (bus : EventBus) (msg msg' : Graph -> string -> string) :
  sameButLogs
    (forGraphs gs
       (fun g => err <- graphCall g c ;; logFailure bus err (msg g)))
    (forGraphs (map reliableGraph gs)
       (fun g => err <- graphCall g c ;; logFailure bus err (msg' g))).
Proof.
  rewrite !forGraphs_fanout. split; [apply withoutLogs_fanout | reflexivity].
Qed.

Lemma miner_sameButLogs (ctx : Context) (dms : DataManagerService)
    (data domain : string) :
  sameButLogs (findNamesAndAddresses ctx dms data domain)
              (findNamesAndAddresses ctx (reliable dms) data domain).
Proof.
  change (findNamesAndAddresses ctx (reliable dms) data domain)
    with (findNamesAndAddresses ctx dms data domain).
  apply sameButLogs_refl.
  apply (findNamesAndAddresses_holds (Forall notLog)); intros;
    try (now apply Forall_app); leaf.
Qed.

Ltac sim :=
  cbv zeta;
  lazymatch goal with
  | |- sameButLogs (bind _ _) _ => apply sameButLogs_bind; [|intros ?]
  | |- sameButLogs (forGraphs _ _) _ => apply sameButLogs_forGraphs
  | |- sameButLogs (asPointer ?v) _ => destruct v; split; reflexivity
  | |- sameButLogs (recordAt _ _) _ =>
      unfold recordAt; destruct (nth_error _ _); split; reflexivity
  | |- sameButLogs (findNamesAndAddresses _ _ _ _) _ => apply miner_sameButLogs
  | |- sameButLogs (match ?x with _ => _ end) _ => destruct x eqn:?
  | |- sameButLogs _ _ => split; reflexivity
  end.

Lemma handlerBody_sameButLogs (h : Handler) (ctx : Context)
    (dms : DataManagerService) (req : DNSRequest) (i : nat) :
  sameButLogs (handlerBody h ctx dms req i)
              (handlerBody h ctx (reliable dms) req i).
Proof.
  destruct h; cbn [handlerBody];
    [ unfold insertCNAME | unfold insertA | unfold insertAAAA
    | unfold insertPTR | unfold insertSRV | unfold insertNS
    | unfold insertMX | unfold insertTXT | unfold insertSPF ];
    repeat sim.
Qed.

Lemma OnASNRequest_sameButLogs (ctx : Context) (dms : DataManagerService)
    (req : ASNRequest) :
  sameButLogs (OnASNRequest ctx dms req) (OnASNRequest ctx (reliable dms) req).
Proof. unfold OnASNRequest. repeat sim. Qed.

Lemma allSinksCalled_nil (gs : list Graph) : allSinksCalled gs [].
Proof. intros g0 c []. Qed.

Lemma allSinksCalled_app (gs : list Graph) (t1 t2 : list Effect) :
  allSinksCalled gs t1 -> allSinksCalled gs t2 -> allSinksCalled gs (t1 ++ t2).
Proof.
  unfold allSinksCalled. intros H1 H2 g0 c Hin g Hg.
  rewrite graphInserts_app in *. apply in_app_iff in Hin. apply in_app_iff.
  destruct Hin as [Hin|Hin]; [left; eapply H1 | right; eapply H2]; eauto.
Qed.

Lemma allSinksCalled_fanout (gs : list Graph) (c : GraphCall)
    (msg : Graph -> string -> string) :
  allSinksCalled gs (fanout gs c msg).
Proof.
  intros g0 c' Hin g Hg. rewrite graphInserts_fanout in *.
  apply in_map_iff in Hin as (g' & [= _ <-] & _).
  apply in_map_iff. now exists g.
Qed.

Lemma allSinksCalled_quiet (gs : list Graph) (e : Effect) :
  isGraphInsert e = false -> allSinksCalled gs [e].
Proof. intros He g0 c Hin. destruct e; try discriminate; destruct Hin. Qed.

(** ** Nil dependencies *)

Lemma handler_nil_config (h : Handler) (ctx : Context)
    (dms : DataManagerService) (req : DNSRequest) (i : nat) :
  ContextConfig ctx = NilPointer ->
  ContextEventBus ctx <> NoValue ->
  handlerBody h ctx dms req i = ([], Returned tt).
Proof.
  intros Hc Hb.
  destruct h; cbn [handlerBody];
    [ unfold insertCNAME | unfold insertA | unfold insertAAAA
    | unfold insertPTR | unfold insertSRV | unfold insertNS
    | unfold insertMX | unfold insertTXT | unfold insertSPF ];
    rewrite Hc; try reflexivity;
    destruct (ContextEventBus ctx); try reflexivity; now elim Hb.
Qed.

Lemma miner_nil_bus (ctx : Context) (dms : DataManagerService)
    (data domain : string) :
  ContextConfig ctx <> NoValue ->
  ContextEventBus ctx = NilPointer ->
  findNamesAndAddresses ctx dms data domain = ([], Returned tt).
Proof.
  intros Hc Hb. unfold findNamesAndAddresses. rewrite Hb.
  destruct (ContextConfig ctx); try reflexivity. now elim Hc.
Qed.

Lemma handler_nil_bus (h : Handler) (ctx : Context)
    (dms : DataManagerService) (req : DNSRequest) (i : nat) :
  ContextConfig ctx <> NoValue ->
  ContextEventBus ctx = NilPointer ->
  i < List.length (reqRecords req) ->
  handlerBody h ctx dms req i = ([], Returned tt).
Proof.
  intros Hc Hb Hi.
  destruct (nth_error (reqRecords req) i) as [r|] eqn:Hr;
    [|apply nth_error_None in Hr; lia].
  pose proof (fun data domain => miner_nil_bus ctx dms data domain Hc Hb) as Hm.
  destruct h; cbn [handlerBody];
    [ unfold insertCNAME | unfold insertA | unfold insertAAAA
    | unfold insertPTR | unfold insertSRV | unfold insertNS
    | unfold insertMX | unfold insertTXT | unfold insertSPF ];
    unfold recordAt; rewrite ?Hb, Hr;
    destruct (ContextConfig ctx); try reflexivity; try (now elim Hc);
    cbn [asPointer]; rewrite bind_ret_l;
    destruct (negb _); try reflexivity;
    rewrite bind_ret_l; apply Hm.
Qed.

Lemma OnASNRequest_nil (ctx : Context) (dms : DataManagerService)
    (req : ASNRequest) :
  ContextConfig ctx <> NoValue ->
  ContextEventBus ctx <> NoValue ->
  ContextConfig ctx = NilPointer \/ ContextEventBus ctx = NilPointer ->
  OnASNRequest ctx dms req = ([], Returned tt).
Proof.
  intros Hc Hb Hnil. unfold OnASNRequest.
  destruct (_ || _); [reflexivity|].
  destruct (ContextConfig ctx), (ContextEventBus ctx);
    try reflexivity; try (now elim Hc); try (now elim Hb).
  destruct Hnil; discriminate.
Qed.

Lemma calm_ret {A} (a : A) : calm (ret a).
Proof. split; [constructor | discriminate]. Qed.

Lemma calm_emit (e : Effect) : isQuiet e = true -> calm (emit e).
Proof. intros He. split; [now repeat constructor | discriminate]. Qed.

Lemma calm_bind {A B} (m : Run A) (k : A -> Run B) :
  calm m -> (forall a, calm (k a)) -> calm (bind m k).
Proof.
  unfold calm. intros [Ht Ho] Hk. rewrite trace_bind, outcome_bind.
  destruct (outcome m) as [a|]; [|now elim Ho].
  destruct (Hk a) as [Hta Hoa]. split; [now apply Forall_app | exact Hoa].
Qed.

Lemma calm_defer {A} (e : Effect) (m : Run A) :
  isQuiet e = true -> calm m -> calm (defer e m).
Proof.
  unfold calm. intros He [Ht Ho]. rewrite trace_defer, outcome_defer.
  split; [apply Forall_app; split; [exact Ht | now repeat constructor] | exact Ho].
Qed.

Section NilConfig.

Variable ctx : Context.
Variable bus : EventBus.
Variable dms : DataManagerService.
Hypothesis Hcfg : ContextConfig ctx = NilPointer.
Hypothesis Hbus : ContextEventBus ctx = Pointer bus.

Lemma call_calm (h : Handler) (req : DNSRequest) (i : nat) :
  calm (call h ctx dms req i).
Proof.
  unfold call. apply calm_bind; [now apply calm_emit | intros _].
  rewrite handler_nil_config; [apply calm_ret | exact Hcfg |].
  rewrite Hbus. discriminate.
Qed.

Lemma scanForCNAME_calm (rs : list DNSAnswer) :
  forall req i, calm (scanForCNAME ctx dms req i rs).
Proof.
  induction rs as [|r rs IH]; intros req i; cbn [scanForCNAME];
    [apply calm_ret|].
  cbv zeta. destruct (_ =? _)%Z; [|apply IH].
  apply calm_bind; [apply call_calm | intros _; apply calm_ret].
Qed.

Lemma dispatchRecords_calm (req : DNSRequest) (rs : list DNSAnswer) :
  forall i, calm (dispatchRecords ctx bus dms req i rs).
Proof.
  induction rs as [|r rs IH]; intros i; cbn [dispatchRecords];
    [apply calm_ret|].
  apply calm_bind; [now apply calm_emit | intros _].
  apply calm_bind; [|intros _; apply IH].
  unfold dispatch. cbv zeta.
  repeat (destruct (_ =? _)%Z; [apply call_calm|]).
  apply calm_ret.
Qed.

Lemma processDNSRequest_calm (req : DNSRequest) :
  calm (processDNSRequest ctx dms req).
Proof.
  unfold processDNSRequest. apply calm_defer; [reflexivity|].
  rewrite Hbus. cbn [asPointer]. rewrite bind_ret_l.
  apply calm_bind; [now apply calm_emit | intros _].
  apply calm_bind; [apply scanForCNAME_calm | intros [req' found]].
  destruct found; [apply calm_ret|].
  apply calm_bind; [apply dispatchRecords_calm | intros _; apply calm_ret].
Qed.

Lemma admissionLoop_calm (req : DNSRequest) (script : list SelectCase) :
  forall k, k <= maxIdx -> calm (admissionLoop ctx bus dms req script k).
Proof.
  induction script as [|s script IH]; intros k Hk; cbn [admissionLoop];
    [apply calm_ret|].
  destruct s as [| |acquired]; [apply calm_ret| |].
  - apply calm_bind; [now apply calm_emit | intros _; now apply IH].
  - apply calm_bind; [now apply calm_emit | intros _].
    destruct acquired; cbn [negb].
    + cbv zeta. apply calm_bind; [now apply calm_emit | intros _].
      apply calm_bind; [apply processDNSRequest_calm | intros ?].
      apply calm_ret.
    + destruct (delayAt_small k Hk) as (d & Hd & _). rewrite Hd.
      apply calm_bind; [now apply calm_emit | intros _]. cbv zeta.
      apply IH. destruct (Nat.ltb_spec k maxIdx); lia.
Qed.

Lemma OnDNSRequest_calm (req : DNSRequest) (script : list SelectCase) :
  calm (OnDNSRequest ctx dms req script).
Proof.
  unfold OnDNSRequest. rewrite Hbus. cbn [asPointer]. rewrite bind_ret_l.
  cbv zeta. apply admissionLoop_calm. unfold maxIdx. lia.
Qed.

End NilConfig.

(** Nil pointers are met by the nil checks.  Let both context keys hold a
    pointer and let the configuration pointer or the bus pointer be nil.
    Then every record handler (on an index of the request), the Text Miner
    and [OnASNRequest] return at once: nothing is published, logged or
    written and nothing panics.  With a nil bus pointer [OnDNSRequest]
    returns at once as well, and [processDNSRequest] only releases the
    slot.  With a bus and a nil configuration pointer [OnDNSRequest] waits
    for the slot and runs the dispatcher, whose handlers return at once. *)
Lemma nil_pointer_returns (ctx : Context) (dms : DataManagerService) :
  ContextConfig ctx <> NoValue ->
  ContextEventBus ctx <> NoValue ->
  ContextConfig ctx = NilPointer \/ ContextEventBus ctx = NilPointer ->
  (forall h req i,
      i < List.length (reqRecords req) ->
      handlerBody h ctx dms req i = ([], Returned tt)) /\
  (forall data domain,
      findNamesAndAddresses ctx dms data domain = ([], Returned tt)) /\
  (forall req, OnASNRequest ctx dms req = ([], Returned tt)) /\
  (ContextEventBus ctx = NilPointer ->
   (forall req script,
       OnDNSRequest ctx dms req script = ([], Returned ExitNoBus)) /\
   (forall req, processDNSRequest ctx dms req = ([Release 1], Returned req))) /\
  (ContextEventBus ctx <> NilPointer ->
   forall req script,
     Forall (fun e => isQuiet e = true)
       (trace (OnDNSRequest ctx dms req script)) /\
     outcome (OnDNSRequest ctx dms req script) <> Panicked).
Proof.
  intros Hc Hb Hnil. repeat split.
  - intros h req i Hi.
    destruct (ContextEventBus ctx) as [| |bus] eqn:Eb; [now elim Hb| |].
    + now apply handler_nil_bus.
    + destruct Hnil as [Hn|Hn]; [|discriminate].
      apply handler_nil_config; [exact Hn | now rewrite Eb].
  - intros data domain. unfold findNamesAndAddresses.
    destruct (ContextConfig ctx), (ContextEventBus ctx);
      try reflexivity; try (now elim Hc); try (now elim Hb).
    destruct Hnil; discriminate.
  - intros req. now apply OnASNRequest_nil.
  - intros req script. unfold OnDNSRequest. now rewrite H.
  - intros req. unfold processDNSRequest. now rewrite H.
  - destruct (ContextEventBus ctx) as [| |bus] eqn:Eb;
      [now elim Hb | now elim H |].
    destruct Hnil as [Hn|Hn]; [|discriminate].
    apply (OnDNSRequest_calm ctx bus dms Hn Eb).
  - destruct (ContextEventBus ctx) as [| |bus] eqn:Eb;
      [now elim Hb | now elim H |].
    destruct Hnil as [Hn|Hn]; [|discriminate].
    apply (OnDNSRequest_calm ctx bus dms Hn Eb).
Qed.

(** C5: the nil checks of the entry points are not reached when the
    context lacks a key.  [ctx.Value(key)] is then the nil interface, and
    the type assertion on it, written in its one-value form, panics before
    the comparison with nil that follows it.  Without the bus key
    [OnDNSRequest] panics at once, [processDNSRequest] panics with only the
    deferred release done, and so do the seven handlers with a sink loop and
    [OnASNRequest] on a request with its fields filled.  Without the
    configuration key every handler, the Text Miner and [OnASNRequest] on
    such a request panic at once.  No event or log line comes first, and
    the panic is not recovered. *)
Theorem absent_dependency_panics (ctx : Context) (dms : DataManagerService) :
  (ContextEventBus ctx = NoValue ->
   (forall req script, OnDNSRequest ctx dms req script = ([], Panicked)) /\
   (forall req, processDNSRequest ctx dms req = ([Release 1], Panicked)) /\
   (forall h req i,
       h <> hTXT -> h <> hSPF ->
       handlerBody h ctx dms req i = ([], Panicked)) /\
   (forall req,
       asnAddress req <> "" -> asnPrefix req <> "" -> asnDescription req <> "" ->
       OnASNRequest ctx dms req = ([], Panicked))) /\
  (ContextConfig ctx = NoValue ->
   (forall h req i, handlerBody h ctx dms req i = ([], Panicked)) /\
   (forall data domain,
       findNamesAndAddresses ctx dms data domain = ([], Panicked)) /\
   (forall req,
       asnAddress req <> "" -> asnPrefix req <> "" -> asnDescription req <> "" ->
       OnASNRequest ctx dms req = ([], Panicked))).
Proof.
  split.
  - intros Hb. split; [|split; [|split]].
    + intros req script. unfold OnDNSRequest. now rewrite Hb.
    + intros req. unfold processDNSRequest. now rewrite Hb.
    + intros h req i H1 H2.
      destruct h; try (now elim H1); try (now elim H2); cbn [handlerBody];
        [ unfold insertCNAME | unfold insertA | unfold insertAAAA
        | unfold insertPTR | unfold insertSRV | unfold insertNS
        | unfold insertMX ];
        rewrite Hb; now destruct (ContextConfig ctx).
    + intros req Ha Hp Hd. unfold OnASNRequest.
      apply String.eqb_neq in Ha, Hp, Hd. rewrite Ha, Hp, Hd, Hb.
      now destruct (ContextConfig ctx).
  - intros Hc. split; [|split].
    + intros h req i.
      destruct h; cbn [handlerBody];
        [ unfold insertCNAME | unfold insertA | unfold insertAAAA
        | unfold insertPTR | unfold insertSRV | unfold insertNS
        | unfold insertMX | unfold insertTXT | unfold insertSPF ];
        now rewrite Hc.
    + intros data domain. unfold findNamesAndAddresses. now rewrite Hc.
    + intros req Ha Hp Hd. unfold OnASNRequest.
      apply String.eqb_neq in Ha, Hp, Hd. now rewrite Ha, Hp, Hd, Hc.
Qed.

(** ** Runs that do not panic *)

Lemma safe_ret {A} (a : A) : safe (ret a).
Proof. discriminate. Qed.

Lemma safe_emit (e : Effect) : safe (emit e).
Proof. discriminate. Qed.

Lemma safe_bind {A B} (m : Run A) (k : A -> Run B) :
  safe m -> (forall a, safe (k a)) -> safe (bind m k).
Proof.
  unfold safe. intros Hm Hk. rewrite outcome_bind.
  destruct (outcome m) as [a|]; [apply Hk | now elim Hm].
Qed.

Lemma safe_defer {A} (e : Effect) (m : Run A) : safe m -> safe (defer e m).
Proof. unfold safe. now rewrite outcome_defer. Qed.

Lemma safe_asPointer {T} (v : CtxValue T) : v <> NoValue -> safe (asPointer v).
Proof. intros H. destruct v; [now elim H | discriminate | discriminate]. Qed.

Lemma safe_recordAt (req : DNSRequest) (i : nat) :
  i < List.length (reqRecords req) -> safe (recordAt req i).
Proof.
  intros Hi. unfold recordAt.
  destruct (nth_error (reqRecords req) i) eqn:E; [discriminate|].
  apply nth_error_None in E. lia.
Qed.

Lemma safe_forStrings (ss : list string) (body : string -> Run unit) :
  (forall s, safe (body s)) -> safe (forStrings ss body).
Proof.
  intros Hb. induction ss as [|s ss IH]; [discriminate|].
  cbn [forStrings]. apply safe_bind; [apply Hb | intros _; exact IH].
Qed.

Section Pointers.

Variable ctx : Context.
Variable dms : DataManagerService.
Hypothesis Hcfg : ContextConfig ctx <> NoValue.
Hypothesis Hbus : ContextEventBus ctx <> NoValue.

Ltac safety :=
  cbv zeta;
  lazymatch goal with
  | |- safe (bind _ _) => apply safe_bind; [|intros ?]
  | |- safe (ret _) => apply safe_ret
  | |- safe (asPointer (ContextConfig ctx)) => apply safe_asPointer, Hcfg
  | |- safe (asPointer (ContextEventBus ctx)) => apply safe_asPointer, Hbus
  | |- safe (recordAt _ _) => apply safe_recordAt; assumption
  | |- safe (forGraphs _ _) =>
      unfold safe; rewrite forGraphs_fanout; discriminate
  | |- safe (forStrings _ _) => apply safe_forStrings; intros ?
  | |- safe (heartbeat _ _) => apply safe_emit
  | |- safe (publish _ _ _ _) => apply safe_emit
  | |- safe (match ?x with _ => _ end) => destruct x eqn:?
  end.

Lemma findNamesAndAddresses_safe (data domain : string) :
  safe (findNamesAndAddresses ctx dms data domain).
Proof. unfold findNamesAndAddresses. repeat safety. Qed.

Lemma handlerBody_safe (h : Handler) (req : DNSRequest) (i : nat) :
  i < List.length (reqRecords req) ->
  safe (handlerBody h ctx dms req i).
Proof.
  intros Hi.
  destruct h; cbn [handlerBody];
    [ unfold insertCNAME | unfold insertA | unfold insertAAAA
    | unfold insertPTR | unfold insertSRV | unfold insertNS
    | unfold insertMX | unfold insertTXT | unfold insertSPF ];
    repeat first [ apply findNamesAndAddresses_safe | safety ].
Qed.

Lemma OnASNRequest_safe (req : ASNRequest) : safe (OnASNRequest ctx dms req).
Proof. unfold OnASNRequest. repeat safety. Qed.

Lemma call_safe (h : Handler) (req : DNSRequest) (i : nat) :
  i < List.length (reqRecords req) -> safe (call h ctx dms req i).
Proof.
  intros Hi. unfold call.
  apply safe_bind; [apply safe_emit | intros _; now apply handlerBody_safe].
Qed.

Lemma dispatch_safe (req : DNSRequest) (i : nat) (r : DNSAnswer) :
  i < List.length (reqRecords req) -> safe (dispatch ctx dms req i r).
Proof.
  intros Hi. unfold dispatch. cbv zeta.
  repeat (destruct (_ =? _)%Z; [now apply call_safe|]).
  apply safe_ret.
Qed.

Lemma dispatchRecords_safe (bus : EventBus) (req : DNSRequest)
    (rs : list DNSAnswer) :
  forall i,
    i + List.length rs <= List.length (reqRecords req) ->
    safe (dispatchRecords ctx bus dms req i rs).
Proof.
  induction rs as [|r rs IH]; intros i Hi; cbn [dispatchRecords];
    [apply safe_ret|].
  cbn [List.length] in Hi.
  apply safe_bind; [apply safe_emit | intros _].
  apply safe_bind; [apply dispatch_safe; lia | intros _; apply IH; lia].
Qed.

Lemma length_updateAt {A} (l : list A) (f : A -> A) :
  forall i, List.length (updateAt l i f) = List.length l.
Proof.
  induction l as [|x l IH]; intros i; [reflexivity|].
  destruct i; cbn; [reflexivity | now rewrite IH].
Qed.

Lemma scanForCNAME_safe (rs : list DNSAnswer) :
  forall req i,
    i + List.length rs <= List.length (reqRecords req) ->
    safe (scanForCNAME ctx dms req i rs).
Proof.
  induction rs as [|r rs IH]; intros req i Hi; cbn [scanForCNAME];
    [apply safe_ret|].
  cbn [List.length] in Hi. cbv zeta.
  set (req' := setRecordData (setRecordName req i _) i _).
  assert (Hlen : List.length (reqRecords req') = List.length (reqRecords req)).
  { subst req'. cbn. now rewrite !length_updateAt. }
  destruct (_ =? _)%Z.
  - apply safe_bind; [apply call_safe; lia | intros _; apply safe_ret].
  - apply IH. lia.
Qed.

Lemma processDNSRequest_safe (req : DNSRequest) :
  safe (processDNSRequest ctx dms req).
Proof.
  unfold processDNSRequest. apply safe_defer.
  apply safe_bind; [apply safe_asPointer, Hbus | intros [bus|]];
    [|apply safe_ret].
  apply safe_bind; [apply safe_emit | intros _].
  apply safe_bind; [apply scanForCNAME_safe; cbn; lia | intros [req' found]].
  destruct found; [apply safe_ret|].
  apply safe_bind;
    [apply dispatchRecords_safe; cbn; lia | intros _; apply safe_ret].
Qed.

Lemma admissionLoop_safe (bus : EventBus) (req : DNSRequest)
    (script : list SelectCase) :
  forall k, k <= maxIdx -> safe (admissionLoop ctx bus dms req script k).
Proof.
  induction script as [|s script IH]; intros k Hk; cbn [admissionLoop];
    [apply safe_ret|].
  destruct s as [| |acquired]; [apply safe_ret| |].
  - apply safe_bind; [apply safe_emit | intros _; now apply IH].
  - apply safe_bind; [apply safe_emit | intros _].
    destruct acquired; cbn [negb].
    + cbv zeta. apply safe_bind; [apply safe_emit | intros _].
      apply safe_bind; [apply processDNSRequest_safe | intros ?].
      apply safe_ret.
    + destruct (delayAt_small k Hk) as (d & Hd & _). rewrite Hd.
      apply safe_bind; [apply safe_emit | intros _]. cbv zeta.
      apply IH. destruct (Nat.ltb_spec k maxIdx); lia.
Qed.

(** X1: when the context holds a pointer, nil or not, under both keys,
    nothing in the service panics: not [OnDNSRequest] under any choices of
    its [select], not [processDNSRequest], not [OnASNRequest], not the Text
    Miner, and no handler on an index of the request. *)
Theorem no_panic_with_pointers :
  (forall req script, safe (OnDNSRequest ctx dms req script)) /\
  (forall req, safe (processDNSRequest ctx dms req)) /\
  (forall req, safe (OnASNRequest ctx dms req)) /\
  (forall data domain, safe (findNamesAndAddresses ctx dms data domain)) /\
  (forall h req i,
      i < List.length (reqRecords req) -> safe (handlerBody h ctx dms req i)).
Proof.
  repeat split.
  - intros req script. unfold OnDNSRequest.
    apply safe_bind; [apply safe_asPointer, Hbus | intros [bus|]];
      [|apply safe_ret].
    cbv zeta. apply admissionLoop_safe. unfold maxIdx. lia.
  - apply processDNSRequest_safe.
  - apply OnASNRequest_safe.
  - apply findNamesAndAddresses_safe.
  - intros h req i Hi. now apply handlerBody_safe.
Qed.

End Pointers.

(** ** The order of the handler calls *)

Lemma dispatch_calls (ctx : Context) (dms : DataManagerService)
    (req : DNSRequest) (i : nat) (r : DNSAnswer) :
  handlerCalls (trace (dispatch ctx dms req i r))
  = match handlerOf (uint16 (ansType r)) with
    | Some h => [(h, i)]
    | None => []
    end.
Proof.
  unfold dispatch, handlerOf. cbv zeta.
  repeat (destruct (_ =? _)%Z; [apply call_calls|]).
  reflexivity.
Qed.

Lemma dispatchRecords_calls (ctx : Context) (bus : EventBus)
    (dms : DataManagerService) (req : DNSRequest) (rs : list DNSAnswer) :
  ContextConfig ctx <> NoValue ->
  ContextEventBus ctx <> NoValue ->
  forall i,
    i + List.length rs <= List.length (reqRecords req) ->
    handlerCalls (trace (dispatchRecords ctx bus dms req i rs))
    = supportedFrom i rs.
Proof.
  intros Hc Hb. induction rs as [|r rs IH]; intros i Hi; [reflexivity|].
  cbn [dispatchRecords supportedFrom List.length] in *.
  rewrite trace_bind. cbn [heartbeat publish emit trace outcome fst snd app].
  cbn [handlerCalls]. rewrite trace_bind, handlerCalls_app, dispatch_calls.
  pose proof (dispatch_safe ctx dms Hc Hb req i r) as Hs.
  unfold safe in Hs.
  destruct (outcome (dispatch ctx dms req i r)); [|elim Hs; [lia | reflexivity]].
  rewrite IH by lia.
  now destruct (handlerOf (uint16 (ansType r))).
Qed.

Lemma supportedFrom_normalized (rs : list DNSAnswer) :
  forall i, supportedFrom i (map normalizeRecord rs) = supportedFrom i rs.
Proof.
  induction rs as [|r rs IH]; intros i; [reflexivity|].
  cbn [map supportedFrom normalizeRecord ansType]. now rewrite IH.
Qed.

(** X4: when no record of the request has the type CNAME (and the context
    holds a bus and some configuration pointer), the handler calls of
    [processDNSRequest] are exactly the records whose type, converted to
    [uint16], is one of A, AAAA, PTR, SRV, NS, MX, TXT and SPF, in input
    order and each on its own index; records of any other type are passed
    over. *)
Theorem dispatch_in_input_order (ctx : Context) (bus : EventBus)
    (dms : DataManagerService) (req : DNSRequest) :
  ContextConfig ctx <> NoValue ->
  ContextEventBus ctx = Pointer bus ->
  Forall (fun r => ~ isCNAME r) (reqRecords req) ->
  handlerCalls (trace (processDNSRequest ctx dms req))
  = supportedFrom 0 (reqRecords req).
Proof.
  intros Hc Hb Hno.
  assert (Hb' : ContextEventBus ctx <> NoValue) by (rewrite Hb; discriminate).
  rewrite (processDNSRequest_plain ctx bus dms req Hb Hno). cbv zeta.
  rewrite trace_defer, handlerCalls_app, app_nil_r, trace_bind.
  cbn [heartbeat publish emit trace outcome fst snd app handlerCalls].
  rewrite trace_bind, handlerCalls_app.
  rewrite (dispatchRecords_calls ctx bus dms _ _ Hc Hb' 0)
    by (cbn; lia).
  cbn [withRecords reqRecords]. rewrite supportedFrom_normalized.
  destruct (outcome (dispatchRecords _ _ _ _ _ _)); cbn; now rewrite app_nil_r.
Qed.

(** ** Waiting for the slot, quitting, and the admitted task *)

Lemma admissionLoop_wait (ctx : Context) (bus : EventBus)
    (dms : DataManagerService) (req : DNSRequest) (pre : list SelectCase) :
  Forall (fun c => isWaitingChoice c = true) pre ->
  forall k,
    k <= maxIdx ->
    exists w,
      Forall (fun e => isWaitingEffect e = true) w /\
      forall rest,
        trace (admissionLoop ctx bus dms req (pre ++ rest) k)
        = (w ++ trace (admissionLoop ctx bus dms req rest (retryIndex k pre)))%list /\
        outcome (admissionLoop ctx bus dms req (pre ++ rest) k)
        = outcome (admissionLoop ctx bus dms req rest (retryIndex k pre)).
Proof.
  unfold maxIdx, retryIndex.
  induction 1 as [|c pre Hc _ IH]; intros k Hk.
  - exists []. split; [constructor|]. intros rest. cbn.
    rewrite Nat.add_0_r, Nat.min_l by lia. now split.
  - destruct c as [| |[|]]; try discriminate; cbn [app admissionLoop filter isBusy].
    + destruct (IH k Hk) as (w & Hw & Hrest).
      exists (Publish SetActiveTopic PriorityCritical (PString (srvString dms)) :: w).
      split; [now constructor|]. intros rest.
      destruct (Hrest rest) as [Ht Ho].
      rewrite trace_bind, outcome_bind. cbn. now rewrite Ht, Ho.
    + cbn [negb].
      destruct (delayAt_small k Hk) as (d & Hd & _). rewrite Hd.
      set (k' := if (k <? maxIdx)%nat then S k else k).
      assert (Hk' : k' <= 6).
      { subst k'. unfold maxIdx. destruct (Nat.ltb_spec k 6); lia. }
      destruct (IH k' Hk') as (w & Hw & Hrest).
      exists (TryAcquire 1 false :: Sleep (d * Millisecond) :: w).
      split; [now repeat constructor|]. intros rest.
      destruct (Hrest rest) as [Ht Ho].
      assert (Hidx : Nat.min (k' + List.length (filter isBusy pre)) 6
                     = Nat.min (k + List.length (filter isBusy (SelDefault false :: pre))) 6).
      { subst k'. unfold maxIdx. cbn [filter isBusy List.length].
        destruct (Nat.ltb_spec k 6); lia. }
      cbn [filter isBusy] in Hidx. rewrite <- Hidx.
      repeat progress
        (rewrite ?trace_bind, ?outcome_bind;
         cbn [emit trace outcome fst snd app]).
      cbv zeta. fold k'.
      now rewrite Ht, Ho.
Qed.

Lemma split_script (script : list SelectCase) :
  exists pre rest,
    script = (pre ++ rest)%list /\
    Forall (fun c => isWaitingChoice c = true) pre /\
    (rest = [] \/ (exists rest', rest = SelQuit :: rest') \/
     (exists rest', rest = SelDefault true :: rest')).
Proof.
  induction script as [|c script (pre & rest & -> & Hpre & Hrest)].
  - exists [], []. repeat split; [constructor | now left].
  - destruct c as [| |[|]].
    + exists [], (SelQuit :: pre ++ rest)%list.
      repeat split; [constructor | right; left; now eexists].
    + exists (SelTick :: pre), rest. repeat split; [now constructor | exact Hrest].
    + exists [], (SelDefault true :: pre ++ rest)%list.
      repeat split; [constructor | right; right; now eexists].
    + exists (SelDefault false :: pre), rest.
      repeat split; [now constructor | exact Hrest].
Qed.

Lemma processDNSRequest_shape (ctx : Context) (dms : DataManagerService)
    (req : DNSRequest) :
  exists body,
    trace (processDNSRequest ctx dms req) = (body ++ [Release 1])%list /\
    Forall (fun e => isTaskEffect e = true) body.
Proof.
  unfold processDNSRequest. rewrite trace_defer. eexists. split; [reflexivity|].
  set (P := Forall (fun e => isTaskEffect e = true)).
  assert (Hnil : P []) by constructor.
  assert (Happ : forall t1 t2, P t1 -> P t2 -> P (t1 ++ t2)%list)
    by (intros; now apply Forall_app).
  assert (Hfan : forall c msg, P (fanout (GraphDatabases dms) c msg))
    by (intros; apply fanout_Forall; reflexivity).
  assert (Hname : forall prio r, reqDomain r <> "" ->
                    P [Publish NewNameTopic prio (PDNSRequest r)])
    by (intros; now repeat constructor).
  assert (Haddr : forall prio a, P [Publish NewAddrTopic prio (PAddrRequest a)])
    by (intros; now repeat constructor).
  assert (Hact : forall prio s, P [Publish SetActiveTopic prio (PString s)])
    by (intros; now repeat constructor).
  assert (Hent : forall h i r, P [Enter h i r])
    by (intros; now repeat constructor).
  apply (holds_bind P Hnil Happ); [apply holds_asPointer, Hnil | intros [bus|]];
    [|exact Hnil].
  apply (holds_bind P Hnil Happ); [apply Hact | intros _].
  apply (holds_bind P Hnil Happ);
    [now apply scanForCNAME_holds | intros [req' found]].
  destruct found; [exact Hnil|].
  apply (holds_bind P Hnil Happ);
    [now apply dispatchRecords_holds | intros _; exact Hnil].
Qed.

Lemma countEffects_app (p : Effect -> bool) (t1 t2 : list Effect) :
  countEffects p (t1 ++ t2) = countEffects p t1 + countEffects p t2.
Proof. unfold countEffects. now rewrite filter_app, length_app. Qed.

Lemma countEffects_none (p q : Effect -> bool) (t : list Effect) :
  (forall e, q e = true -> p e = false) ->
  Forall (fun e => q e = true) t -> countEffects p t = 0.
Proof.
  intros Hpq. induction 1 as [|e t He _ IH]; [reflexivity|].
  unfold countEffects in *. cbn [filter]. now rewrite (Hpq e He).
Qed.

(** X2: a call of [OnDNSRequest] with a bus, under any choices of its
    [select], either never gets the slot, and then does nothing but publish
    heartbeats, try the slot without success and sleep, and ends on quit or
    still waiting; or it waits in that way, takes the slot once, starts the
    task, and the task publishes, writes and calls handlers and at its very
    end, panic or not, releases the slot once.  Choices after the quit or
    after the slot was taken play no part. *)
Theorem admission_brackets_task (ctx : Context) (bus : EventBus)
    (dms : DataManagerService) (req : DNSRequest) (script : list SelectCase) :
  ContextEventBus ctx = Pointer bus ->
  let run := OnDNSRequest ctx dms req script in
  exists w,
    Forall (fun e => isWaitingEffect e = true) w /\
    ((trace run = w /\
      exists k, outcome run = Returned (ExitQuit k) \/
                outcome run = Returned (ExitWaiting k)) \/
     (exists body,
         trace run = (w ++ TryAcquire 1 true :: Go :: body ++ [Release 1])%list /\
         Forall (fun e => isTaskEffect e = true) body /\
         (body ++ [Release 1])%list = trace (processDNSRequest ctx dms req))).
Proof.
  intros Hb run. subst run. unfold OnDNSRequest.
  rewrite Hb. cbn [asPointer]. rewrite bind_ret_l. cbv zeta.
  destruct (split_script script) as (pre & rest & -> & Hpre & Hrest).
  destruct (admissionLoop_wait ctx bus dms req pre Hpre 0) as (w & Hw & Hloop);
    [unfold maxIdx; lia|].
  exists w. split; [exact Hw|].
  destruct (Hloop rest) as [Ht Ho]. rewrite Ht, Ho.
  destruct Hrest as [-> | [[rest' ->] | [rest' ->]]].
  - left. cbn. rewrite app_nil_r. split; [reflexivity | eexists; now right].
  - left. cbn. rewrite app_nil_r. split; [reflexivity | eexists; now left].
  - right. destruct (processDNSRequest_shape ctx dms req) as (body & Hbody & Htask).
    exists body. cbn [admissionLoop negb]. cbv zeta.
    repeat progress
      (rewrite ?trace_bind; cbn [emit trace outcome fst snd app]).
    rewrite Hbody.
    split; [|split; [exact Htask | reflexivity]].
    destruct (outcome (processDNSRequest ctx dms req)); cbn;
      now rewrite ?app_nil_r.
Qed.

(** X3: when the quit channel is chosen before the slot was obtained, the
    call ends there with the pending request dropped: nothing but waiting
    was done (no task started, no handler called, nothing written or
    released), the retry counter stands at the number of failed attempts
    capped at 6, and the choices after the quit are never looked at. *)
Theorem quit_abandons_task (ctx : Context) (bus : EventBus)
    (dms : DataManagerService) (req : DNSRequest)
    (pre rest : list SelectCase) :
  ContextEventBus ctx = Pointer bus ->
  Forall (fun c => isWaitingChoice c = true) pre ->
  let run := OnDNSRequest ctx dms req (pre ++ SelQuit :: rest) in
  outcome run = Returned (ExitQuit (retryIndex 0 pre)) /\
  Forall (fun e => isWaitingEffect e = true) (trace run) /\
  handlerCalls (trace run) = [] /\
  graphInserts (trace run) = [] /\
  countEffects isRelease (trace run) = 0 /\
  run = OnDNSRequest ctx dms req (pre ++ [SelQuit]).
Proof.
  intros Hb Hpre run. subst run. unfold OnDNSRequest.
  rewrite Hb. cbn [asPointer]. rewrite !bind_ret_l. cbv zeta.
  destruct (admissionLoop_wait ctx bus dms req pre Hpre 0) as (w & Hw & Hloop);
    [unfold maxIdx; lia|].
  destruct (Hloop (SelQuit :: rest)) as [Ht Ho].
  destruct (Hloop [SelQuit]) as [Ht' Ho'].
  cbn [admissionLoop ret trace outcome fst snd] in Ht, Ho, Ht', Ho'.
  rewrite app_nil_r in Ht, Ht'.
  assert (Hw' : Forall (fun e => isWaitingEffect e = true)
                  (trace (admissionLoop ctx bus dms req (pre ++ SelQuit :: rest) 0)))
    by now rewrite Ht.
  split; [exact Ho|]. split; [exact Hw'|]. repeat split.
  - clear -Hw'. induction Hw' as [|e t He _ IH]; [reflexivity|].
    destruct e; try discriminate; exact IH.
  - clear -Hw'. induction Hw' as [|e t He _ IH]; [reflexivity|].
    destruct e; try discriminate; exact IH.
  - apply (countEffects_none isRelease isWaitingEffect); [|exact Hw'].
    intros [] He; try discriminate; reflexivity.
  - destruct (admissionLoop ctx bus dms req (pre ++ SelQuit :: rest) 0) as [t o].
    destruct (admissionLoop ctx bus dms req (pre ++ [SelQuit]) 0) as [t' o'].
    cbn in *. congruence.
Qed.

(** X13: as long as the choices are only ticks and failed attempts, the call
    is still waiting and its retry counter is the number of failed attempts,
    capped at 6; ticks publish heartbeats and do not move the counter. *)
Theorem retry_counter_counts_failures (ctx : Context) (bus : EventBus)
    (dms : DataManagerService) (req : DNSRequest) (script : list SelectCase) :
  ContextEventBus ctx = Pointer bus ->
  Forall (fun c => isWaitingChoice c = true) script ->
  let run := OnDNSRequest ctx dms req script in
  outcome run
  = Returned (ExitWaiting (Nat.min (List.length (filter isBusy script)) 6)) /\
  List.length (sleeps (trace run)) = List.length (filter isBusy script) /\
  countEffects (isPublishOn SetActiveTopic) (trace run)
  = List.length (filter (fun c => negb (isBusy c)) script).
Proof.
  intros Hb Hscript run. subst run. unfold OnDNSRequest.
  rewrite Hb. cbn [asPointer]. rewrite !bind_ret_l. cbv zeta.
  assert (Hk : 0 <= maxIdx) by (unfold maxIdx; lia). revert Hk.
  change (Nat.min (List.length (filter isBusy script)) 6)
    with (retryIndex 0 script).
  generalize 0 as k.
  induction Hscript as [|c script Hc _ IH]; intros k Hk.
  - cbn. unfold retryIndex, maxIdx in *. cbn. rewrite Nat.add_0_r, Nat.min_l by lia.
    now repeat split.
  - destruct c as [| |[|]]; try discriminate; cbn [admissionLoop negb].
    + destruct (IH k Hk) as (Ho & Hs & Hh).
      rewrite trace_bind, outcome_bind.
      cbn [heartbeat publish emit trace outcome fst snd app].
      cbn [sleeps filter isBusy negb]. unfold countEffects in *.
      cbn [filter isPublishOn List.length].
      unfold retryIndex in *. cbn [filter isBusy]. rewrite Ho, Hs, Hh.
      now repeat split.
    + destruct (delayAt_small k Hk) as (d & Hd & _). rewrite Hd.
      set (k' := if (k <? maxIdx)%nat then S k else k).
      assert (Hk' : k' <= maxIdx).
      { subst k'. destruct (Nat.ltb_spec k maxIdx); lia. }
      destruct (IH k' Hk') as (Ho & Hs & Hh).
      repeat progress
        (rewrite ?trace_bind, ?outcome_bind;
         cbn [emit trace outcome fst snd app]).
      cbv zeta. fold k'.
      cbn [sleeps filter isBusy negb]. unfold countEffects in *.
      cbn [filter isPublishOn List.length].
      rewrite Ho, Hs, Hh. repeat split. f_equal. f_equal.
      unfold retryIndex. subst k'. unfold maxIdx in *.
      cbn [filter isBusy List.length].
      destruct (Nat.ltb_spec k 6); lia.
Qed.

(** ** The handlers one by one *)

Lemma addrEvents_app (t1 t2 : list Effect) :
  addrEvents (t1 ++ t2) = (addrEvents t1 ++ addrEvents t2)%list.
Proof.
  induction t1 as [|e t1 IH]; simpl; [reflexivity|].
  destruct e as [[] ? [] | | | | | |]; simpl; now rewrite ?IH.
Qed.

Lemma addrEvents_fanout (gs : list Graph) (c : GraphCall)
    (msg : Graph -> string -> string) :
  addrEvents (fanout gs c msg) = [].
Proof.
  induction gs as [|g gs IH]; [reflexivity|].
  cbn [fanout flat_map]. fold (fanout gs c msg).
  rewrite addrEvents_app, IH. simpl. now destruct (graphInsert g c).
Qed.

Lemma insertA_eq (ctx : Context) (cfg : Config) (bus : EventBus)
    (dms : DataManagerService) (req : DNSRequest) (i : nat) (r : DNSAnswer) :
  ContextConfig ctx = Pointer cfg ->
  ContextEventBus ctx = Pointer bus ->
  nth_error (reqRecords req) i = Some r ->
  insertA ctx dms req i =
  let addr := TrimSpace (ansData r) in
  let msg g e := graphString g ++ " failed to insert A record: " ++ e in
  if addr =? "" then ([], Returned tt)
  else
    ((fanout (GraphDatabases dms)
        (InsertA (reqName req) addr (reqSource req) (reqTag req) (UUID cfg))
        msg
      ++ [ Publish NewAddrTopic PriorityHigh
             (PAddrRequest
                (mkAddrRequest addr (reqDomain req) (reqTag req) (reqSource req)));
           Publish SetActiveTopic PriorityCritical (PString (srvString dms)) ])%list,
     Returned tt).
Proof.
  intros Hc Hb Hr. unfold insertA, recordAt. rewrite Hc, Hb, Hr.
  cbn -[graphCall logFailure].
  destruct (_ =? _); [reflexivity|].
  rewrite forGraphs_fanout. reflexivity.
Qed.

Lemma insertAAAA_eq (ctx : Context) (cfg : Config) (bus : EventBus)
    (dms : DataManagerService) (req : DNSRequest) (i : nat) (r : DNSAnswer) :
  ContextConfig ctx = Pointer cfg ->
  ContextEventBus ctx = Pointer bus ->
  nth_error (reqRecords req) i = Some r ->
  insertAAAA ctx dms req i =
  let addr := TrimSpace (ansData r) in
  let msg g e := graphString g ++ " failed to insert AAAA record: " ++ e in
  if addr =? "" then ([], Returned tt)
  else
    ((fanout (GraphDatabases dms)
        (InsertAAAA (reqName req) addr (reqSource req) (reqTag req) (UUID cfg))
        msg
      ++ [ Publish NewAddrTopic PriorityHigh
             (PAddrRequest
                (mkAddrRequest addr (reqDomain req) (reqTag req) (reqSource req)));
           Publish SetActiveTopic PriorityCritical (PString (srvString dms)) ])%list,
     Returned tt).
Proof.
  intros Hc Hb Hr. unfold insertAAAA, recordAt. rewrite Hc, Hb, Hr.
  cbn -[graphCall logFailure].
  destruct (_ =? _); [reflexivity|].
  rewrite forGraphs_fanout. reflexivity.
Qed.

Lemma insertCNAME_eq (ctx : Context) (cfg : Config) (bus : EventBus)
    (dms : DataManagerService) (req : DNSRequest) (i : nat) (r : DNSAnswer) :
  ContextConfig ctx = Pointer cfg ->
  ContextEventBus ctx = Pointer bus ->
  nth_error (reqRecords req) i = Some r ->
  insertCNAME ctx dms req i =
  let target := RemoveLastDot (ansData r) in
  let msg g e := graphString g ++ " failed to insert CNAME: " ++ e in
  if target =? "" then ([], Returned tt)
  else
    match EffectiveTLDPlusOne target with
    | None => ([], Returned tt)
    | Some d =>
        let domain := ToLower d in
        if domain =? "" then ([], Returned tt)
        else
          ((fanout (GraphDatabases dms)
              (InsertCNAME (reqName req) target (reqSource req) (reqTag req)
                 (UUID cfg))
              msg
            ++ [ Publish NewNameTopic PriorityHigh
                   (PDNSRequest (mkDNSRequest target domain [] DNS "DNS"));
                 Publish SetActiveTopic PriorityCritical
                   (PString (srvString dms)) ])%list,
           Returned tt)
    end.
Proof.
  intros Hc Hb Hr. unfold insertCNAME, recordAt. rewrite Hc, Hb, Hr.
  cbn -[graphCall logFailure].
  destruct (_ =? _); [reflexivity|].
  destruct (EffectiveTLDPlusOne _); [|reflexivity].
  cbn -[graphCall logFailure].
  destruct (_ =? _); [reflexivity|].
  rewrite forGraphs_fanout. reflexivity.
Qed.


(** X6: with configuration and bus there, the SRV handler needs only a
    non-empty service name and target to write: the fact goes to every sink
    whatever the scope says.  The scope decides the follow-up alone: a name
    is published exactly when [WhichDomain] gives a domain for the target,
    with that domain as given and with the tag and source of the request.
    An empty service name or target makes the handler return with no
    effect. *)
Theorem srv_writes_before_scope (ctx : Context) (cfg : Config) (bus : EventBus)
    (dms : DataManagerService) (req : DNSRequest) (i : nat) (r : DNSAnswer) :
  ContextConfig ctx = Pointer cfg ->
  ContextEventBus ctx = Pointer bus ->
  nth_error (reqRecords req) i = Some r ->
  let service := RemoveLastDot (ansName r) in
  let target := RemoveLastDot (ansData r) in
  (target = "" \/ service = "" -> insertSRV ctx dms req i = ([], Returned tt)) /\
  (target <> "" -> service <> "" ->
   graphInserts (trace (insertSRV ctx dms req i))
   = map (fun g => (graphString g,
                    InsertSRV (reqName req) service target (reqSource req)
                      (reqTag req) (UUID cfg)))
         (GraphDatabases dms) /\
   nameEvents (trace (insertSRV ctx dms req i))
   = (if WhichDomain cfg target =? "" then []
      else [mkDNSRequest target (WhichDomain cfg target) []
              (reqTag req) (reqSource req)]) /\
   addrEvents (trace (insertSRV ctx dms req i)) = [] /\
   outcome (insertSRV ctx dms req i) = Returned tt).
Proof.
  intros Hc Hb Hr service target.
  rewrite (insertSRV_eq ctx cfg bus dms req i r Hc Hb Hr).
  cbv zeta. fold service target. split.
  - intros [-> | ->]; [reflexivity|]. now rewrite orb_true_r.
  - intros Ht Hs. apply String.eqb_neq in Ht, Hs. rewrite Ht, Hs.
    cbn [orb trace outcome fst snd].
    rewrite !graphInserts_app, !addrEvents_app, !nameEvents_app,
      !graphInserts_fanout, !addrEvents_fanout, !nameEvents_fanout.
    destruct (WhichDomain cfg target =? ""); cbn; rewrite ?app_nil_r;
      repeat split.
Qed.

(** X7: with configuration and bus there, the CNAME handler whose target is
    not empty and has a non-empty registrable domain writes the fact to
    every sink and always publishes the target as a new name, also when the
    target is that domain itself (where the NS and MX handlers stay silent).
    The published request has the tag [DNS] and the source ["DNS"], not
    those of the request. *)
Theorem cname_always_requeues (ctx : Context) (cfg : Config) (bus : EventBus)
    (dms : DataManagerService) (req : DNSRequest) (i : nat) (r : DNSAnswer)
    (d : string) :
  ContextConfig ctx = Pointer cfg ->
  ContextEventBus ctx = Pointer bus ->
  nth_error (reqRecords req) i = Some r ->
  RemoveLastDot (ansData r) <> "" ->
  EffectiveTLDPlusOne (RemoveLastDot (ansData r)) = Some d ->
  ToLower d <> "" ->
  graphInserts (trace (insertCNAME ctx dms req i))
  = map (fun g => (graphString g,
                   InsertCNAME (reqName req) (RemoveLastDot (ansData r))
                     (reqSource req) (reqTag req) (UUID cfg)))
        (GraphDatabases dms) /\
  nameEvents (trace (insertCNAME ctx dms req i))
  = [mkDNSRequest (RemoveLastDot (ansData r)) (ToLower d) [] DNS "DNS"] /\
  outcome (insertCNAME ctx dms req i) = Returned tt.
Proof.
  intros Hc Hb Hr Ht He Hd.
  rewrite (insertCNAME_eq ctx cfg bus dms req i r Hc Hb Hr). cbv zeta.
  apply String.eqb_neq in Ht, Hd. rewrite Ht, He, Hd.
  cbn [trace outcome fst snd].
  rewrite !graphInserts_app, !nameEvents_app, graphInserts_fanout,
    nameEvents_fanout.
  cbn. rewrite !app_nil_r. repeat split.
Qed.

(** ** The Text Miner and the infrastructure path *)










Lemma miner_no_inserts (ctx : Context) (dms : DataManagerService)
    (data domain : string) :
  graphInserts (trace (findNamesAndAddresses ctx dms data domain)) = [].
Proof.
  apply (findNamesAndAddresses_holds (fun t => graphInserts t = []));
    try reflexivity.
  intros t1 t2 H1 H2. now rewrite graphInserts_app, H1, H2.
Qed.

(** X9: the TXT and the SPF handler test the scope on the name of the query,
    not on the record.  With a configuration for which that name is out of
    scope they return with no effect, whatever the bus and the index are,
    even an index outside the records.  In scope they hand the data of the
    record and the domain of the request to the Text Miner and do nothing
    else.  In no case do they call a sink. *)
Theorem txt_scope_gate (ctx : Context) (cfg : Config)
    (dms : DataManagerService) (req : DNSRequest) (i : nat) :
  ContextConfig ctx = Pointer cfg ->
  (IsDomainInScope cfg (reqName req) = false ->
   insertTXT ctx dms req i = ([], Returned tt) /\
   insertSPF ctx dms req i = ([], Returned tt)) /\
  (forall r,
      IsDomainInScope cfg (reqName req) = true ->
      nth_error (reqRecords req) i = Some r ->
      insertTXT ctx dms req i
      = findNamesAndAddresses ctx dms (ansData r) (reqDomain req) /\
      insertSPF ctx dms req i
      = findNamesAndAddresses ctx dms (ansData r) (reqDomain req)) /\
  graphInserts (trace (insertTXT ctx dms req i)) = [] /\
  graphInserts (trace (insertSPF ctx dms req i)) = [].
Proof.
  intros Hc.
  assert (Hgate : IsDomainInScope cfg (reqName req) = false ->
                  insertTXT ctx dms req i = ([], Returned tt)).
  { intros Hs. unfold insertTXT. rewrite Hc. cbn [asPointer].
    rewrite bind_ret_l, Hs. reflexivity. }
  assert (Hin : forall r, IsDomainInScope cfg (reqName req) = true ->
                  nth_error (reqRecords req) i = Some r ->
                  insertTXT ctx dms req i
                  = findNamesAndAddresses ctx dms (ansData r) (reqDomain req)).
  { intros r Hs Hr. unfold insertTXT, recordAt. rewrite Hc, Hr. cbn [asPointer].
    rewrite bind_ret_l, Hs. cbn [negb]. now rewrite bind_ret_l. }
  assert (Hno : graphInserts (trace (insertTXT ctx dms req i)) = []).
  { destruct (IsDomainInScope cfg (reqName req)) eqn:Hs;
      [|now rewrite Hgate].
    destruct (nth_error (reqRecords req) i) as [r|] eqn:Hr.
    - rewrite (Hin r eq_refl eq_refl). apply miner_no_inserts.
    - unfold insertTXT, recordAt. rewrite Hc, Hr. cbn [asPointer].
      rewrite bind_ret_l, Hs. reflexivity. }
  repeat split; try exact Hno; try (now apply Hgate); now apply Hin.
Qed.

Lemma OnASNRequest_eq (ctx : Context) (cfg : Config) (bus : EventBus)
    (dms : DataManagerService) (req : ASNRequest) :
  ContextConfig ctx = Pointer cfg ->
  ContextEventBus ctx = Pointer bus ->
  (asnAddress req =? "") || (asnPrefix req =? "") || (asnDescription req =? "")
  = false ->
  OnASNRequest ctx dms req =
  let msg g e := srvString dms ++ ": " ++ graphString g
                   ++ " failed to insert infrastructure data: " ++ e in
  ((fanout (GraphDatabases dms)
      (InsertInfrastructure (asnASN req) (asnDescription req) (asnAddress req)
         (asnPrefix req) (asnSource req) (asnTag req) (UUID cfg))
      msg
    ++ [Publish SetActiveTopic PriorityCritical (PString (srvString dms))])%list,
   Returned tt).
Proof.
  intros Hc Hb Hf. unfold OnASNRequest. rewrite Hf, Hc, Hb.
  cbn -[graphCall logFailure].
  rewrite forGraphs_fanout. reflexivity.
Qed.

Lemma logLines_fanout (gs : list Graph) (c : GraphCall)
    (msg : Graph -> string -> string) :
  logLines (fanout gs c msg)
  = flat_map (fun g => match graphInsert g c with
                       | Some e => [msg g e]
                       | None => []
                       end) gs.
Proof.
  induction gs as [|g gs IH]; [reflexivity|].
  cbn [fanout flat_map]. fold (fanout gs c msg).
  cbn [app logLines]. destruct (graphInsert g c); cbn [app logLines];
    now rewrite IH.
Qed.

(** C7: a handler that reaches its sink loop, with configuration and bus
    there, runs as follows whichever sinks fail.  The fact is given to every
    configured sink, in order, once each; each sink that answers with an
    error is followed by one line on the log topic, naming the sink and the
    error, and the loop goes on to the next sink; after the loop the
    handler publishes what it publishes when no sink fails (the new name or
    address, the heartbeat) and returns normally.  This is so for the
    handlers of CNAME, A, AAAA, PTR, SRV, NS and MX records on a record that
    passes their checks, and for [OnASNRequest] on a request with its
    fields filled.  In general, for every handler and for [OnASNRequest],
    in every context: a call made on one sink is made on every configured
    sink; the run differs from the run with sinks that never fail only by
    the log publications; and it ends as that run ends, the caller seeing
    no error.  A handler returns no value to begin with. *)
Theorem sink_failure_isolated :
  (forall h ctx dms req i,
      allSinksCalled (GraphDatabases dms) (trace (handlerBody h ctx dms req i)) /\
      withoutLogs (trace (handlerBody h ctx dms req i))
      = trace (handlerBody h ctx (reliable dms) req i) /\
      outcome (handlerBody h ctx dms req i)
      = outcome (handlerBody h ctx (reliable dms) req i)) /\
  (forall ctx dms req,
      allSinksCalled (GraphDatabases dms) (trace (OnASNRequest ctx dms req)) /\
      withoutLogs (trace (OnASNRequest ctx dms req))
      = trace (OnASNRequest ctx (reliable dms) req) /\
      outcome (OnASNRequest ctx dms req)
      = outcome (OnASNRequest ctx (reliable dms) req)) /\
  (forall gs c bus msg,
      forGraphs gs (fun g => err <- graphCall g c ;; logFailure bus err (msg g))
      = (fanout gs c msg, Returned tt) /\
      graphInserts (fanout gs c msg) = map (fun g => (graphString g, c)) gs /\
      logLines (fanout gs c msg)
      = flat_map (fun g => match graphInsert g c with
                           | Some e => [msg g e]
                           | None => []
                           end) gs) /\
  (forall ctx cfg bus dms req i r,
      ContextConfig ctx = Pointer cfg ->
      ContextEventBus ctx = Pointer bus ->
      nth_error (reqRecords req) i = Some r ->
      let beat := Publish SetActiveTopic PriorityCritical (PString (srvString dms)) in
      let line what g e := graphString g ++ what ++ e in
      let name target domain tag source :=
        Publish NewNameTopic PriorityHigh
          (PDNSRequest (mkDNSRequest target domain [] tag source)) in
      let address addr :=
        Publish NewAddrTopic PriorityHigh
          (PAddrRequest
             (mkAddrRequest addr (reqDomain req) (reqTag req) (reqSource req))) in
      (forall target d,
          target = RemoveLastDot (ansData r) -> target <> "" ->
          EffectiveTLDPlusOne target = Some d -> ToLower d <> "" ->
          insertCNAME ctx dms req i
          = sinkRun dms
              (InsertCNAME (reqName req) target (reqSource req) (reqTag req)
                 (UUID cfg))
              (line " failed to insert CNAME: ")
              [name target (ToLower d) DNS "DNS"; beat]) /\
      (forall addr,
          addr = TrimSpace (ansData r) -> addr <> "" ->
          insertA ctx dms req i
          = sinkRun dms
              (InsertA (reqName req) addr (reqSource req) (reqTag req) (UUID cfg))
              (line " failed to insert A record: ")
              [address addr; beat]) /\
      (forall addr,
          addr = TrimSpace (ansData r) -> addr <> "" ->
          insertAAAA ctx dms req i
          = sinkRun dms
              (InsertAAAA (reqName req) addr (reqSource req) (reqTag req)
                 (UUID cfg))
              (line " failed to insert AAAA record: ")
              [address addr; beat]) /\
      (forall target domain,
          target = RemoveLastDot (ansData r) -> target <> "" ->
          domain = ToLower (WhichDomain cfg target) -> domain <> "" ->
          insertPTR ctx dms req i
          = sinkRun dms
              (InsertPTR (reqName req) target (reqSource req) (reqTag req)
                 (UUID cfg))
              (line " failed to insert PTR record: ")
              [name target domain DNS (reqSource req); beat]) /\
      (forall service target,
          service = RemoveLastDot (ansName r) -> service <> "" ->
          target = RemoveLastDot (ansData r) -> target <> "" ->
          insertSRV ctx dms req i
          = sinkRun dms
              (InsertSRV (reqName req) service target (reqSource req)
                 (reqTag req) (UUID cfg))
              (line " failed to insert SRV record: ")
              ((if WhichDomain cfg target =? "" then []
                else [name target (WhichDomain cfg target) (reqTag req)
                        (reqSource req)])
               ++ [beat])) /\
      (forall target d,
          target = last (Split (ansData r) ",") "" -> target <> "" ->
          EffectiveTLDPlusOne target = Some d -> ToLower d <> "" ->
          insertNS ctx dms req i
          = sinkRun dms
              (InsertNS (reqName req) target (reqSource req) (reqTag req)
                 (UUID cfg))
              (line " failed to insert NS record: ")
              ((if target =? ToLower d then []
                else [name target (ToLower d) DNS "DNS"])
               ++ [beat])) /\
      (forall target d,
          target = RemoveLastDot (ansData r) -> target <> "" ->
          EffectiveTLDPlusOne target = Some d -> ToLower d <> "" ->
          insertMX ctx dms req i
          = sinkRun dms
              (InsertMX (reqName req) target (reqSource req) (reqTag req)
                 (UUID cfg))
              (line " failed to insert MX record: ")
              ((if target =? ToLower d then []
                else [name target (ToLower d) DNS "DNS"])
               ++ [beat]))) /\
  (forall ctx cfg bus dms req,
      ContextConfig ctx = Pointer cfg ->
      ContextEventBus ctx = Pointer bus ->
      asnAddress req <> "" -> asnPrefix req <> "" -> asnDescription req <> "" ->
      OnASNRequest ctx dms req
      = sinkRun dms
          (InsertInfrastructure (asnASN req) (asnDescription req)
             (asnAddress req) (asnPrefix req) (asnSource req) (asnTag req)
             (UUID cfg))
          (fun g e => srvString dms ++ ": " ++ graphString g
                        ++ " failed to insert infrastructure data: " ++ e)
          [Publish SetActiveTopic PriorityCritical (PString (srvString dms))]).
Proof.
  split; [|split; [|split; [|split]]].
  - intros h ctx dms req i. split; [|apply handlerBody_sameButLogs].
    apply (handlerBody_holds (allSinksCalled (GraphDatabases dms)));
      intros; try apply allSinksCalled_nil; try (now apply allSinksCalled_app);
      try apply allSinksCalled_fanout; now apply allSinksCalled_quiet.
  - intros ctx dms req. split; [|apply OnASNRequest_sameButLogs].
    apply (OnASNRequest_holds (allSinksCalled (GraphDatabases dms)));
      intros; try apply allSinksCalled_nil; try (now apply allSinksCalled_app);
      try apply allSinksCalled_fanout; now apply allSinksCalled_quiet.
  - intros gs c bus msg. split; [|split];
      [apply forGraphs_fanout | apply graphInserts_fanout
      | apply logLines_fanout].
  - intros ctx cfg bus dms req i r Hc Hb Hr beat line name address.
    unfold sinkRun. repeat split.
    + intros target d -> Ht Hd Hl. apply String.eqb_neq in Ht, Hl.
      rewrite (insertCNAME_eq ctx cfg bus dms req i r Hc Hb Hr). cbv zeta.
      now rewrite Ht, Hd, Hl.
    + intros addr -> Ha. apply String.eqb_neq in Ha.
      rewrite (insertA_eq ctx cfg bus dms req i r Hc Hb Hr). cbv zeta.
      now rewrite Ha.
    + intros addr -> Ha. apply String.eqb_neq in Ha.
      rewrite (insertAAAA_eq ctx cfg bus dms req i r Hc Hb Hr). cbv zeta.
      now rewrite Ha.
    + intros target domain -> Ht -> Hd. apply String.eqb_neq in Ht, Hd.
      rewrite (insertPTR_eq ctx cfg bus dms req i r Hc Hb Hr). cbv zeta.
      now rewrite Ht, Hd.
    + intros service target -> Hs -> Ht. apply String.eqb_neq in Hs, Ht.
      rewrite (insertSRV_eq ctx cfg bus dms req i r Hc Hb Hr). cbv zeta.
      now rewrite Hs, Ht.
    + intros target d -> Ht Hd Hl. apply String.eqb_neq in Ht, Hl.
      rewrite (insertNS_eq ctx cfg bus dms req i r Hc Hb Hr). cbv zeta.
      now rewrite Ht, Hd, Hl.
    + intros target d -> Ht Hd Hl. apply String.eqb_neq in Ht, Hl.
      rewrite (insertMX_eq ctx cfg bus dms req i r Hc Hb Hr). cbv zeta.
      now rewrite Ht, Hd, Hl.
  - intros ctx cfg bus dms req Hc Hb Ha Hp Hd.
    apply String.eqb_neq in Ha, Hp, Hd.
    rewrite (OnASNRequest_eq ctx cfg bus dms req Hc Hb)
      by (now rewrite Ha, Hp, Hd).
    reflexivity.
Qed.

(** X10: [OnASNRequest] looks at the request first: when the address, the
    prefix or the description is empty it returns with no effect before it
    touches the context, so that even a context without the keys does not
    make it panic.  With the three fields filled and configuration and bus
    there, the fact goes to every sink with the run identifier, one
    heartbeat follows, and no name or address is published. *)
Theorem asn_request_path (ctx : Context) (dms : DataManagerService)
    (req : ASNRequest) :
  (asnAddress req = "" \/ asnPrefix req = "" \/ asnDescription req = "" ->
   OnASNRequest ctx dms req = ([], Returned tt)) /\
  (forall cfg bus,
      ContextConfig ctx = Pointer cfg ->
      ContextEventBus ctx = Pointer bus ->
      asnAddress req <> "" -> asnPrefix req <> "" -> asnDescription req <> "" ->
      graphInserts (trace (OnASNRequest ctx dms req))
      = map (fun g => (graphString g,
                       InsertInfrastructure (asnASN req) (asnDescription req)
                         (asnAddress req) (asnPrefix req) (asnSource req)
                         (asnTag req) (UUID cfg)))
            (GraphDatabases dms) /\
      nameEvents (trace (OnASNRequest ctx dms req)) = [] /\
      addrEvents (trace (OnASNRequest ctx dms req)) = [] /\
      countEffects (isPublishOn SetActiveTopic) (trace (OnASNRequest ctx dms req))
      = 1 /\
      outcome (OnASNRequest ctx dms req) = Returned tt).
Proof.
  split.
  - intros H. unfold OnASNRequest.
    destruct H as [-> | [-> | ->]]; cbn [String.eqb orb];
      rewrite ?orb_true_r; reflexivity.
  - intros cfg bus Hc Hb Ha Hp Hd.
    apply String.eqb_neq in Ha, Hp, Hd.
    rewrite (OnASNRequest_eq ctx cfg bus dms req Hc Hb)
      by (now rewrite Ha, Hp, Hd).
    cbv zeta. cbn [trace outcome fst snd].
    rewrite graphInserts_app, nameEvents_app, addrEvents_app, countEffects_app,
      graphInserts_fanout, nameEvents_fanout, addrEvents_fanout.
    cbn. rewrite app_nil_r. repeat split.
    rewrite (countEffects_none (isPublishOn SetActiveTopic)
               (fun e => negb (isPublishOn SetActiveTopic e))); [reflexivity| |].
    + intros e. now destruct (isPublishOn SetActiveTopic e).
    + apply fanout_Forall; reflexivity.
Qed.

(** ** More on normalisation, priorities, logs and the NS target *)

Lemma trimLeftByte_id (s : string) (c : ascii) :
  firstByte s <> Some c -> trimLeftByte s c = s.
Proof.
  destruct s as [|a s]; [reflexivity|]. cbn. intros H.
  destruct (Ascii.eqb_spec a c) as [->|_]; [now elim H | reflexivity].
Qed.

Lemma trimRightByte_id (s : string) (c : ascii) :
  lastByte s <> Some c -> trimRightByte s c = s.
Proof.
  induction s as [|a s IH]; [reflexivity|].
  destruct s as [|b u].
  - cbn. intros H.
    destruct (Ascii.eqb_spec a c) as [->|_]; [now elim H | reflexivity].
  - intros H.
    change (trimRightByte (String a (String b u)) c)
      with (match trimRightByte (String b u) c with
            | EmptyString =>
                if Ascii.eqb a c then EmptyString else String a EmptyString
            | String x y => String a (String x y)
            end).
    now rewrite (IH H).
Qed.

(** X11: the strings the normalisation of the dispatcher leaves unchanged
    are exactly those without a ['.'] at either end that lower-casing
    leaves unchanged, the case tables giving each code point above ASCII a
    code point that is its own lower case. *)
Theorem normalize_fixpoints (s : string) :
  caseTableLowers ->
  (normalize s = s <-> codeNormalized s).
Proof.
  intros H. split.
  - intros E. rewrite <- E. now apply normalize_codeNormalized.
  - intros (Hfirst & Hlast & Hlow). unfold isLowerCase in Hlow.
    unfold normalize, Trim.
    rewrite Hlow, (trimRightByte_id s "." Hlast).
    now apply trimLeftByte_id.
Qed.

Lemma firstn_middle {A} (pre : list A) (r : A) (post : list A) :
  firstn (S (List.length pre)) (pre ++ r :: post) = (pre ++ [r])%list /\
  skipn (S (List.length pre)) (pre ++ r :: post) = post.
Proof.
  induction pre as [|x pre [IH1 IH2]]; [now split|].
  cbn [List.length app]. split.
  - change (firstn (S (S (List.length pre))) (x :: pre ++ r :: post))
      with (x :: firstn (S (List.length pre)) (pre ++ r :: post)).
    now rewrite IH1.
  - exact IH2.
Qed.

(** X12: a call of [processDNSRequest] that returns leaves the caller's
    request as it was except that the first [k] records, for some [k], are
    normalised: the name, the domain, the tag and the source of the query
    and the number, order, types and TTLs of the records are never
    changed. *)
Theorem process_changes_only_a_prefix (ctx : Context)
    (dms : DataManagerService) (req out : DNSRequest) :
  outcome (processDNSRequest ctx dms req) = Returned out ->
  exists k,
    out = withRecords req
            (map normalizeRecord (firstn k (reqRecords req))
             ++ skipn k (reqRecords req)).
Proof.
  destruct (ContextEventBus ctx) as [| |bus] eqn:Hb.
  - unfold processDNSRequest. rewrite Hb. discriminate.
  - unfold processDNSRequest. rewrite Hb. cbn. intros [= <-].
    exists 0. now destruct req.
  - destruct (Forall_Exists_dec (fun r => ~ isCNAME r)
                (fun r => match Z.eq_dec (uint16 (ansType r)) TypeCNAME with
                          | left E => right (fun H => H E)
                          | right E => left E
                          end)
                (reqRecords req)) as [Hno|Hex].
    + rewrite (processDNSRequest_plain ctx bus dms req Hb Hno). cbv zeta.
      rewrite outcome_defer, !outcome_bind.
      cbn [heartbeat publish emit outcome snd].
      destruct (outcome (dispatchRecords _ _ _ _ _ _)); [|discriminate].
      cbn. intros [= <-]. exists (List.length (reqRecords req)).
      now rewrite firstn_all, skipn_all, app_nil_r.
    + assert (Hex' : Exists isCNAME (reqRecords req)).
      { apply Exists_exists in Hex as (r & Hin & Hr). apply Exists_exists.
        exists r. split; [exact Hin|].
        destruct (Z.eq_dec (uint16 (ansType r)) TypeCNAME) as [E|E];
          [exact E | now elim Hr]. }
      destruct (first_CNAME_split _ Hex') as (pre & r & post & Hreq & Hpre & Hr).
      rewrite (processDNSRequest_cname ctx bus dms req pre r post Hb Hreq Hpre Hr).
      cbv zeta. rewrite outcome_defer, !outcome_bind.
      cbn [heartbeat publish emit outcome snd].
      destruct (outcome (call _ _ _ _ _)); [|discriminate].
      cbn. intros [= <-]. exists (S (List.length pre)).
      rewrite Hreq. destruct (firstn_middle pre r post) as [-> ->].
      now rewrite map_app, <- app_assoc.
Qed.

Lemma fanout_logs (gs : list Graph) (c : GraphCall)
    (msg : Graph -> string -> string) :
  countEffects isLogPublish (fanout gs c msg)
  = List.length (filter (fun g => match graphInsert g c with
                                  | Some _ => true
                                  | None => false
                                  end) gs) /\
  countEffects isGraphInsert (fanout gs c msg) = List.length gs.
Proof.
  induction gs as [|g gs [IH1 IH2]]; [now split|].
  cbn [fanout flat_map]. fold (fanout gs c msg).
  rewrite !countEffects_app, IH1, IH2. cbn [filter].
  destruct (graphInsert g c); now split.
Qed.

(** X14: log lines come from failed sink calls only.  One sink loop logs as
    many lines as sinks answer with an error; in any run of the pipeline or
    of [OnASNRequest] there are at most as many log lines as sink calls; and
    with sinks that never fail nothing is logged at all. *)
Theorem logs_only_on_sink_failure (ctx : Context) (dms : DataManagerService) :
  (forall gs c msg,
      countEffects isLogPublish (fanout gs c msg)
      = List.length (filter (fun g => match graphInsert g c with
                                      | Some _ => true
                                      | None => false
                                      end) gs)) /\
  (forall req script,
      countEffects isLogPublish (trace (OnDNSRequest ctx dms req script))
      <= countEffects isGraphInsert (trace (OnDNSRequest ctx dms req script))) /\
  (forall req,
      countEffects isLogPublish (trace (OnASNRequest ctx dms req))
      <= countEffects isGraphInsert (trace (OnASNRequest ctx dms req))) /\
  (forall req script,
      countEffects isLogPublish
        (trace (OnDNSRequest ctx (reliable dms) req script)) = 0) /\
  (forall req,
      countEffects isLogPublish (trace (OnASNRequest ctx (reliable dms) req)) = 0).
Proof.
  assert (Hle : forall t1 t2,
             countEffects isLogPublish t1 <= countEffects isGraphInsert t1 ->
             countEffects isLogPublish t2 <= countEffects isGraphInsert t2 ->
             countEffects isLogPublish (t1 ++ t2)
             <= countEffects isGraphInsert (t1 ++ t2)).
  { intros t1 t2 H1 H2. rewrite !countEffects_app. lia. }
  assert (Hfan : forall gs c msg,
             countEffects isLogPublish (fanout gs c msg)
             <= countEffects isGraphInsert (fanout gs c msg)).
  { intros gs c msg. destruct (fanout_logs gs c msg) as [-> ->].
    apply filter_length_le. }
  assert (Hzero : forall t1 t2,
             countEffects isLogPublish t1 = 0 ->
             countEffects isLogPublish t2 = 0 ->
             countEffects isLogPublish (t1 ++ t2) = 0).
  { intros t1 t2 H1 H2. rewrite countEffects_app. lia. }
  assert (Hrel : forall c msg,
             countEffects isLogPublish
               (fanout (GraphDatabases (reliable dms)) c msg) = 0).
  { intros c msg. rewrite (proj1 (fanout_logs _ c msg)). cbn [reliable GraphDatabases].
    induction (GraphDatabases dms) as [|g gs IH]; [reflexivity | exact IH]. }
  split; [intros; apply fanout_logs|]. split; [|split; [|split]].
  - intros req script.
    apply (OnDNSRequest_holds
             (fun t => countEffects isLogPublish t <= countEffects isGraphInsert t));
      intros; auto; cbn; lia.
  - intros req.
    apply (OnASNRequest_holds
             (fun t => countEffects isLogPublish t <= countEffects isGraphInsert t));
      intros; auto; cbn; lia.
  - intros req script.
    apply (OnDNSRequest_holds (fun t => countEffects isLogPublish t = 0));
      intros; auto.
  - intros req.
    apply (OnASNRequest_holds (fun t => countEffects isLogPublish t = 0));
      intros; auto.
Qed.

Lemma Split_nonempty (s : string) (sep : ascii) : Split s sep <> [].
Proof.
  destruct s as [|a s]; [discriminate|]. cbn.
  destruct (Ascii.eqb a sep); [discriminate|].
  destruct (Split s sep); discriminate.
Qed.

Lemma Split_no_sep (s : string) (sep : ascii) :
  hasByte sep s = false -> Split s sep = [s].
Proof.
  induction s as [|a s IH]; [reflexivity|].
  cbn [hasByte Split]. intros H. apply orb_false_iff in H as [Ha Hs].
  now rewrite Ha, (IH Hs).
Qed.

Lemma Split_single (s : string) (sep : ascii) :
  forall f, Split s sep = [f] -> f = s /\ hasByte sep s = false.
Proof.
  induction s as [|a s IH]; intros f; cbn [Split hasByte].
  - now intros [= <-].
  - pose proof (Split_nonempty s sep) as Hn.
    destruct (Ascii.eqb a sep).
    + destruct (Split s sep); [now elim Hn | discriminate].
    + destruct (Split s sep) as [|g gs]; [now elim Hn|].
      intros [= <- ->]. destruct (IH g eq_refl) as [-> Hs]. now split.
Qed.

Lemma last_Split_no_sep (s : string) (sep : ascii) :
  hasByte sep (last (Split s sep) "") = false.
Proof.
  induction s as [|a s IH]; [reflexivity|].
  cbn [Split]. pose proof (Split_nonempty s sep) as Hn.
  destruct (Ascii.eqb a sep) eqn:Ea.
  - destruct (Split s sep) as [|f fs]; [now elim Hn | exact IH].
  - destruct (Split s sep) as [|f [|f' fs]]; [now elim Hn | |exact IH].
    cbn in *. now rewrite Ea, IH.
Qed.

Lemma last_Split_suffix (s : string) (sep : ascii) :
  exists p,
    s = p ++ last (Split s sep) "" /\ (p = "" \/ lastByte p = Some sep).
Proof.
  induction s as [|a s (p & IH1 & IH2)].
  - exists "". split; [reflexivity | now left].
  - cbn [Split]. pose proof (Split_nonempty s sep) as Hn.
    destruct (Ascii.eqb_spec a sep) as [->|Hne].
    + destruct (Split s sep) as [|f fs] eqn:E; [now elim Hn|].
      exists (String sep p). split.
      * change (last (EmptyString :: f :: fs) "") with (last (f :: fs) "").
        cbn [append]. now rewrite <- IH1.
      * right. destruct IH2 as [->|IH2]; [reflexivity|].
        destruct p; [discriminate | exact IH2].
    + destruct (Split s sep) as [|f [|f' fs]] eqn:E; [now elim Hn | |].
      * destruct (Split_single s sep f E) as [-> _].
        exists "". split; [reflexivity | now left].
      * change (last (String a f :: f' :: fs) "") with (last (f :: f' :: fs) "").
        exists (String a p). split; [cbn [append]; now rewrite <- IH1|].
        destruct IH2 as [->|IH2].
        -- exfalso. cbn [append] in IH1.
           pose proof (last_Split_no_sep s sep) as Hno.
           rewrite E, <- IH1 in Hno.
           rewrite (Split_no_sep s sep Hno) in E. discriminate.
        -- right. destruct p; [discriminate | exact IH2].
Qed.

(** X15: the target the NS handler takes, the last field of the data split
    on [','], is the part of the data after its last comma: it holds no
    comma, the data is some prefix followed by it where the prefix is empty
    or ends in a comma, and data without a comma is its own target.  Hence
    no name published by the NS handler holds a comma. *)
Theorem ns_target_after_last_comma :
  (forall data,
      hasByte "," (last (Split data ",") "") = false /\
      (exists p, data = p ++ last (Split data ",") "" /\
                 (p = "" \/ lastByte p = Some ","%char)) /\
      (hasByte "," data = false -> last (Split data ",") "" = data)) /\
  (forall ctx dms req i,
      Forall (fun e => hasByte "," (reqName e) = false)
        (nameEvents (trace (insertNS ctx dms req i)))).
Proof.
  split.
  - intros data. split; [apply last_Split_no_sep|]. split.
    + apply last_Split_suffix.
    + intros H. now rewrite (Split_no_sep data "," H).
  - intros ctx dms req i.
    destruct (ContextConfig ctx) as [| |cfg] eqn:Hc;
      [unfold insertNS; rewrite Hc; constructor | |].
    + unfold insertNS. rewrite Hc.
      destruct (ContextEventBus ctx); constructor.
    + destruct (ContextEventBus ctx) as [| |bus] eqn:Hb;
        [unfold insertNS; rewrite Hc, Hb; constructor
        |unfold insertNS; rewrite Hc, Hb; constructor|].
      destruct (nth_error (reqRecords req) i) as [r|] eqn:Hr.
      * rewrite (insertNS_eq ctx cfg bus dms req i r Hc Hb Hr). cbv zeta.
        destruct (_ =? _); [constructor|].
        destruct (EffectiveTLDPlusOne _); [|constructor].
        destruct (_ =? _); [constructor|].
        cbn [trace fst]. rewrite !nameEvents_app, nameEvents_fanout.
        destruct (_ =? _); cbn; repeat constructor.
        apply last_Split_no_sep.
      * unfold insertNS, recordAt. rewrite Hc, Hb, Hr. constructor.
Qed.

(** ** Type codes, and processing a request again *)

(** X16: the dispatcher looks at a record type through its low 16 bits:
    the conversion is the remainder modulo 65536, so that a type and the
    same type plus any multiple of 65536 are told apart by neither loop; in
    particular a record counts as CNAME exactly when its type is 5 modulo
    65536. *)
Theorem type_codes_wrap :
  (forall t, uint16 t = (t mod 65536)%Z) /\
  (forall t k, uint16 (t + k * 65536) = uint16 t) /\
  (forall r, isCNAME r <-> (ansType r mod 65536 = 5)%Z) /\
  (forall ctx dms req i r r',
      uint16 (ansType r) = uint16 (ansType r') ->
      dispatch ctx dms req i r = dispatch ctx dms req i r').
Proof.
  assert (Hmod : forall t, uint16 t = (t mod 65536)%Z).
  { intros t. unfold uint16. change 65535%Z with (Z.ones 16).
    now rewrite Z.land_ones by lia. }
  repeat split.
  - exact Hmod.
  - intros t k. rewrite !Hmod. apply Z_mod_plus_full.
  - unfold isCNAME. now rewrite Hmod.
  - unfold isCNAME. now rewrite Hmod.
  - intros ctx dms req i r r' H. unfold dispatch. now rewrite H.
Qed.

Lemma processDNSRequest_result (ctx : Context) (dms : DataManagerService)
    (req out : DNSRequest) :
  outcome (processDNSRequest ctx dms req) = Returned out ->
  (ContextEventBus ctx = NilPointer /\ out = req) \/
  (ContextEventBus ctx <> NilPointer /\
   Forall (fun r => ~ isCNAME r) (reqRecords req) /\
   out = withRecords req (map normalizeRecord (reqRecords req))) \/
  (ContextEventBus ctx <> NilPointer /\
   exists pre r post,
      reqRecords req = (pre ++ r :: post)%list /\
      Forall (fun r' => ~ isCNAME r') pre /\ isCNAME r /\
      out = withRecords req (map normalizeRecord pre ++ normalizeRecord r :: post)).
Proof.
  destruct (ContextEventBus ctx) as [| |bus] eqn:Hb.
  - unfold processDNSRequest. rewrite Hb. discriminate.
  - unfold processDNSRequest. rewrite Hb. cbn. intros [= <-]. now left.
  - assert (Hptr : Pointer bus <> NilPointer) by discriminate.
    destruct (Forall_Exists_dec (fun r => ~ isCNAME r)
                (fun r => match Z.eq_dec (uint16 (ansType r)) TypeCNAME with
                          | left E => right (fun H => H E)
                          | right E => left E
                          end)
                (reqRecords req)) as [Hno|Hex].
    + rewrite (processDNSRequest_plain ctx bus dms req Hb Hno). cbv zeta.
      rewrite outcome_defer, !outcome_bind.
      cbn [heartbeat publish emit outcome snd].
      destruct (outcome (dispatchRecords _ _ _ _ _ _)); [|discriminate].
      cbn. intros [= <-]. right. left. now repeat split.
    + assert (Hex' : Exists isCNAME (reqRecords req)).
      { apply Exists_exists in Hex as (r & Hin & Hr). apply Exists_exists.
        exists r. split; [exact Hin|].
        destruct (Z.eq_dec (uint16 (ansType r)) TypeCNAME) as [E|E];
          [exact E | now elim Hr]. }
      destruct (first_CNAME_split _ Hex') as (pre & r & post & Hreq & Hpre & Hr).
      rewrite (processDNSRequest_cname ctx bus dms req pre r post Hb Hreq Hpre Hr).
      cbv zeta. rewrite outcome_defer, !outcome_bind.
      cbn [heartbeat publish emit outcome snd].
      destruct (outcome (call _ _ _ _ _)); [|discriminate].
      cbn. intros [= <-]. right. right. split; [exact Hptr|].
      now exists pre, r, post.
Qed.

Lemma first_CNAME_unique (pre1 pre2 : list DNSAnswer) (r1 r2 : DNSAnswer)
    (post1 post2 : list DNSAnswer) :
  (pre1 ++ r1 :: post1 = pre2 ++ r2 :: post2)%list ->
  Forall (fun r => ~ isCNAME r) pre1 -> isCNAME r1 ->
  Forall (fun r => ~ isCNAME r) pre2 -> isCNAME r2 ->
  pre1 = pre2 /\ r1 = r2 /\ post1 = post2.
Proof.
  revert pre2. induction pre1 as [|x pre1 IH]; intros [|y pre2] E H1 C1 H2 C2.
  - now injection E as -> ->.
  - injection E as -> _. now elim (Forall_inv H2).
  - injection E as -> _. now elim (Forall_inv H1).
  - injection E as -> E.
    destruct (IH pre2 E (Forall_inv_tail H1) C1 (Forall_inv_tail H2) C2)
      as (-> & -> & ->).
    now repeat split.
Qed.

Lemma normalized_not_CNAME (rs : list DNSAnswer) :
  Forall (fun r => ~ isCNAME r) rs ->
  Forall (fun r => ~ isCNAME r) (map normalizeRecord rs).
Proof. intros H. apply Forall_map. exact H. Qed.

Lemma map_normalize_twice (rs : list DNSAnswer) :
  caseTableLowers ->
  map normalizeRecord (map normalizeRecord rs) = map normalizeRecord rs.
Proof.
  intros H. rewrite map_map. apply map_ext. intros r.
  unfold normalizeRecord. cbn [ansName ansData ansType ansTTL].
  now rewrite !normalize_idem.
Qed.

(** X17: processing the request a call of [processDNSRequest] left behind
    once more, in the same context, leaves it as it is: whatever a second
    call normalises has been normalised by the first, and the first
    record of type CNAME, if any, is still the same record.  The case
    tables are taken to give each code point above ASCII a code point that
    is its own lower case. *)
Theorem process_again_changes_nothing (ctx : Context)
    (dms : DataManagerService) (req out out' : DNSRequest) :
  caseTableLowers ->
  outcome (processDNSRequest ctx dms req) = Returned out ->
  outcome (processDNSRequest ctx dms out) = Returned out' ->
  out' = out.
Proof.
  intros Htab H1 H2.
  assert (Hn : forall r, normalizeRecord (normalizeRecord r) = normalizeRecord r).
  { intros r. unfold normalizeRecord. cbn [ansName ansData ansType ansTTL].
    now rewrite !normalize_idem. }
  assert (Hkeep : forall r, isCNAME (normalizeRecord r) <-> isCNAME r)
    by (intros r; reflexivity).
  apply processDNSRequest_result in H1, H2.
  destruct H1 as [[Hb ->] | [(Hb & Hno & ->)
                            | (Hb & pre & r & post & Hreq & Hpre & Hr & ->)]].
  - destruct H2 as [[_ ->] | [(Hb' & _) | (Hb' & _)]];
      [reflexivity | now elim Hb' | now elim Hb'].
  - destruct H2 as [[Hb' _] | [(_ & Hno' & ->)
                              | (_ & pre & r & post & Hreq & Hpre & Hr & ->)]];
      [now elim Hb | |].
    + unfold withRecords. cbn. now rewrite map_normalize_twice by exact Htab.
    + exfalso. cbn [withRecords reqRecords] in Hreq.
      apply normalized_not_CNAME in Hno. rewrite Hreq in Hno.
      apply Forall_app in Hno as [_ Hno]. now elim (Forall_inv Hno).
  - destruct H2 as [[Hb' _] | [(_ & Hno' & _)
                              | (_ & pre2 & r2 & post2 & Hreq2 & Hpre2 & Hr2 & ->)]];
      [now elim Hb | |].
    + exfalso. cbn [withRecords reqRecords] in Hno'.
      apply Forall_app in Hno' as [_ Hno']. now elim (Forall_inv Hno').
    + cbn [withRecords reqRecords] in Hreq2. symmetry in Hreq2.
      destruct (first_CNAME_unique _ _ _ _ _ _ Hreq2 Hpre2 Hr2
                  (normalized_not_CNAME pre Hpre) Hr) as (-> & -> & ->).
      unfold withRecords. cbn.
      now rewrite map_normalize_twice, Hn by exact Htab.
Qed.

End Service.

(** ** The service on the sample inputs *)

Notation "'sampleHandler'" :=
  (handlerBody Sample.RemoveLastDot Sample.EffectiveTLDPlusOne
     Sample.IPv4FindAll Sample.AnySubdomainFindAll Sample.TrimSpace Sample.caseTable).
Notation "'sampleProcess'" :=
  (processDNSRequest Sample.RemoveLastDot Sample.EffectiveTLDPlusOne
     Sample.IPv4FindAll Sample.AnySubdomainFindAll Sample.TrimSpace Sample.caseTable).
Notation "'sampleOnDNSRequest'" :=
  (OnDNSRequest Sample.RemoveLastDot Sample.EffectiveTLDPlusOne
     Sample.IPv4FindAll Sample.AnySubdomainFindAll Sample.TrimSpace Sample.caseTable).

(** The sample case tables give lower-case code points. *)
Lemma sample_caseTable_lowers : caseTableLowers Sample.caseTable.
Proof.
  split; intros r Hr Hv; apply ValidRune_spec in Hv; unfold Sample.caseTable.
  - destruct (N.leb_spec 192 r); destruct (N.leb_spec r 222);
      destruct (N.eqb_spec r 215); cbn [andb negb];
      destruct (N.eqb_spec r 8490); apply ValidRune_spec; lia.
  - destruct (N.leb_spec 192 r); destruct (N.leb_spec r 222);
      destruct (N.eqb_spec r 215); cbn [andb negb];
      destruct (N.eqb_spec r 8490); unfold unicodeToLower;
      repeat match goal with
      | |- context [(?a <=? ?b)%N] => destruct (N.leb_spec a b)
      | |- context [(?a =? ?b)%N] => destruct (N.eqb_spec a b)
      end; cbn [andb negb]; lia.
Qed.

(** [strings.ToLower] beyond ASCII: a capital E with acute accent
    ([c3 89]) becomes the small one ([c3 a9]), the Kelvin sign
    ([e2 84 aa]) becomes ['k'], and a byte that is not UTF-8 ([ff]) becomes
    [RuneError] ([ef bf bd]). *)
Example ToLower_beyond_ascii :
  ToLower Sample.caseTable Sample.ecole = Sample.ecoleLow /\
  ToLower Sample.caseTable Sample.kelvin = "k.example.com" /\
  ToLower Sample.caseTable (String (ascii_of_N 255) "A.")
  = String (ascii_of_N 239) (String (ascii_of_N 191) (String (ascii_of_N 189) "a.")).
Proof. repeat split. Qed.

(** The sample [TrimSpace] on white space that is not ASCII: a no-break
    space ([c2 a0]) in front and an en quad ([e2 80 80]) and a line feed
    behind go, and data that is only a no-break space is left empty, so that
    the A handler returns without writing. *)
Example TrimSpace_beyond_ascii :
  Sample.TrimSpace
    (String (ascii_of_N 194) (String (ascii_of_N 160)
       ("192.0.2.1"
        ++ String (ascii_of_N 226) (String (ascii_of_N 128)
             (String (ascii_of_N 128) (String (ascii_of_N 10) ""))))))
  = "192.0.2.1" /\
  Sample.TrimSpace " 192.0.2.1 " = "192.0.2.1" /\
  Sample.TrimSpace (String (ascii_of_N 194) (String (ascii_of_N 160) "")) = "" /\
  insertA Sample.TrimSpace Sample.ctx Sample.dms
    (Sample.reqOf
       [mkDNSAnswer "www.example.com" TypeA 300
          (String (ascii_of_N 194) (String (ascii_of_N 160) ""))]) 0
  = ([], Returned tt).
Proof. repeat split. Qed.

Example process_cname_sample :
  handlerCalls (trace (sampleProcess Sample.ctx Sample.dms Sample.cnameThenA))
  = [(hCNAME, 0)] /\
  nameEvents (trace (sampleProcess Sample.ctx Sample.dms Sample.cnameThenA))
  = [mkDNSRequest "edge.cdn.example.net" "example.net" [] DNS "DNS"].
Proof. split; reflexivity. Qed.

Example process_txt_sample :
  nameEvents (trace (sampleProcess Sample.ctx Sample.dms Sample.oneTXT))
  = [mkDNSRequest "_spf.example.com" "example.com" [] DNS "DNS"] /\
  graphInserts (trace (sampleProcess Sample.ctx Sample.dms Sample.oneTXT)) = [].
Proof. split; reflexivity. Qed.

Example process_ns_mx_sample :
  nameEvents (trace (sampleProcess Sample.ctx Sample.dms1 Sample.apexNS)) = [] /\
  graphInserts (trace (sampleProcess Sample.ctx Sample.dms1 Sample.apexNS))
  = [("graph-1", InsertNS "www.example.com" "example.com" "DNS" DNS "run-1")] /\
  nameEvents (trace (sampleProcess Sample.ctx Sample.dms1 Sample.oneMX))
  = [mkDNSRequest "mail.example.com" "example.com" [] DNS "DNS"].
Proof. repeat split. Qed.

Example nil_bus_sample :
  sampleOnDNSRequest Sample.ctxNilBus Sample.dms Sample.oneA [SelDefault true]
  = ([], Returned ExitNoBus).
Proof. reflexivity. Qed.

Lemma no_empty_domain_event_witness :
  nth_error (reqRecords Sample.badCNAME) 0
  = Some (mkDNSAnswer "www.example.com" TypeCNAME 300 "localhost") /\
  Sample.EffectiveTLDPlusOne (Sample.RemoveLastDot "localhost") = None /\
  trace (insertCNAME Sample.RemoveLastDot Sample.EffectiveTLDPlusOne Sample.caseTable
           Sample.ctx Sample.dms Sample.badCNAME 0) = [] /\
  Forall (fun e => reqDomain e <> "")
    (nameEvents (trace (sampleProcess Sample.ctx Sample.dms Sample.cnameThenA))).
Proof.
  destruct (no_empty_domain_event Sample.RemoveLastDot
              Sample.EffectiveTLDPlusOne Sample.IPv4FindAll
              Sample.AnySubdomainFindAll Sample.TrimSpace Sample.caseTable)
    as (_ & Hprocess & _ & _ & Hfail & _).
  split; [reflexivity|]. split; [reflexivity|]. split.
  - apply (Hfail Sample.ctx Sample.dms Sample.badCNAME 0
             (mkDNSAnswer "www.example.com" TypeCNAME 300 "localhost")
             eq_refl).
    reflexivity.
  - apply Hprocess.
Defined.

Lemma cname_exclusive_witness :
  ContextEventBus Sample.ctx = Pointer TheEventBus /\
  Exists isCNAME (reqRecords Sample.cnameThenA) /\
  exists pre r post,
    reqRecords Sample.cnameThenA = (pre ++ r :: post)%list /\
    Forall (fun r' => ~ isCNAME r') pre /\
    isCNAME r /\
    handlerCalls (trace (sampleProcess Sample.ctx Sample.dms Sample.cnameThenA))
    = [(hCNAME, List.length pre)].
Proof.
  assert (Hex : Exists isCNAME (reqRecords Sample.cnameThenA))
    by (left; reflexivity).
  split; [reflexivity|]. split; [exact Hex|].
  exact (cname_exclusive Sample.RemoveLastDot Sample.EffectiveTLDPlusOne
           Sample.IPv4FindAll Sample.AnySubdomainFindAll Sample.TrimSpace Sample.caseTable
           Sample.ctx TheEventBus Sample.dms Sample.cnameThenA eq_refl Hex).
Defined.

(** C3, as stated, fails: the CNAME handler is called while the first
    record's name still starts with a space and while the second record is
    neither lower-case nor free of its final dot. *)
Lemma normalization_misses_space_and_tail :
  let run := sampleProcess Sample.ctx Sample.dms Sample.cnameThenA in
  handlerInputs (trace run)
  = [ Sample.reqOf
        [ mkDNSAnswer " www.example.com" TypeCNAME 300 "edge.cdn.example.net";
          mkDNSAnswer "Other.Example.COM." TypeA 300 "192.0.2.1" ] ] /\
  ~ noOuterSpace " www.example.com" /\
  ~ noTrailingDot "Other.Example.COM." /\
  ~ isLowerCase Sample.caseTable "Other.Example.COM." /\
  ~ (forall req',
        In req' (handlerInputs (trace run)) ->
        Forall (fun r => specNormalized Sample.caseTable (ansName r) /\ specNormalized Sample.caseTable (ansData r))
          (reqRecords req')).
Proof.
  assert (Hspace : ~ noOuterSpace " www.example.com").
  { intros [H _]. specialize (H " "%char eq_refl). discriminate. }
  repeat split.
  - exact Hspace.
  - intros H. now apply H.
  - intros H. discriminate.
  - intros H. specialize (H _ (or_introl eq_refl)).
    apply Forall_inv in H. destruct H as [[H _] _]. now apply Hspace.
Qed.

Lemma normalization_before_dispatch_witness :
  ContextEventBus Sample.ctx = Pointer TheEventBus /\
  handlerInputs (trace (sampleProcess Sample.ctx Sample.dms Sample.cnameThenA))
  = [ withRecords Sample.cnameThenA
        [ normalizeRecord Sample.caseTable
            (mkDNSAnswer " WWW.Example.COM." TypeCNAME 300 "Edge.CDN.Example.NET.");
          mkDNSAnswer "Other.Example.COM." TypeA 300 "192.0.2.1" ] ] /\
  Forall (eq (withRecords Sample.oneA
                (map (normalizeRecord Sample.caseTable) (reqRecords Sample.oneA))))
    (handlerInputs (trace (sampleProcess Sample.ctx Sample.dms Sample.oneA))) /\
  (let r := normalizeRecord Sample.caseTable
              (mkDNSAnswer Sample.ecole TypeA 300 ".192.0.2.1.") in
   ansName r
   = String (ascii_of_N 195) (String (ascii_of_N 169) "cole.example.com") /\
   ansData r = "192.0.2.1" /\
   noLeadingDot (ansData r) /\ noTrailingDot (ansName r) /\
   isLowerCase Sample.caseTable (ansName r)).
Proof.
  pose proof (normalization_before_dispatch Sample.RemoveLastDot
                Sample.EffectiveTLDPlusOne Sample.IPv4FindAll
                Sample.AnySubdomainFindAll Sample.TrimSpace Sample.caseTable
                Sample.ctx TheEventBus Sample.dms) as H.
  split; [reflexivity|]. split; [|split].
  - destruct (H Sample.cnameThenA eq_refl) as (_ & _ & _ & Hcname).
    apply (Hcname [] _ _ eq_refl); [constructor | reflexivity].
  - destruct (H Sample.oneA eq_refl) as (_ & _ & Hplain & _).
    apply Hplain. repeat constructor. discriminate.
  - destruct (H Sample.oneA eq_refl) as (Hdots & Hlow & _ & _).
    intros r. split; [reflexivity|]. split; [reflexivity|].
    destruct (Hdots (mkDNSAnswer Sample.ecole TypeA 300 ".192.0.2.1."))
      as [[_ Hn] [Hd _]].
    split; [exact Hd|]. split; [exact Hn|].
    apply (Hlow sample_caseTable_lowers).
Defined.

(** C4, as stated, fails: the PTR target is not empty, [WhichDomain] finds
    no domain for it, and no sink is given the fact although three are
    configured. *)
Lemma ptr_fact_not_written :
  let run := sampleProcess Sample.ctx Sample.dms Sample.onePTR in
  handlerCalls (trace run) = [(hPTR, 0)] /\
  Sample.RemoveLastDot "host.other.org" = "host.other.org" /\
  WhichDomain Sample.cfg "host.other.org" = "" /\
  nameEvents (trace run) = [] /\
  graphInserts (trace run) = [] /\
  ~ (forall g, In g (GraphDatabases Sample.dms) ->
               exists c, In (graphString g, c) (graphInserts (trace run))).
Proof.
  repeat split.
  intros H. destruct (H Sample.good1 (or_introl eq_refl)) as [c []].
Qed.

Lemma ptr_scope_guards_fact_witness :
  let r := mkDNSAnswer "1.2.0.192.in-addr.arpa" TypePTR 300 "host.other.org" in
  let req := withRecords Sample.onePTR [r] in
  ContextConfig Sample.ctx = Pointer Sample.cfg /\
  ContextEventBus Sample.ctx = Pointer TheEventBus /\
  nth_error (reqRecords req) 0 = Some r /\
  Sample.RemoveLastDot (ansData r) <> "" /\
  WhichDomain Sample.cfg (Sample.RemoveLastDot (ansData r)) = "" /\
  insertPTR Sample.RemoveLastDot Sample.caseTable Sample.ctx Sample.dms req 0 = ([], Returned tt).
Proof.
  intros r req.
  assert (Ht : Sample.RemoveLastDot (ansData r) <> "") by discriminate.
  split; [reflexivity|]. split; [reflexivity|]. split; [reflexivity|].
  split; [exact Ht|]. split; [reflexivity|].
  apply (proj1 (ptr_scope_guards_fact Sample.RemoveLastDot Sample.caseTable Sample.ctx
                  Sample.cfg TheEventBus Sample.dms req 0 r
                  eq_refl eq_refl eq_refl Ht)).
  reflexivity.
Defined.

(** On a context without the keys, as [context.Background()] is, the
    call of [OnDNSRequest] panics before anything is done, and so do the A
    handler and [OnASNRequest].  With the bus there and the configuration
    key missing, [OnDNSRequest] takes the slot and starts the task, and the
    A handler panics in it. *)
Lemma absent_dependency_panics_witness :
  ContextEventBus Sample.ctxEmpty = NoValue /\
  ContextConfig Sample.ctxEmpty = NoValue /\
  sampleOnDNSRequest Sample.ctxEmpty Sample.dms Sample.oneA [SelDefault true]
  = ([], Panicked) /\
  sampleHandler hA Sample.ctxEmpty Sample.dms Sample.oneA 0 = ([], Panicked) /\
  OnASNRequest Sample.ctxEmpty Sample.dms Sample.asn = ([], Panicked) /\
  ContextConfig Sample.ctxNoConfig = NoValue /\
  sampleOnDNSRequest Sample.ctxNoConfig Sample.dms Sample.oneA [SelDefault true]
  = ([ TryAcquire 1 true; Go;
       Publish SetActiveTopic PriorityCritical (PString "Data Manager");
       Publish SetActiveTopic PriorityCritical (PString "Data Manager");
       Enter hA 0 Sample.oneA;
       Release 1 ], Panicked).
Proof.
  destruct (absent_dependency_panics Sample.RemoveLastDot
              Sample.EffectiveTLDPlusOne Sample.IPv4FindAll
              Sample.AnySubdomainFindAll Sample.TrimSpace Sample.caseTable
              Sample.ctxEmpty Sample.dms) as [Hbus Hcfg].
  destruct (Hbus eq_refl) as (Hon & _ & _ & _).
  destruct (Hcfg eq_refl) as (Hh & _ & Hasn).
  split; [reflexivity|]. split; [reflexivity|].
  split; [apply Hon|]. split; [apply Hh|].
  split; [apply Hasn; discriminate|].
  split; reflexivity.
Defined.

Lemma backoff_delays_witness :
  let run := sampleOnDNSRequest Sample.ctx Sample.dms Sample.oneA Sample.blocked in
  sleeps (trace run)
  = map (fun d => (d * Millisecond)%Z) [25; 50; 75; 100; 150; 250; 500; 500; 500]%Z /\
  nth_error (sleeps (trace run)) 7 = Some (500 * Millisecond)%Z /\
  (500 * Millisecond
   = nth (Nat.min 7 6) [25; 50; 75; 100; 150; 250; 500] 0 * Millisecond)%Z /\
  (500 * Millisecond <= 500 * Millisecond)%Z.
Proof.
  intros run. split; [reflexivity|]. split; [reflexivity|].
  exact (proj1 (proj2 (backoff_delays Sample.RemoveLastDot
                         Sample.EffectiveTLDPlusOne Sample.IPv4FindAll
                         Sample.AnySubdomainFindAll Sample.TrimSpace Sample.caseTable
                         Sample.ctx Sample.dms Sample.oneA Sample.blocked))
           7 (500 * Millisecond)%Z eq_refl).
Defined.

(** On three sinks of which the second always fails, the A handler gives
    the fact to all three, logs the failure of the second between the second
    and the third call, publishes the address and the heartbeat, and
    returns; [OnASNRequest] does the same with its fact. *)
Lemma sink_failure_isolated_witness :
  let fact := InsertA "www.example.com" "192.0.2.1" "DNS" DNS "run-1" in
  let infra :=
    InsertInfrastructure 64496 "EXAMPLE-AS" "192.0.2.1" "192.0.2.0/24"
      "Sample" "api" "run-1" in
  let run := sampleHandler hA Sample.ctx Sample.dms Sample.oneA 0 in
  GraphDatabases Sample.dms = [Sample.good1; Sample.bad; Sample.good2] /\
  graphInsert Sample.bad fact = Some "disk full" /\
  run
  = ([ GraphInsert "graph-1" fact;
       GraphInsert "graph-2" fact;
       Publish LogTopic PriorityHigh
         (PString "graph-2 failed to insert A record: disk full");
       GraphInsert "graph-3" fact;
       Publish NewAddrTopic PriorityHigh
         (PAddrRequest (mkAddrRequest "192.0.2.1" "example.com" DNS "DNS"));
       Publish SetActiveTopic PriorityCritical (PString "Data Manager") ],
     Returned tt) /\
  withoutLogs (trace run)
  = trace (sampleHandler hA Sample.ctx (reliable Sample.dms) Sample.oneA 0) /\
  OnASNRequest Sample.ctx Sample.dms Sample.asn
  = ([ GraphInsert "graph-1" infra;
       GraphInsert "graph-2" infra;
       Publish LogTopic PriorityHigh
         (PString
            "Data Manager: graph-2 failed to insert infrastructure data: disk full");
       GraphInsert "graph-3" infra;
       Publish SetActiveTopic PriorityCritical (PString "Data Manager") ],
     Returned tt).
Proof.
  intros fact infra run.
  destruct (sink_failure_isolated Sample.RemoveLastDot
              Sample.EffectiveTLDPlusOne Sample.IPv4FindAll
              Sample.AnySubdomainFindAll Sample.TrimSpace Sample.caseTable)
    as (Hsim & _ & _ & Hrun & Hasn).
  split; [reflexivity|]. split; [reflexivity|]. split; [|split].
  - destruct (Hrun Sample.ctx Sample.cfg TheEventBus Sample.dms Sample.oneA 0
                (mkDNSAnswer "www.example.com" TypeA 300 "192.0.2.1")
                eq_refl eq_refl eq_refl) as (_ & HA & _).
    assert (Ha : "192.0.2.1" <> "") by discriminate.
    exact (HA "192.0.2.1" eq_refl Ha).
  - exact (proj1 (proj2 (Hsim hA Sample.ctx Sample.dms Sample.oneA 0))).
  - assert (H1 : asnAddress Sample.asn <> "") by discriminate.
    assert (H2 : asnPrefix Sample.asn <> "") by discriminate.
    assert (H3 : asnDescription Sample.asn <> "") by discriminate.
    exact (Hasn Sample.ctx Sample.cfg TheEventBus Sample.dms Sample.asn
             eq_refl eq_refl H1 H2 H3).
Defined.

Lemma ns_mx_follow_up_witness :
  let r := mkDNSAnswer "example.com" TypeNS 300 "example.com,ns1.example.com" in
  ContextConfig Sample.ctx = Pointer Sample.cfg /\
  ContextEventBus Sample.ctx = Pointer TheEventBus /\
  nth_error (reqRecords Sample.oneNS) 0 = Some r /\
  last (Split (ansData r) ",") "" = "ns1.example.com" /\
  Sample.EffectiveTLDPlusOne "ns1.example.com" = Some "example.com" /\
  nameEvents (trace (insertNS Sample.EffectiveTLDPlusOne Sample.caseTable Sample.ctx Sample.dms
                       Sample.oneNS 0))
  = [mkDNSRequest "ns1.example.com" "example.com" [] DNS "DNS"].
Proof.
  intros r.
  split; [reflexivity|]. split; [reflexivity|]. split; [reflexivity|].
  split; [reflexivity|]. split; [reflexivity|].
  destruct (ns_mx_follow_up Sample.RemoveLastDot Sample.EffectiveTLDPlusOne Sample.caseTable
              Sample.ctx Sample.cfg TheEventBus Sample.dms Sample.oneNS 0 r
              eq_refl eq_refl eq_refl) as [[_ Hns] _].
  assert (H1 : last (Split (ansData r) ",") "" <> "") by discriminate.
  assert (H2 : ToLower Sample.caseTable "example.com" <> "") by discriminate.
  destruct (Hns "example.com" H1 eq_refl H2) as (_ & _ & Hev & _).
  apply Hev. discriminate.
Defined.

(** Normalising twice, on names that are not ASCII and on a byte that is
    not UTF-8. *)
Lemma normalize_idempotent_witness :
  let low := String (ascii_of_N 195) (String (ascii_of_N 169) "cole.example.com") in
  let bad := String (ascii_of_N 255) ".Example.COM." in
  caseTableLowers Sample.caseTable /\
  normalize Sample.caseTable Sample.ecole = low /\
  normalize Sample.caseTable (normalize Sample.caseTable Sample.ecole) = low /\
  normalize Sample.caseTable Sample.kelvin = "k.example.com" /\
  normalize Sample.caseTable (normalize Sample.caseTable Sample.kelvin)
  = "k.example.com" /\
  normalize Sample.caseTable (normalize Sample.caseTable bad)
  = normalize Sample.caseTable bad /\
  normalize Sample.caseTable bad
  = String (ascii_of_N 239) (String (ascii_of_N 191) (String (ascii_of_N 189)
      ".example.com")).
Proof.
  intros low bad.
  destruct (normalize_idempotent Sample.caseTable sample_caseTable_lowers)
    as (Hx & _ & _).
  split; [exact sample_caseTable_lowers|].
  split; [reflexivity|]. split; [exact (Hx Sample.ecole)|].
  split; [reflexivity|]. split; [exact (Hx Sample.kelvin)|].
  split; [exact (Hx bad) | reflexivity].
Defined.

Lemma insertTXT_insertSPF_equal_witness :
  reqName Sample.oneTXT = reqName Sample.oneSPF /\
  reqDomain Sample.oneTXT = reqDomain Sample.oneSPF /\
  sampleHandler hTXT Sample.ctx Sample.dms Sample.oneTXT 0
  = sampleHandler hSPF Sample.ctx Sample.dms Sample.oneSPF 0.
Proof.
  split; [reflexivity|]. split; [reflexivity|].
  exact (proj2 (insertTXT_insertSPF_equal Sample.IPv4FindAll
                  Sample.AnySubdomainFindAll Sample.caseTable)
           Sample.ctx Sample.dms Sample.oneTXT Sample.oneSPF 0 0 _ _
           eq_refl eq_refl eq_refl eq_refl eq_refl).
Defined.

(** ** Further properties on the sample inputs *)

Lemma no_panic_with_pointers_witness :
  ContextConfig Sample.ctxNilConfig <> NoValue /\
  ContextEventBus Sample.ctxNilConfig <> NoValue /\
  safe (sampleOnDNSRequest Sample.ctxNilConfig Sample.dms Sample.mixed
          Sample.blocked) /\
  safe (sampleHandler hMX Sample.ctxNilConfig Sample.dms Sample.mixed 2).
Proof.
  assert (Hc : ContextConfig Sample.ctxNilConfig <> NoValue) by discriminate.
  assert (Hb : ContextEventBus Sample.ctxNilConfig <> NoValue) by discriminate.
  destruct (no_panic_with_pointers Sample.RemoveLastDot
              Sample.EffectiveTLDPlusOne Sample.IPv4FindAll
              Sample.AnySubdomainFindAll Sample.TrimSpace Sample.caseTable Sample.ctxNilConfig Sample.dms Hc Hb)
    as (Hon & _ & _ & _ & Hh).
  split; [exact Hc|]. split; [exact Hb|]. split.
  - apply Hon.
  - apply Hh. cbn. lia.
Defined.

Lemma admission_brackets_task_witness :
  ContextEventBus Sample.ctx = Pointer TheEventBus /\
  exists w,
    Forall (fun e => isWaitingEffect e = true) w /\
    ((trace (sampleOnDNSRequest Sample.ctx Sample.dms Sample.oneA Sample.blocked)
      = w /\
      exists k,
        outcome (sampleOnDNSRequest Sample.ctx Sample.dms Sample.oneA Sample.blocked)
        = Returned (ExitQuit k) \/
        outcome (sampleOnDNSRequest Sample.ctx Sample.dms Sample.oneA Sample.blocked)
        = Returned (ExitWaiting k)) \/
     (exists body,
         trace (sampleOnDNSRequest Sample.ctx Sample.dms Sample.oneA Sample.blocked)
         = (w ++ TryAcquire 1 true :: Go :: body ++ [Release 1])%list /\
         Forall (fun e => isTaskEffect e = true) body /\
         (body ++ [Release 1])%list
         = trace (sampleProcess Sample.ctx Sample.dms Sample.oneA))).
Proof.
  split; [reflexivity|].
  exact (admission_brackets_task Sample.RemoveLastDot
           Sample.EffectiveTLDPlusOne Sample.IPv4FindAll
           Sample.AnySubdomainFindAll Sample.TrimSpace Sample.caseTable
           Sample.ctx TheEventBus Sample.dms Sample.oneA Sample.blocked eq_refl).
Defined.

Lemma quit_abandons_task_witness :
  let pre := [SelDefault false; SelTick; SelDefault false] in
  ContextEventBus Sample.ctx = Pointer TheEventBus /\
  Forall (fun c => isWaitingChoice c = true) pre /\
  outcome (sampleOnDNSRequest Sample.ctx Sample.dms Sample.oneA
             (pre ++ SelQuit :: [SelDefault true]))
  = Returned (ExitQuit 2) /\
  handlerCalls (trace (sampleOnDNSRequest Sample.ctx Sample.dms Sample.oneA
                         (pre ++ SelQuit :: [SelDefault true]))) = [].
Proof.
  intros pre.
  assert (Hpre : Forall (fun c => isWaitingChoice c = true) pre)
    by (repeat constructor).
  destruct (quit_abandons_task Sample.RemoveLastDot
              Sample.EffectiveTLDPlusOne Sample.IPv4FindAll
              Sample.AnySubdomainFindAll Sample.TrimSpace Sample.caseTable
              Sample.ctx TheEventBus Sample.dms Sample.oneA pre
              [SelDefault true] eq_refl Hpre) as (Ho & _ & Hcalls & _).
  split; [reflexivity|]. split; [exact Hpre|]. split; [exact Ho | exact Hcalls].
Defined.

Lemma dispatch_in_input_order_witness :
  ContextConfig Sample.ctx <> NoValue /\
  ContextEventBus Sample.ctx = Pointer TheEventBus /\
  Forall (fun r => ~ isCNAME r) (reqRecords Sample.mixed) /\
  handlerCalls (trace (sampleProcess Sample.ctx Sample.dms Sample.mixed))
  = supportedFrom 0 (reqRecords Sample.mixed) /\
  supportedFrom 0 (reqRecords Sample.mixed) = [(hA, 0); (hMX, 2); (hA, 3)].
Proof.
  assert (Hc : ContextConfig Sample.ctx <> NoValue) by discriminate.
  assert (Hno : Forall (fun r => ~ isCNAME r) (reqRecords Sample.mixed))
    by (repeat constructor; discriminate).
  split; [exact Hc|]. split; [reflexivity|]. split; [exact Hno|].
  split; [|reflexivity].
  exact (dispatch_in_input_order Sample.RemoveLastDot
           Sample.EffectiveTLDPlusOne Sample.IPv4FindAll
           Sample.AnySubdomainFindAll Sample.TrimSpace Sample.caseTable
           Sample.ctx TheEventBus Sample.dms Sample.mixed Hc eq_refl Hno).
Defined.


Lemma srv_writes_before_scope_witness :
  let r := mkDNSAnswer "_sip._tcp.example.com" TypeSRV 300 "sip.other.org" in
  ContextConfig Sample.ctx = Pointer Sample.cfg /\
  ContextEventBus Sample.ctx = Pointer TheEventBus /\
  nth_error (reqRecords Sample.oneSRV) 0 = Some r /\
  Sample.RemoveLastDot (ansData r) <> "" /\
  Sample.RemoveLastDot (ansName r) <> "" /\
  WhichDomain Sample.cfg (Sample.RemoveLastDot (ansData r)) = "" /\
  graphInserts (trace (insertSRV Sample.RemoveLastDot Sample.ctx Sample.dms
                         Sample.oneSRV 0))
  = map (fun g => (graphString g,
                   InsertSRV "www.example.com"
                     (Sample.RemoveLastDot (ansName r))
                     (Sample.RemoveLastDot (ansData r)) "DNS" DNS "run-1"))
        (GraphDatabases Sample.dms).
Proof.
  intros r.
  assert (Ht : Sample.RemoveLastDot (ansData r) <> "") by discriminate.
  assert (Hs : Sample.RemoveLastDot (ansName r) <> "") by discriminate.
  destruct (srv_writes_before_scope Sample.RemoveLastDot Sample.ctx Sample.cfg
              TheEventBus Sample.dms Sample.oneSRV 0 r eq_refl eq_refl eq_refl)
    as (_ & H).
  destruct (H Ht Hs) as (Hins & _).
  split; [reflexivity|]. split; [reflexivity|]. split; [reflexivity|].
  split; [exact Ht|]. split; [exact Hs|]. split; [reflexivity | exact Hins].
Defined.

Lemma cname_always_requeues_witness :
  let r := mkDNSAnswer "www.example.com" TypeCNAME 300 "example.net" in
  ContextConfig Sample.ctx = Pointer Sample.cfg /\
  ContextEventBus Sample.ctx = Pointer TheEventBus /\
  nth_error (reqRecords Sample.apexCNAME) 0 = Some r /\
  Sample.RemoveLastDot (ansData r) <> "" /\
  Sample.EffectiveTLDPlusOne (Sample.RemoveLastDot (ansData r))
  = Some "example.net" /\
  ToLower Sample.caseTable "example.net" <> "" /\
  nameEvents (trace (insertCNAME Sample.RemoveLastDot Sample.EffectiveTLDPlusOne Sample.caseTable
                       Sample.ctx Sample.dms Sample.apexCNAME 0))
  = [mkDNSRequest (Sample.RemoveLastDot (ansData r)) (ToLower Sample.caseTable "example.net")
       [] DNS "DNS"].
Proof.
  intros r.
  assert (Ht : Sample.RemoveLastDot (ansData r) <> "") by discriminate.
  assert (Hd : ToLower Sample.caseTable "example.net" <> "") by discriminate.
  destruct (cname_always_requeues Sample.RemoveLastDot
              Sample.EffectiveTLDPlusOne Sample.caseTable Sample.ctx Sample.cfg TheEventBus
              Sample.dms Sample.apexCNAME 0 r "example.net"
              eq_refl eq_refl eq_refl Ht eq_refl Hd) as (_ & Hev & _).
  split; [reflexivity|]. split; [reflexivity|]. split; [reflexivity|].
  split; [exact Ht|]. split; [reflexivity|]. split; [exact Hd | exact Hev].
Defined.


Lemma txt_scope_gate_witness :
  ContextConfig Sample.ctxNilBus = Pointer Sample.cfg /\
  IsDomainInScope Sample.cfg (reqName Sample.foreignTXT) = false /\
  insertTXT Sample.IPv4FindAll Sample.AnySubdomainFindAll Sample.caseTable Sample.ctxNilBus
    Sample.dms Sample.foreignTXT 7 = ([], Returned tt).
Proof.
  split; [reflexivity|]. split; [reflexivity|].
  apply (proj1 (txt_scope_gate Sample.IPv4FindAll Sample.AnySubdomainFindAll Sample.caseTable
                  Sample.ctxNilBus Sample.cfg Sample.dms Sample.foreignTXT 7
                  eq_refl)).
  reflexivity.
Defined.

Lemma asn_request_path_witness :
  asnPrefix Sample.asnNoPrefix = "" /\
  OnASNRequest Sample.ctxEmpty Sample.dms Sample.asnNoPrefix = ([], Returned tt).
Proof.
  split; [reflexivity|].
  apply (proj1 (asn_request_path Sample.ctxEmpty Sample.dms Sample.asnNoPrefix)).
  right. left. reflexivity.
Defined.

Lemma normalize_fixpoints_witness :
  let low := String (ascii_of_N 195) (String (ascii_of_N 169) "cole.example.com") in
  caseTableLowers Sample.caseTable /\
  codeNormalized Sample.caseTable low /\
  normalize Sample.caseTable low = low /\
  normalize Sample.caseTable Sample.ecole = low /\
  ~ codeNormalized Sample.caseTable Sample.ecole.
Proof.
  intros low.
  pose proof (normalize_fixpoints Sample.caseTable) as F.
  assert (H : codeNormalized Sample.caseTable low).
  { split; [discriminate|]. split; [discriminate | reflexivity]. }
  split; [exact sample_caseTable_lowers|]. split; [exact H|].
  split; [exact (proj2 (F low sample_caseTable_lowers) H)|].
  split; [reflexivity|].
  intros H'. apply (F Sample.ecole sample_caseTable_lowers) in H'.
  discriminate H'.
Defined.

Lemma process_changes_only_a_prefix_witness :
  let out :=
    Sample.reqOf
      [ mkDNSAnswer " www.example.com" TypeCNAME 300 "edge.cdn.example.net";
        mkDNSAnswer "Other.Example.COM." TypeA 300 "192.0.2.1" ] in
  outcome (sampleProcess Sample.ctx Sample.dms Sample.cnameThenA) = Returned out /\
  exists k,
    out = withRecords Sample.cnameThenA
            (map (normalizeRecord Sample.caseTable) (firstn k (reqRecords Sample.cnameThenA))
             ++ skipn k (reqRecords Sample.cnameThenA)).
Proof.
  intros out. split; [reflexivity|].
  exact (process_changes_only_a_prefix Sample.RemoveLastDot
           Sample.EffectiveTLDPlusOne Sample.IPv4FindAll
           Sample.AnySubdomainFindAll Sample.TrimSpace Sample.caseTable
           Sample.ctx Sample.dms Sample.cnameThenA out eq_refl).
Defined.

Lemma retry_counter_counts_failures_witness :
  let script := (SelTick :: repeat (SelDefault false) 9)%list in
  ContextEventBus Sample.ctx = Pointer TheEventBus /\
  Forall (fun c => isWaitingChoice c = true) script /\
  outcome (sampleOnDNSRequest Sample.ctx Sample.dms Sample.oneA script)
  = Returned (ExitWaiting (Nat.min (List.length (filter isBusy script)) 6)) /\
  Nat.min (List.length (filter isBusy script)) 6 = 6.
Proof.
  intros script.
  assert (Hs : Forall (fun c => isWaitingChoice c = true) script)
    by (repeat constructor).
  split; [reflexivity|]. split; [exact Hs|]. split; [|reflexivity].
  exact (proj1 (retry_counter_counts_failures Sample.RemoveLastDot
                  Sample.EffectiveTLDPlusOne Sample.IPv4FindAll
                  Sample.AnySubdomainFindAll Sample.TrimSpace Sample.caseTable
                  Sample.ctx TheEventBus Sample.dms Sample.oneA script
                  eq_refl Hs)).
Defined.

Lemma ns_target_after_last_comma_witness :
  hasByte "," "ns1.example.com" = false /\
  last (Split "ns1.example.com" ",") "" = "ns1.example.com".
Proof.
  split; [reflexivity|].
  apply (proj2 (proj2 (proj1 (ns_target_after_last_comma
                                Sample.EffectiveTLDPlusOne Sample.caseTable)
                         "ns1.example.com"))).
  reflexivity.
Defined.

Lemma type_codes_wrap_witness :
  let r := mkDNSAnswer "www.example.com" TypeA 300 "192.0.2.1" in
  let r' := mkDNSAnswer "www.example.com" 65537 300 "192.0.2.1" in
  uint16 (ansType r) = uint16 (ansType r') /\
  dispatch Sample.RemoveLastDot Sample.EffectiveTLDPlusOne Sample.IPv4FindAll
    Sample.AnySubdomainFindAll Sample.TrimSpace Sample.caseTable Sample.ctx Sample.dms Sample.oneA 0 r
  = dispatch Sample.RemoveLastDot Sample.EffectiveTLDPlusOne Sample.IPv4FindAll
      Sample.AnySubdomainFindAll Sample.TrimSpace Sample.caseTable Sample.ctx Sample.dms Sample.oneA 0 r'.
Proof.
  intros r r'. split; [reflexivity|].
  apply (proj2 (proj2 (proj2 (type_codes_wrap Sample.RemoveLastDot
                                Sample.EffectiveTLDPlusOne Sample.IPv4FindAll
                                Sample.AnySubdomainFindAll Sample.TrimSpace Sample.caseTable)))).
  reflexivity.
Defined.

Lemma process_again_changes_nothing_witness :
  let req := Sample.reqOf [mkDNSAnswer Sample.ecole TypeA 300 "192.0.2.1."] in
  let out :=
    Sample.reqOf
      [ mkDNSAnswer
          (String (ascii_of_N 195) (String (ascii_of_N 169) "cole.example.com"))
          TypeA 300 "192.0.2.1" ] in
  caseTableLowers Sample.caseTable /\
  outcome (sampleProcess Sample.ctx Sample.dms req) = Returned out /\
  forall out',
    outcome (sampleProcess Sample.ctx Sample.dms out) = Returned out' ->
    out' = out.
Proof.
  intros req out. split; [exact sample_caseTable_lowers|].
  split; [reflexivity|]. intros out' H.
  exact (process_again_changes_nothing Sample.RemoveLastDot
           Sample.EffectiveTLDPlusOne Sample.IPv4FindAll
           Sample.AnySubdomainFindAll Sample.TrimSpace Sample.caseTable
           Sample.ctx Sample.dms req out out' sample_caseTable_lowers
           eq_refl H).
Defined.
